(** * Prompt Analyzer: the analysis endpoint and the client surface

    A shallow embedding of [src/app/api/analyze/route.ts] (the [POST] handler)
    and of the page component [Home] (its state, its handlers and the values
    it renders), followed by the properties proved about them.

    Layout: the JavaScript data the code manipulates (strings as UTF-16 code
    units, JSON values, thrown values), the engine functions the code calls
    but does not define ([JSON.parse], [JSON.stringify], ...) gathered in the
    class [Host], the two source files, a reference host on which everything
    evaluates, and then the lemmas and theorems. *)

From Stdlib Require Import List NArith ZArith Bool String Ascii Floats DecimalString Lia.
Import ListNotations.

(* ===================================================================== *)
(** * JavaScript strings *)
(* ===================================================================== *)

(** A JavaScript string is a sequence of UTF-16 code units. *)
Definition jsstring : Type := list N.

(** Literals: an ASCII text read as its code units. *)
Definition js (s : string) : jsstring := map N_of_ascii (list_ascii_of_string s).
Arguments js : simpl never.

Definition LF : N := 10.
Definition QUOTE : N := 34.
Definition BACKTICK : N := 96.

(** [quoted s] is [s] between two double quotes. *)
Definition quoted (s : string) : jsstring := QUOTE :: js s ++ [QUOTE].

(** The lines of a template literal, joined by line feeds. *)
Fixpoint joinLines (ls : list jsstring) : jsstring :=
  match ls with
  | [] => []
  | [l] => l
  | l :: rest => l ++ LF :: joinLines rest
  end.

(** ECMAScript [WhiteSpace] and [LineTerminator] code points: what
    [String.prototype.trim] removes and what [\s] matches in a RegExp. *)
Definition isWhiteSpace (c : N) : bool :=
  existsb (N.eqb c)
    [9; 10; 11; 12; 13; 32; 160; 5760; 8232; 8233; 8239; 8287; 12288; 65279]%N
  || ((8192 <=? c) && (c <=? 8202))%N.

(** What is left of a text after its longest prefix of characters in a
    class. *)
Fixpoint dropWhile (f : N -> bool) (s : jsstring) : jsstring :=
  match s with
  | [] => []
  | c :: r => if f c then dropWhile f r else s
  end.

(** Dropping the class at both ends. *)
Definition strip (f : N -> bool) (s : jsstring) : jsstring :=
  rev (dropWhile f (rev (dropWhile f s))).

Definition trimStart (s : jsstring) : jsstring := dropWhile isWhiteSpace s.

Definition trimEnd (s : jsstring) : jsstring := rev (trimStart (rev s)).

(** [s.trim()] *)
Definition trim (s : jsstring) : jsstring := trimEnd (trimStart s).

Definition isEmpty (s : jsstring) : bool :=
  match s with [] => true | _ => false end.

Definition jsstring_eqb (a b : jsstring) : bool :=
  if list_eq_dec N.eq_dec a b then true else false.

(* ===================================================================== *)
(** * JavaScript values *)
(* ===================================================================== *)

(** The values [JSON.parse] can produce and object literals of such values.
    A number is an IEEE-754 double; an object keeps its own properties in
    insertion order. [undefined] is not a member: a property read yields an
    [option JSValue], [None] standing for [undefined]. *)
#[warnings="-register-all"]
Inductive JSValue : Type :=
| JNull
| JBool (b : bool)
| JNumber (x : float)
| JString (s : jsstring)
| JArray (items : list JSValue)
| JObject (props : list (jsstring * JSValue)).

(** [ToBoolean]: what [!v], [v || w] and [v && w] test. *)
Definition ToBoolean (v : JSValue) : bool :=
  match v with
  | JNull => false
  | JBool b => b
  | JNumber x => negb (PrimFloat.is_zero x || PrimFloat.is_nan x)
  | JString s => negb (isEmpty s)
  | JArray _ | JObject _ => true
  end.

Definition ToBooleanOpt (v : option JSValue) : bool :=
  match v with None => false | Some v => ToBoolean v end.

(** Own data property lookup in an object's property list. *)
Fixpoint lookup (k : jsstring) (props : list (jsstring * JSValue)) : option JSValue :=
  match props with
  | [] => None
  | (k', v) :: rest => if jsstring_eqb k k' then Some v else lookup k rest
  end.

(** [v.k] on a value other than [null], for the property names this program
    reads ([prompt], [error], [improvedPrompt], [overallScore],
    [overallLabel], [criteria], [id], [label], [score], [level],
    [feedback]): an object answers with its own property; a boxed primitive
    or an array has no own or inherited property of these names. *)
Definition Get (v : JSValue) (k : jsstring) : option JSValue :=
  match v with
  | JObject props => lookup k props
  | _ => None
  end.

(** What a [throw] carries, as far as a [catch] here can tell:
    [err instanceof Error] with its [err.message], or anything else. *)
Inductive Thrown : Type :=
| ErrorObj (message : jsstring)
| NonError.

(** The result of evaluating an expression that may throw. *)
Inductive Outcome (A : Type) : Type :=
| Returns (a : A)
| Throws (e : Thrown).
Arguments Returns {A} a.
Arguments Throws {A} e.

(* ===================================================================== *)
(** * The engine functions *)
(* ===================================================================== *)

(** Functions of the JavaScript engine that the sources call and that are
    no part of the repository. *)
Class Host : Type := {
  (** [JSON.parse(text)]: the value, or the [SyntaxError] thrown. *)
  JSON_parse : jsstring -> Outcome JSValue;
  (** [JSON.stringify(value)] on the values above. *)
  JSON_stringify : JSValue -> jsstring;
  (** [ToString(value)], as applied by [new Error(value)]. *)
  ToString : JSValue -> jsstring;
  (** The [TypeError] thrown when a property of [null] is read or a
      non-function is called; its wording is the engine's. *)
  TypeError : Thrown
}.

(** The four characters [JSON.parse] skips around a value
    (tab, line feed, carriage return, space). *)
Definition isJSONWhiteSpace (c : N) : bool :=
  existsb (N.eqb c) [9; 10; 13; 32]%N.

(** First characters of a JSON value: an opening brace or bracket, a
    double quote, a minus sign, a digit, and the t, f, n of the three
    literals. *)
Definition isValueStart (c : N) : bool :=
  existsb (N.eqb c) [123; 91; 34; 45; 116; 102; 110]%N
  || ((48 <=? c) && (c <=? 57))%N.

(** Last characters of a JSON value: a closing brace or bracket, a double
    quote, a digit, and the e and l that end true, false and null. *)
Definition isValueEnd (c : N) : bool :=
  existsb (N.eqb c) [125; 93; 34; 101; 108]%N
  || ((48 <=? c) && (c <=? 57))%N.

(** The top level of the JSON grammar (ECMA-404, RFC 8259 section 2):
    an accepted text is a value between two runs of JSON white space, and
    the white space carries no information. *)
Definition JSON_text_grammar (H : Host) : Prop :=
  forall s v, JSON_parse s = Returns v ->
    exists a core b first last,
      s = a ++ core ++ b /\
      forallb isJSONWhiteSpace a = true /\
      forallb isJSONWhiteSpace b = true /\
      hd_error core = Some first /\ isValueStart first = true /\
      hd_error (rev core) = Some last /\ isValueEnd last = true /\
      forall a' b',
        forallb isJSONWhiteSpace a' = true ->
        forallb isJSONWhiteSpace b' = true ->
        JSON_parse (a' ++ core ++ b') = Returns v.

(* ===================================================================== *)
(** * Effects *)
(* ===================================================================== *)

(** A computation that performs observable actions of type [E] in order
    and then returns or throws. *)
Definition M (E A : Type) : Type := list E * Outcome A.

Definition ret {E A} (a : A) : M E A := ([], Returns a).

Definition bind {E A B} (m : M E A) (k : A -> M E B) : M E B :=
  match m with
  | (t, Returns a) => let (t', r) := k a in (t ++ t', r)
  | (t, Throws e) => (t, Throws e)
  end.

Definition tell {E} (ev : E) : M E unit := ([ev], Returns tt).

Definition throw {E A} (e : Thrown) : M E A := ([], Throws e).

Definition lift {E A} (o : Outcome A) : M E A := ([], o).

(** [try { x = m } catch (e) { return handler e }; return rest x] *)
Definition tryCatch {E A B} (m : M E A) (handler : Thrown -> M E B)
    (rest : A -> M E B) : M E B :=
  match m with
  | (t, Returns a) => let (t', r) := rest a in (t ++ t', r)
  | (t, Throws e) => let (t', r) := handler e in (t ++ t', r)
  end.

(** [try { m } finally { f }] *)
Definition tryFinally {E A} (m : M E A) (f : M E unit) : M E A :=
  match m, f with
  | (t, r), (t', Returns _) => (t ++ t', r)
  | (t, _), (t', Throws e) => (t ++ t', Throws e)
  end.

Declare Scope js_scope.
Delimit Scope js_scope with js.
Notation "x <- m ;; k" := (bind m (fun x => k))
  (at level 61, m at next level, right associativity) : js_scope.
Notation "m ;; k" := (bind m (fun _ => k))
  (at level 61, right associativity) : js_scope.

Definition events {E A} (m : M E A) : list E := fst m.
Definition outcome {E A} (m : M E A) : Outcome A := snd m.

(* ===================================================================== *)
(** * The analysis endpoint: src/app/api/analyze/route.ts *)
(* ===================================================================== *)

Module Route.
Section WithHost.
Context {H : Host}.
Local Open Scope js_scope.

(** The process environment, as far as the module reads it:
    [process.env.GOOGLE_API_KEY], a string or [undefined]. *)
Record Env : Type := { GOOGLE_API_KEY : option jsstring }.

(** [const apiKey = process.env.GOOGLE_API_KEY] *)
Definition apiKey (env : Env) : option jsstring := GOOGLE_API_KEY env.

(** Truth value of [apiKey]: [undefined] and the empty string are falsy. *)
Definition apiKeySet (env : Env) : bool :=
  match apiKey env with
  | Some k => negb (isEmpty k)
  | None => false
  end.

(** [const genAI = apiKey ? new GoogleGenerativeAI(apiKey) : null]; the
    client is represented by the key it was built with. *)
Definition genAI (env : Env) : option jsstring :=
  if apiKeySet env then apiKey env else None.

Definition systemInstruction : jsstring :=
  joinLines
    [ js "You are an expert prompt-engineering coach.";
      js "You analyze user prompts using the following criteria:";
      js "- Context: background info";
      js "- Goal: what outcome the user wants";
      js "- Format: structure of the output (bullets, list, table, slides, etc.)";
      js "- Constraints: word count, tone, style, level";
      js "- Examples: examples that show the desired style or structure";
      [];
      js "Return a JSON object only. Do not include any extra text, markdown, or explanations.";
      js "The JSON MUST match this TypeScript type exactly:";
      [];
      js "interface CriterionScore {";
      js "  id: " ++ quoted "context" ++ js " | " ++ quoted "goal" ++ js " | "
        ++ quoted "format" ++ js " | " ++ quoted "constraints" ++ js " | "
        ++ quoted "examples" ++ js ";";
      js "  label: string;           // human readable label";
      js "  score: number;           // 0-100";
      js "  level: " ++ quoted "missing" ++ js " | " ++ quoted "weak" ++ js " | "
        ++ quoted "ok" ++ js " | " ++ quoted "strong" ++ js ";";
      js "  feedback: string;        // short feedback specific to this criterion";
      js "}";
      [];
      js "interface Analysis {";
      js "  overallScore: number;      // 0-100";
      js "  overallLabel: string;      // short summary e.g. " ++ quoted "Excellent prompt"
        ++ js ", " ++ quoted "Needs work";
      js "  criteria: CriterionScore[];";
      js "  suggestions: string[];     // concrete, actionable suggestions for improvement";
      js "  improvedPrompt: string;    // a rewritten, improved version of the user prompt";
      js "};";
      [];
      js "Rules:";
      js "- Grade strictly but fairly.";
      js "- Use 0-100 for all scores.";
      js "- Always fill all 5 criteria with the exact ids listed.";
      js "- The improvedPrompt must preserve the user's intent but upgrade clarity, structure, and explicitness using the criteria above.";
      js "- Respond with valid JSON only." ].

(** The incoming request, as far as the handler reads it: the text of its
    body (the bytes decoded as UTF-8), which [request.json()] hands to the
    JSON parser. *)
Record Request : Type := { bodyText : jsstring }.

(** [new Response(body, { status, headers })] *)
Record Response : Type := {
  body : jsstring;
  status : N;
  headers : list (jsstring * jsstring)
}.

(** The external model: for a model name and the text sent, the text of
    its reply ([result.response.text()]), or what the call threw. *)
Definition Gemini : Type := jsstring -> jsstring -> Outcome jsstring.

Inductive LogArg : Type :=
| LogText (s : jsstring)
| LogThrown (e : Thrown).

(** What the handler does to the outside, in order. *)
Inductive Event : Type :=
| RequestJson                                 (* await request.json() *)
| GenerateContent (model text : jsstring)     (* await model.generateContent(...) *)
| ConsoleError (args : list LogArg).          (* console.error(...) *)

(** [await request.json()] *)
Definition request_json (request : Request) : M Event JSValue :=
  ([RequestJson], JSON_parse (bodyText request)).

(** [genAI.getGenerativeModel({ model }).generateContent(...)] followed by
    [result.response.text()] *)
Definition generateContent (gemini : Gemini) (model text : jsstring) : M Event jsstring :=
  ([GenerateContent model text], gemini model text).

Definition console_error (args : list LogArg) : M Event unit :=
  tell (ConsoleError args).

(** [{ "Content-Type": "application/json" }] *)
Definition jsonHeaders : list (jsstring * jsstring) :=
  [(js "Content-Type", js "application/json")].

(** [new Response(JSON.stringify(value), { status, headers: jsonHeaders })] *)
Definition jsonResponse (value : JSValue) (status : N) : Response :=
  {| body := JSON_stringify value; status := status; headers := jsonHeaders |}.

(** [{ error: message }] *)
Definition errorObject (message : jsstring) : JSValue :=
  JObject [(js "error", JString message)].

(** [body || {}] *)
Definition orEmptyObject (body : JSValue) : JSValue :=
  if ToBoolean body then body else JObject [].

(** [const { prompt } = value]: destructuring throws a [TypeError] on
    [null] and reads the property otherwise. *)
Definition destructure (k : jsstring) (value : JSValue) : M Event (option JSValue) :=
  match value with
  | JNull => throw TypeError
  | _ => ret (Get value k)
  end.

(** The guard [!prompt || typeof prompt !== "string" || !prompt.trim()],
    read from left to right: [Some p] when all three tests are false, in
    which case [prompt] is the string [p]. *)
Definition acceptedPrompt (prompt : option JSValue) : option jsstring :=
  if negb (ToBooleanOpt prompt) then None
  else match prompt with
       | Some (JString p) => if negb (ToBoolean (JString (trim p))) then None else Some p
       | _ => None
       end.

(** [/^```json\s*/i]: at the start of the text, three backticks, the
    letters j, s, o, n in either case, and the longest run of white space. *)
Definition openingFence (s : jsstring) : option jsstring :=
  match s with
  | t1 :: t2 :: t3 :: j :: s' :: o :: n :: rest =>
      if (t1 =? BACKTICK)%N && (t2 =? BACKTICK)%N && (t3 =? BACKTICK)%N
         && ((j =? 106) || (j =? 74))%N && ((s' =? 115) || (s' =? 83))%N
         && ((o =? 111) || (o =? 79))%N && ((n =? 110) || (n =? 78))%N
      then Some (trimStart rest) else None
  | _ => None
  end.

(** [s.replace(/^```json\s*/i, "")] *)
Definition replaceOpeningFence (s : jsstring) : jsstring :=
  match openingFence s with
  | Some rest => rest
  | None => s
  end.

(** [s.replace(/```$/i, "")]: three backticks that end the text. *)
Definition replaceClosingFence (s : jsstring) : jsstring :=
  match rev s with
  | t3 :: t2 :: t1 :: front =>
      if (t1 =? BACKTICK)%N && (t2 =? BACKTICK)%N && (t3 =? BACKTICK)%N
      then rev front else s
  | _ => s
  end.

(** [const cleaned = text.trim().replace(...).replace(...)] *)
Definition cleaned (text : jsstring) : jsstring :=
  replaceClosingFence (replaceOpeningFence (trim text)).

Definition modelName : jsstring := js "gemini-1.5-pro".

(** The text part sent to the model:
    the system instruction, a blank line, [USER_PROMPT:] and the prompt. *)
Definition userText (prompt : jsstring) : jsstring :=
  systemInstruction ++ [LF; LF] ++ js "USER_PROMPT:" ++ [LF] ++ prompt.

(** [export async function POST(request: Request): Promise<Response>] *)
Definition POST (env : Env) (gemini : Gemini) (request : Request) : M Event Response :=
  if negb (match genAI env with Some _ => true | None => false end)
     || negb (apiKeySet env)
  then
    ret (jsonResponse
           (errorObject
              (js "Missing GOOGLE_API_KEY. Set it in your server environment (e.g. .env.local)."))
           500)
  else
    tryCatch (request_json request)
      (fun _ => ret (jsonResponse (errorObject (js "Invalid JSON body.")) 400))
      (fun body =>
         prompt <- destructure (js "prompt") (orEmptyObject body) ;;
         match acceptedPrompt prompt with
         | None =>
             ret (jsonResponse
                    (errorObject (js "Field 'prompt' (non-empty string) is required."))
                    400)
         | Some prompt =>
             tryCatch
               (text <- generateContent gemini modelName (userText prompt) ;;
                let cleaned := cleaned text in
                tryCatch (lift (JSON_parse cleaned))
                  (fun error =>
                     console_error
                       [LogText (js "[Prompt Analyzer] Failed to parse JSON from Gemini:");
                        LogText cleaned] ;;
                     ret (jsonResponse
                            (JObject
                               [(js "error", JString (js "Gemini returned an invalid JSON response."));
                                (js "raw", JString cleaned)])
                            502))
                  (fun json => ret (jsonResponse json 200)))
               (fun error =>
                  console_error
                    [LogText (js "[Prompt Analyzer] Gemini API error:"); LogThrown error] ;;
                  ret (jsonResponse (errorObject (js "Error while calling Gemini API.")) 500))
               ret
         end).

End WithHost.
End Route.

(* ===================================================================== *)
(** * The client surface: the page component [Home] *)
(* ===================================================================== *)

Module Page.
Section WithHost.
Context {H : Host}.
Local Open Scope js_scope.

(** [type Criterion] *)
Record Criterion : Type := {
  id : jsstring;
  label : jsstring;
  description : jsstring;
  hint : jsstring
}.

(** [const criteria: Criterion[]] *)
Definition criteria : list Criterion :=
  [ {| id := js "context";
       label := js "Context";
       description := js "Background info that gives the AI situational awareness.";
       hint := js "Add who you are, who the audience is, and where this will be used." |};
    {| id := js "goal";
       label := js "Goal";
       description := js "Clear outcome or objective for the AI.";
       hint := js "Finish the sentence: " ++ quoted "By the end, I want the AI to help me..." |};
    {| id := js "format";
       label := js "Format";
       description :=
         js "Preferred structure of the answer (list, table, essay, slides"
           ++ [8230%N] ++ js ").";
       hint := js "Specify bullets, sections, or tables you want." |};
    {| id := js "constraints";
       label := js "Constraints";
       description := js "Limits like length, tone, level, or style.";
       hint := js "Mention tone (simple, friendly, formal), level, or word limit." |};
    {| id := js "examples";
       label := js "Examples";
       description := js "Reference examples that show what good looks like.";
       hint := js "Paste 1" ++ [8211%N]
                 ++ js "2 short examples of the style or structure you like." |} ].

(** The five pieces of [useState] state of [Home]. [analysis] holds
    whatever JSON value the endpoint answered ([data as AnalysisFromApi] is
    an unchecked cast), [JNull] being the initial [null]. *)
Record State : Type := {
  prompt : jsstring;
  analysis : JSValue;
  isAnalyzing : bool;
  error : option jsstring;
  copied : bool
}.

Definition initialPrompt : jsstring :=
  joinLines
    [ js "You are an AI tutor.";
      [];
      js "Task: Teach me the basics of prompt engineering.";
      js "Context: I am a beginner who has used ChatGPT a few times but never designed prompts deliberately.";
      js "Output format: Bullet-point mini lesson with short explanations.";
      js "Tone/style: Simple, friendly, and practical.";
      js "Constraints: Keep it under 300 words.";
      js "Examples: Show 1 weak prompt and 1 improved prompt." ].

Definition initialState : State :=
  {| prompt := initialPrompt; analysis := JNull; isAnalyzing := false;
     error := None; copied := false |}.

(** What [await fetch(...)] resolves to, as far as the handler reads it:
    [response.ok] and the result of [await response.json()]. *)
Record FetchResponse : Type := {
  ok : bool;
  json : Outcome JSValue
}.

(** The network: for a URL and a request body, the response or what
    [fetch] threw. *)
Definition Network : Type := jsstring -> jsstring -> Outcome FetchResponse.

(** What a handler does, in order: calls of the state setters and the
    request it sends. *)
Inductive Event : Type :=
| SetPrompt (value : jsstring)
| SetAnalysis (value : JSValue)
| SetIsAnalyzing (value : bool)
| SetError (value : option jsstring)
| SetCopied (value : bool)
| Fetch (url method : jsstring) (headers : list (jsstring * jsstring)) (body : jsstring).

Definition setPrompt (v : jsstring) : M Event unit := tell (SetPrompt v).
Definition setAnalysis (v : JSValue) : M Event unit := tell (SetAnalysis v).
Definition setIsAnalyzing (v : bool) : M Event unit := tell (SetIsAnalyzing v).
Definition setError (v : option jsstring) : M Event unit := tell (SetError v).
Definition setCopied (v : bool) : M Event unit := tell (SetCopied v).

(** The state after one action. *)
Definition applyEvent (st : State) (ev : Event) : State :=
  match ev with
  | SetPrompt v =>
      {| prompt := v; analysis := analysis st; isAnalyzing := isAnalyzing st;
         error := error st; copied := copied st |}
  | SetAnalysis v =>
      {| prompt := prompt st; analysis := v; isAnalyzing := isAnalyzing st;
         error := error st; copied := copied st |}
  | SetIsAnalyzing v =>
      {| prompt := prompt st; analysis := analysis st; isAnalyzing := v;
         error := error st; copied := copied st |}
  | SetError v =>
      {| prompt := prompt st; analysis := analysis st; isAnalyzing := isAnalyzing st;
         error := v; copied := copied st |}
  | SetCopied v =>
      {| prompt := prompt st; analysis := analysis st; isAnalyzing := isAnalyzing st;
         error := error st; copied := v |}
  | Fetch _ _ _ _ => st
  end.

(** The state once a handler has run from [st]. *)
Definition after {A} (st : State) (m : M Event A) : State :=
  fold_left applyEvent (events m) st.

Definition isFetch (ev : Event) : bool :=
  match ev with Fetch _ _ _ _ => true | _ => false end.

Definition isSetAnalysis (ev : Event) : bool :=
  match ev with SetAnalysis _ => true | _ => false end.

(** [await fetch(url, { method, headers, body })] *)
Definition fetch (network : Network) (url method : jsstring)
    (headers : list (jsstring * jsstring)) (body : jsstring) : M Event FetchResponse :=
  ([Fetch url method headers body], network url body).

(** [v?.k]: [undefined] on [null], the property otherwise. *)
Definition optionalGet (v : JSValue) (k : jsstring) : option JSValue :=
  match v with
  | JNull => None
  | _ => Get v k
  end.

(** [a ?? b]: [b] when [a] is [undefined] or [null]. *)
Definition nullishOr (a : option JSValue) (b : JSValue) : JSValue :=
  match a with
  | None | Some JNull => b
  | Some v => v
  end.

(** [new Error(message)]: its [message] is [ToString(message)]. *)
Definition new_Error (message : JSValue) : Thrown :=
  ErrorObj (match message with
            | JString s => s
            | v => ToString v
            end).

(** [async function handleAnalyze()] *)
Definition handleAnalyze (st : State) (network : Network) : M Event unit :=
  if negb (ToBoolean (JString (trim (prompt st)))) then
    setError (Some (js "Write a prompt first."))
  else
    setIsAnalyzing true ;;
    setError None ;;
    tryFinally
      (tryCatch
         (response <- fetch network (js "/api/analyze") (js "POST")
                        [(js "Content-Type", js "application/json")]
                        (JSON_stringify (JObject [(js "prompt", JString (prompt st))])) ;;
          data <- lift (json response) ;;
          if negb (ok response) then
            throw (new_Error
                     (nullishOr (optionalGet data (js "error"))
                                (JString (js "Failed to analyze prompt."))))
          else
            setAnalysis data ;;
            setCopied false)
         (fun err =>
            let message :=
              match err with
              | ErrorObj message => message
              | NonError => js "Unknown error while analyzing."
              end in
            setError (Some message))
         ret)
      (setIsAnalyzing false).

(** [function handleUseImproved()] *)
Definition handleUseImproved (st : State) : M Event unit :=
  if negb (ToBoolean (analysis st)) then ret tt
  else
    match Get (analysis st) (js "improvedPrompt") with
    | None => ret tt
    | Some (JString improved) =>
        if ToBoolean (JString improved) && ToBoolean (JString (trim improved))
        then setPrompt improved
        else ret tt
    | Some other =>
        (* [other.trim] is no function *)
        if ToBoolean other then throw TypeError else ret tt
    end.

(** [const overallScore = analysis?.overallScore ?? 0] *)
Definition overallScore (st : State) : JSValue :=
  nullishOr (optionalGet (analysis st) (js "overallScore")) (JNumber 0).

(** [const overallLabel = analysis?.overallLabel ?? "Not analyzed yet"] *)
Definition overallLabel (st : State) : JSValue :=
  nullishOr (optionalGet (analysis st) (js "overallLabel")) (JString (js "Not analyzed yet")).

(** [(c) => ({ id: c.id, label: c.label, score: 0, level: "missing",
    feedback: c.description })] *)
Definition placeholder (c : Criterion) : JSValue :=
  JObject
    [ (js "id", JString (id c));
      (js "label", JString (label c));
      (js "score", JNumber 0);
      (js "level", JString (js "missing"));
      (js "feedback", JString (description c)) ].

(** [const criteriaScores = analysis?.criteria ?? criteria.map(...)] *)
Definition criteriaScores (st : State) : JSValue :=
  nullishOr (optionalGet (analysis st) (js "criteria")) (JArray (map placeholder criteria)).

(** [a === s] for a string [s]. *)
Definition strictEqualsString (a : option JSValue) (s : jsstring) : bool :=
  match a with
  | Some (JString a) => jsstring_eqb a s
  | _ => false
  end.

(** One row of the overview: the values placed in its JSX. The score is
    followed by the text [/100]. *)
Record Row : Type := {
  key : option JSValue;          (* key={c.id} *)
  rowLabel : option JSValue;     (* {c.label} *)
  rowFeedback : option JSValue;  (* {c.feedback} *)
  rowColor : jsstring;           (* the class chosen from c.level *)
  rowScore : option JSValue;     (* {c.score} *)
  rowLevel : option JSValue      (* {c.level} *)
}.

(** The body of [criteriaScores.map((c) => ...)]; reading a property of
    [null] throws. *)
Definition renderCriterion (c : JSValue) : M Event Row :=
  match c with
  | JNull => throw TypeError
  | _ =>
      ret {| key := Get c (js "id");
             rowLabel := Get c (js "label");
             rowFeedback := Get c (js "feedback");
             rowColor :=
               if strictEqualsString (Get c (js "level")) (js "strong")
               then js "text-emerald-300"
               else if strictEqualsString (Get c (js "level")) (js "ok")
                    then js "text-amber-300"
                    else js "text-rose-300";
             rowScore := Get c (js "score");
             rowLevel := Get c (js "level") |}
  end.

Fixpoint mapM {A B} (f : A -> M Event B) (l : list A) : M Event (list B) :=
  match l with
  | [] => ret []
  | a :: rest => b <- f a ;; bs <- mapM f rest ;; ret (b :: bs)
  end.

(** [criteriaScores.map(...)]: only an array has a [map]. *)
Definition renderCriteria (st : State) : M Event (list Row) :=
  match criteriaScores st with
  | JArray items => mapM renderCriterion items
  | _ => throw TypeError
  end.

End WithHost.
End Page.

(* ===================================================================== *)
(** * A reference host *)
(* ===================================================================== *)

(** An executable [Host], written from ECMA-262 and ECMA-404, on which the
    endpoint and the page can be run on concrete texts.

    [parse] accepts exactly the JSON grammar; a number literal becomes the
    nearest double (ties to even). [stringify] and [toString] print an
    integer below 2^53 in magnitude as the engine does; any other finite
    number is printed by its exact decimal expansion, where the engine
    prints the shortest digits that read back to the same double. *)
Module RefHost.

Definition skip (s : jsstring) : jsstring := dropWhile isJSONWhiteSpace s.

Definition trimJSON (s : jsstring) : jsstring := rev (skip (rev (skip s))).

Definition isDigit (c : N) : bool := ((48 <=? c) && (c <=? 57))%N.

(** The longest prefix of digits, and what follows it. *)
Fixpoint digits (s : jsstring) : jsstring * jsstring :=
  match s with
  | [] => ([], [])
  | c :: r =>
      if isDigit c then let (d, r') := digits r in (c :: d, r') else ([], s)
  end.

Definition digitsValue (d : jsstring) : Z :=
  fold_left (fun acc c => (10 * acc + (Z.of_N c - 48))%Z) d 0%Z.

(** The double nearest to [m * 10^e], with the given sign. *)
Definition decimalToFloat (negative : bool) (m e : Z) : float :=
  let magnitude :=
    if (m =? 0)%Z then 0%float
    else if (0 <=? e)%Z then SF2Prim (binary_normalize prec emax (m * 10 ^ e) 0 false)
    else
      let d := (10 ^ (- e))%Z in
      let s := (Z.log2 d + 66)%Z in
      let q := ((m * 2 ^ s) / d)%Z in
      let sticky := if ((m * 2 ^ s) mod d =? 0)%Z then 0%Z else 1%Z in
      SF2Prim (binary_normalize prec emax (2 * q + sticky) (- s - 1) false) in
  if negative then (- magnitude)%float else magnitude.

(** A JSON number: an optional minus sign, an integer part without a
    superfluous leading zero, an optional fraction, an optional exponent. *)
Definition number (s : jsstring) : option (float * jsstring) :=
  let (negative, s1) :=
    match s with
    | c :: r => if (c =? 45)%N then (true, r) else (false, s)
    | [] => (false, s)
    end in
  let intPart :=
    match s1 with
    | c :: r =>
        if (c =? 48)%N then Some ([c], r)
        else if isDigit c then Some (digits s1)
        else None
    | [] => None
    end in
  match intPart with
  | None => None
  | Some (int, s2) =>
      let fracPart :=
        match s2 with
        | c :: r =>
            if (c =? 46)%N then
              match digits r with
              | ([], _) => None
              | (f, r') => Some (f, r')
              end
            else Some ([], s2)
        | [] => Some ([], s2)
        end in
      match fracPart with
      | None => None
      | Some (frac, s3) =>
          let expPart :=
            match s3 with
            | c :: r =>
                if ((c =? 101) || (c =? 69))%N then
                  let (negExp, r1) :=
                    match r with
                    | c' :: r' =>
                        if (c' =? 45)%N then (true, r')
                        else if (c' =? 43)%N then (false, r')
                        else (false, r)
                    | [] => (false, r)
                    end in
                  match digits r1 with
                  | ([], _) => None
                  | (x, r2) =>
                      Some ((if negExp then - digitsValue x else digitsValue x)%Z, r2)
                  end
                else Some (0%Z, s3)
            | [] => Some (0%Z, s3)
            end in
          match expPart with
          | None => None
          | Some (e, s4) =>
              Some (decimalToFloat negative (digitsValue (int ++ frac))
                      (e - Z.of_nat (List.length frac)), s4)
          end
      end
  end.

Definition hexValue (c : N) : option N :=
  if isDigit c then Some (c - 48)%N
  else if ((97 <=? c) && (c <=? 102))%N then Some (c - 87)%N
  else if ((65 <=? c) && (c <=? 70))%N then Some (c - 55)%N
  else None.

Definition hex4 (a b c d : N) : option N :=
  match hexValue a, hexValue b, hexValue c, hexValue d with
  | Some a, Some b, Some c, Some d => Some (((a * 16 + b) * 16 + c) * 16 + d)%N
  | _, _, _, _ => None
  end.

(** The character a one-letter escape stands for. *)
Definition simpleEscape (e : N) : option N :=
  if ((e =? 34) || (e =? 92) || (e =? 47))%N then Some e
  else if (e =? 98)%N then Some 8%N
  else if (e =? 102)%N then Some 12%N
  else if (e =? 110)%N then Some 10%N
  else if (e =? 114)%N then Some 13%N
  else if (e =? 116)%N then Some 9%N
  else None.

Definition consTo (c : N) (r : option (jsstring * jsstring)) : option (jsstring * jsstring) :=
  match r with
  | Some (str, rest) => Some (c :: str, rest)
  | None => None
  end.

(** The characters of a string after its opening quote, up to and
    including the closing quote. *)
Fixpoint stringBody (s : jsstring) : option (jsstring * jsstring) :=
  match s with
  | [] => None
  | c :: r =>
      if (c =? 34)%N then Some ([], r)
      else if (c =? 92)%N then
        match r with
        | [] => None
        | e :: r' =>
            if (e =? 117)%N then
              match r' with
              | h1 :: h2 :: h3 :: h4 :: r'' =>
                  match hex4 h1 h2 h3 h4 with
                  | Some u => consTo u (stringBody r'')
                  | None => None
                  end
              | _ => None
              end
            else
              match simpleEscape e with
              | Some x => consTo x (stringBody r')
              | None => None
              end
        end
      else if (c <? 32)%N then None
      else consTo c (stringBody r)
  end.

Fixpoint stripPrefix (p s : jsstring) : option jsstring :=
  match p, s with
  | [], _ => Some s
  | a :: p', b :: s' => if (a =? b)%N then stripPrefix p' s' else None
  | _ :: _, [] => None
  end.

(** The number a property name denotes when it is an array index: a
    canonical decimal numeral below 2^32 - 1. *)
Definition arrayIndex (k : jsstring) : option N :=
  match k with
  | [] => None
  | c :: r =>
      if forallb isDigit k && negb ((c =? 48)%N && negb (isEmpty r))
         && (List.length k <=? 10)%nat
         && (digitsValue k <? 4294967295)%Z
      then Some (Z.to_N (digitsValue k)) else None
  end.

(** [CreateDataProperty] on an ordinary object: a name already present
    keeps its place and takes the new value; otherwise array indices come
    first in ascending order and other names follow in creation order. *)
Fixpoint defineProp (k : jsstring) (v : JSValue) (props : list (jsstring * JSValue))
    : list (jsstring * JSValue) :=
  match props with
  | [] => [(k, v)]
  | (k', v') :: rest =>
      if jsstring_eqb k k' then (k, v) :: rest
      else
        match arrayIndex k, arrayIndex k' with
        | Some i, Some i' =>
            if (i <? i')%N then (k, v) :: props else (k', v') :: defineProp k v rest
        | Some _, None => (k, v) :: props
        | None, _ => (k', v') :: defineProp k v rest
        end
  end.

(** Recursive descent on the text, which holds no leading white space on
    entry; [n] bounds the depth of the calls. *)
Fixpoint value (n : nat) (s : jsstring) {struct n} : option (JSValue * jsstring) :=
  match n with
  | O => None
  | S n =>
      match s with
      | [] => None
      | c :: r =>
          if (c =? 123)%N then
            match skip r with
            | [] => None
            | c' :: r' =>
                if (c' =? 125)%N then Some (JObject [], r') else members n (skip r) []
            end
          else if (c =? 91)%N then
            match skip r with
            | [] => None
            | c' :: r' =>
                if (c' =? 93)%N then Some (JArray [], r') else elements n (skip r) []
            end
          else if (c =? 34)%N then
            match stringBody r with
            | Some (str, r') => Some (JString str, r')
            | None => None
            end
          else if (c =? 116)%N then
            match stripPrefix (js "true") s with
            | Some r' => Some (JBool true, r')
            | None => None
            end
          else if (c =? 102)%N then
            match stripPrefix (js "false") s with
            | Some r' => Some (JBool false, r')
            | None => None
            end
          else if (c =? 110)%N then
            match stripPrefix (js "null") s with
            | Some r' => Some (JNull, r')
            | None => None
            end
          else
            match number s with
            | Some (x, r') => Some (JNumber x, r')
            | None => None
            end
      end
  end

with elements (n : nat) (s : jsstring) (acc : list JSValue) {struct n}
    : option (JSValue * jsstring) :=
  match n with
  | O => None
  | S n =>
      match value n s with
      | None => None
      | Some (v, r) =>
          match skip r with
          | [] => None
          | c :: r' =>
              if (c =? 44)%N then elements n (skip r') (v :: acc)
              else if (c =? 93)%N then Some (JArray (rev (v :: acc)), r')
              else None
          end
      end
  end

with members (n : nat) (s : jsstring) (acc : list (jsstring * JSValue)) {struct n}
    : option (JSValue * jsstring) :=
  match n with
  | O => None
  | S n =>
      match s with
      | [] => None
      | q :: r =>
          if (q =? 34)%N then
            match stringBody r with
            | None => None
            | Some (k, r1) =>
                match skip r1 with
                | [] => None
                | colon :: r2 =>
                    if (colon =? 58)%N then
                      match value n (skip r2) with
                      | None => None
                      | Some (v, r3) =>
                          match skip r3 with
                          | [] => None
                          | c :: r4 =>
                              if (c =? 44)%N then members n (skip r4) (defineProp k v acc)
                              else if (c =? 125)%N
                                   then Some (JObject (defineProp k v acc), r4)
                                   else None
                          end
                      end
                    else None
                end
            end
          else None
      end
  end.

(** [JSON.parse]: the value spelled by the text between its leading and
    trailing white space, all of it. *)
Definition parse (s : jsstring) : Outcome JSValue :=
  let core := trimJSON s in
  match value (2 * List.length core + 2) core with
  | Some (v, []) => Returns v
  | _ => Throws (ErrorObj (js "SyntaxError: the text is not valid JSON"))
  end.

(** The decimal numeral of a natural number. *)
Definition numeral (z : Z) : jsstring :=
  js (NilZero.string_of_uint (N.to_uint (Z.to_N z))).

(** The digits of [fr / d] after the decimal point, for [0 <= fr < d]. *)
Fixpoint fractionDigits (fuel : nat) (fr d : Z) : jsstring :=
  match fuel with
  | O => []
  | S fuel =>
      if (fr =? 0)%Z then []
      else Z.to_N (48 + (10 * fr) / d) :: fractionDigits fuel ((10 * fr) mod d) d
  end.

(** The decimal expansion of [m * 2^e]. *)
Definition finiteText (m e : Z) : jsstring :=
  if (0 <=? e)%Z then numeral (m * 2 ^ e)
  else
    let d := (2 ^ (- e))%Z in
    if (m mod d =? 0)%Z then numeral (m / d)
    else numeral (m / d) ++ js "." ++ fractionDigits (Z.to_nat (- e)) (m mod d) d.

(** [Number::toString] *)
Definition numberText (x : float) : jsstring :=
  match Prim2SF x with
  | S754_zero _ => js "0"
  | S754_infinity false => js "Infinity"
  | S754_infinity true => js "-Infinity"
  | S754_nan => js "NaN"
  | S754_finite false m e => finiteText (Z.pos m) e
  | S754_finite true m e => js "-" ++ finiteText (Z.pos m) e
  end.

Definition hexDigit (n : N) : N := if (n <? 10)%N then (48 + n)%N else (87 + n)%N.

Definition unicodeEscape (c : N) : jsstring :=
  js "\u" ++ [hexDigit (c / 4096); hexDigit ((c / 256) mod 16);
              hexDigit ((c / 16) mod 16); hexDigit (c mod 16)].

Definition isLeadSurrogate (c : N) : bool := ((55296 <=? c) && (c <=? 56319))%N.
Definition isTrailSurrogate (c : N) : bool := ((56320 <=? c) && (c <=? 57343))%N.

(** The characters of [QuoteJSONString] between the two quotes. *)
Fixpoint quoteChars (s : jsstring) : jsstring :=
  match s with
  | [] => []
  | c :: r =>
      if (c =? 8)%N then js "\b" ++ quoteChars r
      else if (c =? 9)%N then js "\t" ++ quoteChars r
      else if (c =? 10)%N then js "\n" ++ quoteChars r
      else if (c =? 12)%N then js "\f" ++ quoteChars r
      else if (c =? 13)%N then js "\r" ++ quoteChars r
      else if (c =? 34)%N then [92; 34]%N ++ quoteChars r
      else if (c =? 92)%N then [92; 92]%N ++ quoteChars r
      else if (c <? 32)%N then unicodeEscape c ++ quoteChars r
      else if isLeadSurrogate c then
        match r with
        | c2 :: r2 =>
            if isTrailSurrogate c2 then c :: c2 :: quoteChars r2
            else unicodeEscape c ++ quoteChars r
        | [] => unicodeEscape c
        end
      else if isTrailSurrogate c then unicodeEscape c ++ quoteChars r
      else c :: quoteChars r
  end.

Definition quoteString (s : jsstring) : jsstring := QUOTE :: quoteChars s ++ [QUOTE].

(** [JSON.stringify] without a replacer or an indent. *)
Fixpoint stringify (v : JSValue) : jsstring :=
  match v with
  | JNull => js "null"
  | JBool true => js "true"
  | JBool false => js "false"
  | JNumber x => if PrimFloat.is_finite x then numberText x else js "null"
  | JString s => quoteString s
  | JArray items =>
      js "[" ++
      (fix go (l : list JSValue) : jsstring :=
         match l with
         | [] => []
         | a :: r =>
             match r with
             | [] => stringify a
             | _ :: _ => stringify a ++ js "," ++ go r
             end
         end) items ++ js "]"
  | JObject props =>
      js "{" ++
      (fix go (l : list (jsstring * JSValue)) : jsstring :=
         match l with
         | [] => []
         | (k, a) :: r =>
             match r with
             | [] => quoteString k ++ js ":" ++ stringify a
             | _ :: _ => quoteString k ++ js ":" ++ stringify a ++ js "," ++ go r
             end
         end) props ++ js "}"
  end.

(** [ToString] *)
Fixpoint toString (v : JSValue) : jsstring :=
  match v with
  | JNull => js "null"
  | JBool true => js "true"
  | JBool false => js "false"
  | JNumber x => numberText x
  | JString s => s
  | JArray items =>
      (fix go (l : list JSValue) : jsstring :=
         match l with
         | [] => []
         | a :: r =>
             let text := match a with JNull => [] | _ => toString a end in
             match r with
             | [] => text
             | _ :: _ => text ++ js "," ++ go r
             end
         end) items
  | JObject _ => js "[object Object]"
  end.

Definition host : Host :=
  {| JSON_parse := parse;
     JSON_stringify := stringify;
     ToString := toString;
     TypeError := ErrorObj (js "TypeError: not a function") |}.

End RefHost.

(* ===================================================================== *)
(** * Vocabulary of the statements *)
(* ===================================================================== *)

(** The five error messages of the endpoint, by name. *)
Definition missingKeyMessage : jsstring :=
  js "Missing GOOGLE_API_KEY. Set it in your server environment (e.g. .env.local).".
Definition invalidBodyMessage : jsstring := js "Invalid JSON body.".
Definition promptRequiredMessage : jsstring :=
  js "Field 'prompt' (non-empty string) is required.".
Definition invalidUpstreamMessage : jsstring :=
  js "Gemini returned an invalid JSON response.".
Definition upstreamFailureMessage : jsstring := js "Error while calling Gemini API.".

(** The model that answers every call with the same text. *)
Definition replies (text : jsstring) : Route.Gemini := fun _ _ => Returns text.

(** The model whose call fails with the given error. *)
Definition fails (e : Thrown) : Route.Gemini := fun _ _ => Throws e.

(** The status of the response a run of the handler produced, if any. *)
Definition responseStatus {E} (m : M E Route.Response) : option N :=
  match outcome m with
  | Returns r => Some (Route.status r)
  | Throws _ => None
  end.

Definition FENCE : jsstring := [BACKTICK; BACKTICK; BACKTICK].

(** A language tag spelling json in any letter case. *)
Definition isJsonTag (tag : jsstring) : bool :=
  match tag with
  | [j; s; o; n] =>
      ((j =? 106) || (j =? 74))%N && ((s =? 115) || (s =? 83))%N
      && ((o =? 111) || (o =? 79))%N && ((n =? 110) || (n =? 78))%N
  | _ => false
  end.

(** A payload in a fenced block: the opening fence with its language tag,
    white space [w1], the payload, white space [w2], the closing fence. *)
Definition fenced (tag w1 payload w2 : jsstring) : jsstring :=
  FENCE ++ tag ++ w1 ++ payload ++ w2 ++ FENCE.

(** The cleaning in the words of the specification, written as relations
    of their own and not with the functions of the handler.

    [trimmedOf text t]: [t] is [text] without the white space at its two
    ends. *)
Definition bareEnds (t : jsstring) : Prop :=
  (forall c r, t = c :: r -> isWhiteSpace c = false) /\
  (forall c r, rev t = c :: r -> isWhiteSpace c = false).

Definition trimmedOf (text t : jsstring) : Prop :=
  exists a b,
    text = a ++ t ++ b /\
    forallb isWhiteSpace a = true /\
    forallb isWhiteSpace b = true /\
    bareEnds t.

(** [t] starts with a fence marker and the tag json. *)
Definition opensWithJsonFence (t : jsstring) : Prop :=
  exists tag rest, isJsonTag tag = true /\ t = FENCE ++ tag ++ rest.

(** [u] is [t] without its opening: the fence marker, the tag json and all
    the white space that follows them; or [t] itself when it does not
    start that way. *)
Definition withoutOpeningFence (t u : jsstring) : Prop :=
  (exists tag w,
     isJsonTag tag = true /\
     forallb isWhiteSpace w = true /\
     t = FENCE ++ tag ++ w ++ u /\
     (forall c r, u = c :: r -> isWhiteSpace c = false))
  \/ (~ opensWithJsonFence t /\ u = t).

(** [s] is [u] without the fence marker that ends it; or [u] itself when
    it does not end in one. *)
Definition withoutClosingFence (u s : jsstring) : Prop :=
  u = s ++ FENCE \/ ((forall front, u <> front ++ FENCE) /\ s = u).

(** [s] is the reply [text] after trimming and fence-stripping. *)
Definition strippedText (text s : jsstring) : Prop :=
  exists t u,
    trimmedOf text t /\ withoutOpeningFence t u /\ withoutClosingFence u s.

(** The body read by [request.json()] holds an own [prompt] property. *)
Definition hasPrompt (b : JSValue) : bool :=
  match b with
  | JObject props =>
      match lookup (js "prompt") props with Some _ => true | None => false end
  | _ => false
  end.

(** The error responses of the endpoint. *)
Inductive ErrorKind : Type :=
| MissingCredential
| InvalidBody
| InvalidPrompt
| InvalidUpstream (raw : jsstring)
| UpstreamFailure.

Definition errorStatus (k : ErrorKind) : N :=
  match k with
  | MissingCredential => 500
  | InvalidBody => 400
  | InvalidPrompt => 400
  | InvalidUpstream _ => 502
  | UpstreamFailure => 500
  end.




(** Concrete data for running the two programs on the reference host. *)
Module Sample.

Definition env : Route.Env := {| Route.GOOGLE_API_KEY := Some (js "test-key") |}.
Definition noKey : Route.Env := {| Route.GOOGLE_API_KEY := None |}.

(** The request body of the specification's scenario, a [prompt] of
    [Write something.] *)
Definition requestValue : JSValue := JObject [(js "prompt", JString (js "Write something."))].
Definition request : Route.Request :=
  {| Route.bodyText := js "{" ++ quoted "prompt" ++ js ": " ++ quoted "Write something." ++ js "}" |}.

Definition malformed : Route.Request := {| Route.bodyText := js "{not json" |}.

(** A prompt of a space, a line feed and a no-break space, and a body
    that spells it (the line feed as its escape). *)
Definition blankPrompt : jsstring := [32; 10; 160]%N.
Definition blankRequest : Route.Request :=
  {| Route.bodyText :=
       js "{" ++ quoted "prompt" ++ js ": " ++ [34; 32; 92; 110; 160; 34]%N ++ js "}" |}.

Definition arrayRequest : Route.Request := {| Route.bodyText := js "[1, 2]" |}.

(** An upstream reply that is an object, though no analysis. *)
Definition replyValue : JSValue :=
  JObject [(js "overallScore", JNumber 42); (js "overallLabel", JString (js "Needs work"))].
Definition replyText : jsstring :=
  js "{" ++ quoted "overallScore" ++ js ":42," ++ quoted "overallLabel" ++ js ":"
    ++ quoted "Needs work" ++ js "}".

Definition notJSON : jsstring := js "Sorry, I cannot grade this prompt.".

End Sample.

(** The text [s] ends in the text [r], and the character just before [r]
    is in the class [cls]. *)
Definition consumed (cls : N -> bool) (s r : jsstring) : Prop :=
  exists p c, s = p ++ c :: r /\ cls c = true.

(** The optional parts of a number either consume nothing or end in a
    digit. *)
Definition optionally (s r : jsstring) : Prop :=
  r = s \/ consumed RefHost.isDigit s r.

(** The two generic messages of the page. *)
Definition analyzeFallback : jsstring := js "Failed to analyze prompt.".
Definition unknownFallback : jsstring := js "Unknown error while analyzing.".
Definition writeFirstMessage : jsstring := js "Write a prompt first.".

(** The message the [catch] block of the page shows for a thrown value. *)
Definition caughtMessage (e : Thrown) : jsstring :=
  match e with
  | ErrorObj message => message
  | NonError => unknownFallback
  end.

(** The request the page sends for a prompt. *)
Definition analyzeRequest {H : Host} (prompt : jsstring) : Page.Event :=
  Page.Fetch (js "/api/analyze") (js "POST")
    [(js "Content-Type", js "application/json")]
    (JSON_stringify (JObject [(js "prompt", JString prompt)])).

(** What the network answers to that request. *)
Definition answer {H : Host} (network : Page.Network) (prompt : jsstring)
    : Outcome Page.FetchResponse :=
  network (js "/api/analyze") (JSON_stringify (JObject [(js "prompt", JString prompt)])).

(** An attempt succeeds when the response is ok and its body is JSON. *)
Definition attemptData (o : Outcome Page.FetchResponse) : option JSValue :=
  match o with
  | Returns {| Page.ok := true; Page.json := Returns data |} => Some data
  | _ => None
  end.

(** The [error] message the server provided, when the response carries a
    JSON body with an [error] property that is neither absent nor [null]. *)
Definition serverError {H : Host} (o : Outcome Page.FetchResponse) : option jsstring :=
  match o with
  | Returns {| Page.json := Returns data |} =>
      match Page.optionalGet data (js "error") with
      | None | Some JNull => None
      | Some (JString m) => Some m
      | Some v => Some (ToString v)
      end
  | _ => None
  end.

(** The reading of a failed attempt in which the page shows the server's
    message when there is one and a generic message of its own otherwise. *)
Definition showsServerErrorOrFallback {H : Host}
    (o : Outcome Page.FetchResponse) (shown : option jsstring) : Prop :=
  match serverError o with
  | Some m => shown = Some m
  | None => shown = Some analyzeFallback \/ shown = Some unknownFallback
  end.

(** The five criterion ids, in the order of the table. *)
Definition criterionIds : list jsstring :=
  [js "context"; js "goal"; js "format"; js "constraints"; js "examples"].

(** Concrete states and networks for running the page. *)
Module Scenario.

Definition withPrompt (p : jsstring) : Page.State :=
  {| Page.prompt := p; Page.analysis := JNull; Page.isAnalyzing := false;
     Page.error := None; Page.copied := false |}.

Definition blank : Page.State := withPrompt Sample.blankPrompt.

(** A state that holds an earlier analysis. *)
Definition analyzed : Page.State :=
  {| Page.prompt := js "Write something.";
     Page.analysis :=
       JObject [(js "overallScore", JNumber 42);
                (js "improvedPrompt", JString (js "You are a writer. Goal: one paragraph."))];
     Page.isAnalyzing := false;
     Page.error := None;
     Page.copied := true |}.

(** A state whose analysis has a blank improved prompt. *)
Definition blankImproved : Page.State :=
  {| Page.prompt := js "Write something.";
     Page.analysis := JObject [(js "improvedPrompt", JString [32; 32]%N)];
     Page.isAnalyzing := false;
     Page.error := None;
     Page.copied := false |}.

(** No connection: [fetch] rejects with the browser's error. *)
Definition offline : Page.Network := fun _ _ => Throws (ErrorObj (js "Failed to fetch")).

(** The endpoint answers 400 with its own message. *)
Definition rejecting : Page.Network :=
  fun _ _ =>
    Returns {| Page.ok := false;
               Page.json := Returns (JObject [(js "error", JString promptRequiredMessage)]) |}.

End Scenario.

(** What the page shows after a failed attempt: the message of what was
    thrown when [fetch] or the decoding of the body threw, and otherwise
    the server's message or, without one, the page's own. *)
Definition shownOnFailure {H : Host} (o : Outcome Page.FetchResponse) : jsstring :=
  match o with
  | Throws e => caughtMessage e
  | Returns resp =>
      match Page.json resp with
      | Throws e => caughtMessage e
      | Returns _ =>
          match serverError o with
          | Some m => m
          | None => analyzeFallback
          end
      end
  end.

(* ===================================================================== *)
(** * The rest of route.ts: what runs when the module is loaded *)
(* ===================================================================== *)

Module RouteLoad.

Inductive Event : Type :=
| ConsoleWarn (message : jsstring).     (* console.warn(...) *)

Definition missingKeyWarning : jsstring :=
  js "[Prompt Analyzer] Missing GOOGLE_API_KEY environment variable.".

(** The statements at the top of the module, from the reading of the
    environment to [const genAI]: the warning when the key is missing, and
    the client handle (or [null]) the handler will use. *)
Definition load (env : Route.Env) : M Event (option jsstring) :=
  bind (if negb (Route.apiKeySet env) then tell (ConsoleWarn missingKeyWarning) else ret tt)
       (fun _ => ret (Route.genAI env)).

End RouteLoad.

(* ===================================================================== *)
(** * The rest of the page: the copy handler and what is rendered *)
(* ===================================================================== *)

Module View.
Section WithHost.
Context {H : Host}.
Import Page.
Local Open Scope js_scope.

(** [disabled={isAnalyzing || !prompt.trim()}] of the Analyze button. *)
Definition analyzeDisabled (st : State) : bool :=
  isAnalyzing st || negb (ToBoolean (JString (trim (prompt st)))).

(** [disabled={!analysis}] of the "Use improved prompt" button. *)
Definition useImprovedDisabled (st : State) : bool :=
  negb (ToBoolean (analysis st)).

(** [{prompt.trim().length} characters] *)
Definition characterCount (st : State) : nat := List.length (trim (prompt st)).

(** [{error && <p>...{error}</p>}]: the paragraph, when there is one. *)
Definition shownError (st : State) : option jsstring :=
  match error st with
  | Some e => if ToBoolean (JString e) then Some e else None
  | None => None
  end.

(** [{analysis ? "Last run from Gemini" : "Waiting for first analysis"}] *)
Definition statusText (st : State) : jsstring :=
  if ToBoolean (analysis st) then js "Last run from Gemini"
  else js "Waiting for first analysis".

(** [!analysis || !analysis.improvedPrompt?.trim()], the test shared by
    the copy handler, the Copy button and the panel. The optional call
    yields [undefined] on [undefined] and [null]; on any other value that
    is no string, [trim] is no function and the call throws. *)
Definition copyUnavailable {E} (st : State) : M E bool :=
  if negb (ToBoolean (analysis st)) then ret true
  else
    match Get (analysis st) (js "improvedPrompt") with
    | None | Some JNull => ret true
    | Some (JString s) => ret (negb (ToBoolean (JString (trim s))))
    | Some _ => throw TypeError
    end.

(** The panel under "Ready-to-copy prompt". *)
Inductive Panel : Type :=
| RunAnalysisFirst                       (* the paragraph that asks for an analysis *)
| Improved (text : option JSValue).      (* <pre>{analysis.improvedPrompt}</pre> *)

Definition renderPanel (st : State) : M Event Panel :=
  unavailable <- copyUnavailable st ;;
  if unavailable then ret RunAnalysisFirst
  else ret (Improved (Get (analysis st) (js "improvedPrompt"))).

(** What [navigator.clipboard.writeText(data)] does: resolves, or throws
    (also when there is no clipboard at all). *)
Definition Clipboard : Type := option JSValue -> Outcome unit.

(** What the copy handler does, in order. *)
Inductive Action : Type :=
| Call (setter : Event)                            (* a state setter *)
| WriteText (data : option JSValue)                (* navigator.clipboard.writeText(data) *)
| SetTimeout (callback : M Event unit) (delay : N).  (* setTimeout(callback, delay) *)

Definition writeText (clipboard : Clipboard) (data : option JSValue) : M Action unit :=
  ([WriteText data], clipboard data).

(** [async function handleCopyImproved()] *)
Definition handleCopyImproved (st : State) (clipboard : Clipboard) : M Action unit :=
  unavailable <- copyUnavailable st ;;
  if unavailable then ret tt
  else
    tryCatch
      (writeText clipboard (Get (analysis st) (js "improvedPrompt")) ;;
       tell (Call (SetCopied true)) ;;
       tell (SetTimeout (setCopied false) 1500))
      (fun _ => tell (Call (SetCopied false)))
      ret.

(** The state once the setter calls among the actions have run. *)
Definition afterActions (st : State) (actions : list Action) : State :=
  fold_left (fun s a => match a with Call ev => applyEvent s ev | _ => s end) actions st.

(** The suggestions card. *)
Inductive Suggestions : Type :=
| Invitation                        (* "Run an analysis to see ..." *)
| NoIssues                          (* "Gemini didn't find any major issues ..." *)
| Rows (items : list JSValue).      (* one row for each suggestion, {s} inside *)

(** [!analysis ? ... : analysis.suggestions.length === 0 ? ... :
    analysis.suggestions.map(...)]. Reading [length] of [undefined] or
    [null] throws; an array and a string have a length; an object has the
    [length] it holds; only an array has a [map]. *)
Definition renderSuggestions (st : State) : M Event Suggestions :=
  if negb (ToBoolean (analysis st)) then ret Invitation
  else
    match Get (analysis st) (js "suggestions") with
    | None | Some JNull => throw TypeError
    | Some (JArray []) => ret NoIssues
    | Some (JArray items) => ret (Rows items)
    | Some (JString s) => if isEmpty s then ret NoIssues else throw TypeError
    | Some (JObject props) =>
        match lookup (js "length") props with
        | Some (JNumber x) => if PrimFloat.eqb x 0 then ret NoIssues else throw TypeError
        | _ => throw TypeError
        end
    | Some (JBool _) | Some (JNumber _) => throw TypeError
    end.

(** [Math.max(a, b)] on two numbers: NaN when either is NaN, the larger
    otherwise, +0 counting as larger than -0. *)
Definition Math_max (a b : float) : float :=
  if PrimFloat.is_nan a || PrimFloat.is_nan b then PrimFloat.nan
  else if PrimFloat.ltb a b then b
  else if PrimFloat.ltb b a then a
  else if PrimFloat.get_sign a then b else a.

(** [Math.max(10, overallScore)], the width of the bar in percent, for an
    [overallScore] that is a number. *)
Definition barWidth (overallScore : float) : float := Math_max 10 overallScore.

End WithHost.
End View.

(** The calls of the model among the actions of the endpoint, each with
    the model name and the text sent. *)
Definition modelCalls (t : list Route.Event) : list (jsstring * jsstring) :=
  flat_map (fun ev => match ev with
                      | Route.GenerateContent model text => [(model, text)]
                      | _ => []
                      end) t.

(** The [console.error] lines among the actions of the endpoint. *)
Definition errorLogs (t : list Route.Event) : list (list Route.LogArg) :=
  flat_map (fun ev => match ev with
                      | Route.ConsoleError args => [args]
                      | _ => []
                      end) t.

(** The requests among the actions of the page. *)
Definition requestsSent (t : list Page.Event) : list Page.Event := filter Page.isFetch t.

(** An upstream reply built around a payload: optional outer white space
    [w0] and [w3], an optional opening fence with its tag and the white
    space after it, an optional closing fence with the white space before
    it. *)
Definition wrapped (w0 : jsstring) (opening : option (jsstring * jsstring))
    (payload : jsstring) (closing : option jsstring) (w3 : jsstring) : jsstring :=
  w0
  ++ match opening with Some (tag, w1) => FENCE ++ tag ++ w1 | None => [] end
  ++ payload
  ++ match closing with Some w2 => w2 ++ FENCE | None => [] end
  ++ w3.

Definition openingOk (opening : option (jsstring * jsstring)) : bool :=
  match opening with
  | Some (tag, w1) => isJsonTag tag && forallb isWhiteSpace w1
  | None => true
  end.

Definition closingOk (closing : option jsstring) : bool :=
  match closing with
  | Some w2 => forallb isJSONWhiteSpace w2
  | None => true
  end.

(** More concrete requests and replies. *)
Module Cases.

(** A body whose [prompt] is a number. *)
Definition numericPrompt : Route.Request :=
  {| Route.bodyText := js "{" ++ quoted "prompt" ++ js ": 5}" |}.

(** A text with white space around it. *)
Definition paddedPrompt : jsstring := js "  Write something. ".

(** A reply with a no-break space before an opening fence, and no closing
    fence. *)
Definition halfFenced : jsstring :=
  wrapped [160%N] (Some (js "Json", [LF])) Sample.replyText None [LF; 160%N].

(** A reply that ends in a closing fence without an opening one. *)
Definition closedOnly : jsstring :=
  wrapped [] None Sample.replyText (Some [LF]) [].

End Cases.

(** More concrete states, networks and clipboards. *)
Module Moments.

(** The endpoint answers 200 with an analysis. *)
Definition analysisValue : JSValue :=
  JObject [(js "overallScore", JNumber 42);
           (js "overallLabel", JString (js "Needs work"));
           (js "criteria",
            JArray [JObject [(js "id", JString (js "goal"));
                             (js "label", JString (js "Goal"));
                             (js "score", JNumber 250);
                             (js "level", JString (js "strong"));
                             (js "feedback", JString (js "Clear."))];
                    JObject [(js "id", JString (js "tone"));
                             (js "score", JNumber 7);
                             (js "level", JString (js "weak"))]]);
           (js "suggestions", JArray [JString (js "Add context")]);
           (js "improvedPrompt", JString (js " You are a writer. "))].

Definition answering (data : JSValue) : Page.Network :=
  fun _ _ => Returns {| Page.ok := true; Page.json := Returns data |}.

(** The state that holds that analysis. *)
Definition analyzed : Page.State :=
  {| Page.prompt := js "Write something.";
     Page.analysis := analysisValue;
     Page.isAnalyzing := false;
     Page.error := Some (js "old error");
     Page.copied := false |}.

Definition typing : Page.State := Scenario.withPrompt (js "Write something.").

Definition clipboardWorks : option JSValue -> Outcome unit := fun _ => Returns tt.
Definition clipboardDenied : option JSValue -> Outcome unit :=
  fun _ => Throws (ErrorObj (js "Write permission denied.")).

End Moments.

(* ===================================================================== *)
(** * Character classes and trimming *)
(* ===================================================================== *)

(** Turns a boolean test on code units into linear arithmetic. *)
Ltac charclass :=
  unfold isWhiteSpace, isJSONWhiteSpace, isValueStart, isValueEnd, BACKTICK in *;
  cbn [existsb] in *;
  repeat match goal with
         | |- _ = false => apply not_true_is_false; intro
         | |- _ <> _ => intro
         end;
  repeat rewrite ?orb_true_iff, ?andb_true_iff, ?orb_false_r, ?N.eqb_eq, ?N.leb_le in *;
  lia.

Lemma isJSONWhiteSpace_isWhiteSpace c :
  isJSONWhiteSpace c = true -> isWhiteSpace c = true.
Proof. intro Hc. charclass. Qed.

Lemma isValueStart_not_ws c : isValueStart c = true -> isWhiteSpace c = false.
Proof. intro Hc. charclass. Qed.

Lemma isValueStart_not_backtick c : isValueStart c = true -> c <> BACKTICK.
Proof. intro Hc. charclass. Qed.

Lemma isValueEnd_not_ws c : isValueEnd c = true -> isWhiteSpace c = false.
Proof. intro Hc. charclass. Qed.

Lemma isValueEnd_not_backtick c : isValueEnd c = true -> c <> BACKTICK.
Proof. intro Hc. charclass. Qed.

Lemma forallb_JSON_ws w :
  forallb isJSONWhiteSpace w = true -> forallb isWhiteSpace w = true.
Proof.
  induction w as [|c w IH]; cbn; [reflexivity|].
  rewrite !andb_true_iff. intros [Hc Hw].
  split; [apply isJSONWhiteSpace_isWhiteSpace, Hc | apply IH, Hw].
Qed.

Lemma forallb_rev (f : N -> bool) w : forallb f (rev w) = forallb f w.
Proof.
  induction w as [|c w IH]; cbn; [reflexivity|].
  rewrite forallb_app, IH. cbn. rewrite andb_true_r. apply andb_comm.
Qed.

Section DropWhile.
Variable f : N -> bool.

Lemma dropWhile_app w s : forallb f w = true -> dropWhile f (w ++ s) = dropWhile f s.
Proof.
  induction w as [|c w IH]; cbn; [reflexivity|].
  rewrite andb_true_iff. intros [Hc Hw]. rewrite Hc. apply IH, Hw.
Qed.

Lemma dropWhile_fixed c s : f c = false -> dropWhile f (c :: s) = c :: s.
Proof. intro Hc. cbn. rewrite Hc. reflexivity. Qed.

(** A text is a run of the class followed by what [dropWhile] keeps. *)
Lemma dropWhile_split s : exists w, s = w ++ dropWhile f s /\ forallb f w = true.
Proof.
  induction s as [|c s [w [Hs Hw]]]; [exists []; split; reflexivity|].
  cbn. destruct (f c) eqn:Hc.
  - exists (c :: w). cbn. rewrite Hc, Hw. split; [f_equal; exact Hs | reflexivity].
  - exists []. split; reflexivity.
Qed.

Lemma dropWhile_head s c r : dropWhile f s = c :: r -> f c = false.
Proof.
  induction s as [|d s IH]; cbn; [discriminate|].
  destruct (f d) eqn:Hd; [exact IH|].
  intro E. injection E as -> _. exact Hd.
Qed.

Lemma strip_sandwich a core b first last :
  forallb f a = true ->
  forallb f b = true ->
  hd_error core = Some first -> f first = false ->
  hd_error (rev core) = Some last -> f last = false ->
  strip f (a ++ core ++ b) = core.
Proof.
  intros Ha Hb Hf Hfw Hl Hlw. unfold strip.
  rewrite dropWhile_app by exact Ha.
  destruct core as [|c core']; [discriminate|]. cbn in Hf. injection Hf as ->.
  change ((first :: core') ++ b) with (first :: (core' ++ b)).
  rewrite dropWhile_fixed by exact Hfw.
  rewrite app_comm_cons, rev_app_distr, dropWhile_app by (rewrite forallb_rev; exact Hb).
  destruct (rev (first :: core')) as [|l r] eqn:E; [discriminate|].
  cbn in Hl. injection Hl as ->.
  rewrite dropWhile_fixed by exact Hlw.
  rewrite <- E. apply rev_involutive.
Qed.

(** A text is what [strip] keeps between two runs of the class, and what
    it keeps neither starts nor ends in the class. *)
Lemma strip_split s :
  exists a b, s = a ++ strip f s ++ b /\ forallb f a = true /\ forallb f b = true.
Proof.
  destruct (dropWhile_split s) as (a & Hs & Ha).
  destruct (dropWhile_split (rev (dropWhile f s))) as (w & Hr & Hw).
  exists a, (rev w). split; [|split; [exact Ha | rewrite forallb_rev; exact Hw]].
  rewrite Hs at 1. f_equal. unfold strip.
  rewrite <- rev_app_distr, <- Hr. symmetry. apply rev_involutive.
Qed.

Lemma strip_head s c r : strip f s = c :: r -> f c = false.
Proof.
  unfold strip. intros E.
  assert (E' : dropWhile f (rev (dropWhile f s)) = rev (c :: r))
    by (rewrite <- E; symmetry; apply rev_involutive).
  destruct (dropWhile_split (rev (dropWhile f s))) as (w & Hr & Hw).
  rewrite E' in Hr.
  assert (Hs : dropWhile f s = (c :: r) ++ rev w).
  { rewrite <- (rev_involutive (dropWhile f s)), Hr, rev_app_distr, rev_involutive.
    reflexivity. }
  apply (dropWhile_head s c (r ++ rev w)). exact Hs.
Qed.

Lemma strip_last s c r : rev (strip f s) = c :: r -> f c = false.
Proof.
  unfold strip. rewrite rev_involutive. apply dropWhile_head.
Qed.

End DropWhile.

Lemma trimStart_ws_app w s :
  forallb isWhiteSpace w = true -> trimStart (w ++ s) = trimStart s.
Proof. apply dropWhile_app. Qed.

Lemma trimStart_fixed c s : isWhiteSpace c = false -> trimStart (c :: s) = c :: s.
Proof. apply dropWhile_fixed. Qed.

(** [trim] removes white space around a text that neither starts nor ends
    with white space. *)
Lemma trim_sandwich a core b first last :
  forallb isWhiteSpace a = true ->
  forallb isWhiteSpace b = true ->
  hd_error core = Some first -> isWhiteSpace first = false ->
  hd_error (rev core) = Some last -> isWhiteSpace last = false ->
  trim (a ++ core ++ b) = core.
Proof. apply (strip_sandwich isWhiteSpace). Qed.

Lemma trim_nil : trim [] = [].
Proof. reflexivity. Qed.

Lemma trim_nonempty p : trim p <> [] -> p <> [].
Proof. intros Hp ->. apply Hp, trim_nil. Qed.

(* ===================================================================== *)
(** * The endpoint, path by path *)
(* ===================================================================== *)

Section Endpoint.
Context {H : Host}.
Import Route.

(** [body || {}] is never [null], so the destructuring reads a property. *)
Lemma destructure_orEmptyObject k b :
  destructure k (orEmptyObject b) = ret (Get (orEmptyObject b) k).
Proof.
  unfold orEmptyObject.
  destruct b as [|[]|x|s|items|props]; cbn; try reflexivity.
  - destruct (negb _); reflexivity.
  - destruct s; reflexivity.
Qed.

Lemma genAI_configured env :
  apiKeySet env = true -> exists key, genAI env = Some key.
Proof.
  unfold genAI. intros Hk. rewrite Hk.
  unfold apiKeySet in Hk. destruct (apiKey env) as [key|]; [|discriminate].
  exists key. reflexivity.
Qed.

Lemma genAI_missing env : apiKeySet env = false -> genAI env = None.
Proof. unfold genAI. intros ->. reflexivity. Qed.

Lemma POST_missing_key env gemini request :
  apiKeySet env = false ->
  POST env gemini request = ([], Returns (jsonResponse (errorObject missingKeyMessage) 500)).
Proof.
  intros Hk. unfold POST. rewrite (genAI_missing env Hk), Hk. reflexivity.
Qed.

Lemma POST_invalid_body env gemini request e :
  apiKeySet env = true ->
  JSON_parse (bodyText request) = Throws e ->
  POST env gemini request
  = ([RequestJson], Returns (jsonResponse (errorObject invalidBodyMessage) 400)).
Proof.
  intros Hk Hb. unfold POST. destruct (genAI_configured env Hk) as [key ->]. rewrite Hk.
  unfold request_json. rewrite Hb. reflexivity.
Qed.

Lemma POST_prompt_rejected env gemini request b :
  apiKeySet env = true ->
  JSON_parse (bodyText request) = Returns b ->
  acceptedPrompt (Get (orEmptyObject b) (js "prompt")) = None ->
  POST env gemini request
  = ([RequestJson], Returns (jsonResponse (errorObject promptRequiredMessage) 400)).
Proof.
  intros Hk Hb Hp. unfold POST. destruct (genAI_configured env Hk) as [key ->]. rewrite Hk.
  unfold request_json. rewrite Hb. cbn [negb orb tryCatch].
  rewrite destructure_orEmptyObject. unfold ret, bind. rewrite Hp. reflexivity.
Qed.

Lemma POST_upstream_failure env gemini request b p e :
  apiKeySet env = true ->
  JSON_parse (bodyText request) = Returns b ->
  acceptedPrompt (Get (orEmptyObject b) (js "prompt")) = Some p ->
  gemini modelName (userText p) = Throws e ->
  POST env gemini request
  = ([RequestJson; GenerateContent modelName (userText p);
      ConsoleError [LogText (js "[Prompt Analyzer] Gemini API error:"); LogThrown e]],
     Returns (jsonResponse (errorObject upstreamFailureMessage) 500)).
Proof.
  intros Hk Hb Hp Hg. unfold POST. destruct (genAI_configured env Hk) as [key ->]. rewrite Hk.
  unfold request_json. rewrite Hb. cbn [negb orb tryCatch].
  rewrite destructure_orEmptyObject. unfold ret, bind. rewrite Hp.
  unfold generateContent. rewrite Hg. reflexivity.
Qed.

Lemma POST_invalid_upstream env gemini request b p text e :
  apiKeySet env = true ->
  JSON_parse (bodyText request) = Returns b ->
  acceptedPrompt (Get (orEmptyObject b) (js "prompt")) = Some p ->
  gemini modelName (userText p) = Returns text ->
  JSON_parse (cleaned text) = Throws e ->
  POST env gemini request
  = ([RequestJson; GenerateContent modelName (userText p);
      ConsoleError [LogText (js "[Prompt Analyzer] Failed to parse JSON from Gemini:");
                    LogText (cleaned text)]],
     Returns (jsonResponse
                (JObject [(js "error", JString invalidUpstreamMessage);
                          (js "raw", JString (cleaned text))])
                502)).
Proof.
  intros Hk Hb Hp Hg Hj. unfold POST. destruct (genAI_configured env Hk) as [key ->]. rewrite Hk.
  unfold request_json. rewrite Hb. cbn [negb orb tryCatch].
  rewrite destructure_orEmptyObject. unfold ret, bind. rewrite Hp.
  unfold generateContent. rewrite Hg. unfold lift. rewrite Hj. reflexivity.
Qed.

Lemma POST_success env gemini request b p text v :
  apiKeySet env = true ->
  JSON_parse (bodyText request) = Returns b ->
  acceptedPrompt (Get (orEmptyObject b) (js "prompt")) = Some p ->
  gemini modelName (userText p) = Returns text ->
  JSON_parse (cleaned text) = Returns v ->
  POST env gemini request
  = ([RequestJson; GenerateContent modelName (userText p)],
     Returns (jsonResponse v 200)).
Proof.
  intros Hk Hb Hp Hg Hj. unfold POST. destruct (genAI_configured env Hk) as [key ->]. rewrite Hk.
  unfold request_json. rewrite Hb. cbn [negb orb tryCatch].
  rewrite destructure_orEmptyObject. unfold ret, bind. rewrite Hp.
  unfold generateContent. rewrite Hg. unfold lift. rewrite Hj. reflexivity.
Qed.

(** The guard accepts exactly the strings that are not blank. *)
Lemma acceptedPrompt_string p :
  acceptedPrompt (Some (JString p)) = if isEmpty (trim p) then None else Some p.
Proof.
  unfold acceptedPrompt. cbn.
  destruct p as [|c p]; [reflexivity|]. cbn [isEmpty negb].
  destruct (trim (c :: p)); reflexivity.
Qed.

Lemma acceptedPrompt_inv prompt p :
  acceptedPrompt prompt = Some p <-> prompt = Some (JString p) /\ trim p <> [].
Proof.
  split.
  - destruct prompt as [[|flag|x|s|items|props]|]; unfold acceptedPrompt; cbn;
      try discriminate.
    + destruct flag; discriminate.
    + destruct (negb _); discriminate.
    + destruct (negb (negb (isEmpty s))); [discriminate|].
      destruct (trim s) eqn:E; cbn; [discriminate|].
      intro E'. injection E' as <-. split; [reflexivity | rewrite E; discriminate].
  - intros [-> Hp]. rewrite acceptedPrompt_string.
    destruct (trim p); [contradiction | reflexivity].
Qed.

Lemma Get_some_object b k v : Get b k = Some v -> orEmptyObject b = b.
Proof. destruct b; cbn; try discriminate. reflexivity. Qed.

End Endpoint.

(* ===================================================================== *)
(** * Properties of the endpoint *)
(* ===================================================================== *)

Section EndpointProperties.
Context {H : Host}.
Import Route.

(** C2. Without a configured credential ([GOOGLE_API_KEY] unset or empty)
    the handler answers every request, whatever its body, with the 500
    configuration error, and does so before anything else: it performs no
    action at all, in particular it never calls [request.json()], so a
    malformed body cannot turn the answer into a 400. *)
Theorem missing_credential_short_circuits env gemini request :
  apiKeySet env = false ->
  events (POST env gemini request) = [] /\
  outcome (POST env gemini request)
  = Returns {| body := JSON_stringify (JObject [(js "error", JString missingKeyMessage)]);
               status := 500;
               headers := jsonHeaders |}.
Proof.
  intros Hk. rewrite (POST_missing_key env gemini request Hk). split; reflexivity.
Qed.

(** C1. With the credential configured, a body whose [prompt] is a string
    that is not blank, and an upstream reply whose cleaned text parses as
    JSON, the handler answers 200 and the body is the JSON text of exactly
    the parsed value [v], whatever [v] is: no shape is checked, no score is
    clamped, nothing is changed or reordered. *)
Theorem upstream_value_passed_through env gemini request b p text v :
  apiKeySet env = true ->
  JSON_parse (bodyText request) = Returns b ->
  Get b (js "prompt") = Some (JString p) ->
  trim p <> [] ->
  gemini modelName (userText p) = Returns text ->
  JSON_parse (cleaned text) = Returns v ->
  POST env gemini request
  = ([RequestJson; GenerateContent modelName (userText p)],
     Returns {| body := JSON_stringify v; status := 200; headers := jsonHeaders |}).
Proof.
  intros Hk Hb Hget Hp Hg Hv.
  apply (POST_success env gemini request b p text v); try assumption.
  rewrite (Get_some_object _ _ _ Hget), Hget.
  apply acceptedPrompt_inv. split; [reflexivity | exact Hp].
Qed.

(** C10. A body that parses as JSON but holds no [prompt] property (null,
    a boolean, a number, a string, an array, or an object without it)
    makes the handler return, not throw: [body || {}] is never [null], so
    the destructuring reads [undefined], and the answer is the same 400 as
    for a missing prompt. *)
Theorem body_without_prompt_rejected env gemini request b :
  apiKeySet env = true ->
  JSON_parse (bodyText request) = Returns b ->
  hasPrompt b = false ->
  destructure (js "prompt") (orEmptyObject b) = ([], Returns None) /\
  POST env gemini request
  = ([RequestJson],
     Returns {| body := JSON_stringify (JObject [(js "error", JString promptRequiredMessage)]);
                status := 400;
                headers := jsonHeaders |}).
Proof.
  intros Hk Hb Hno.
  assert (Hget : Get (orEmptyObject b) (js "prompt") = None).
  { unfold orEmptyObject. destruct (ToBoolean b); [|reflexivity].
    destruct b; try reflexivity. unfold hasPrompt in Hno. unfold Get.
    destruct (lookup (js "prompt") props); [discriminate | reflexivity]. }
  split.
  - rewrite destructure_orEmptyObject, Hget. reflexivity.
  - apply (POST_prompt_rejected env gemini request b Hk Hb). rewrite Hget. reflexivity.
Qed.


End EndpointProperties.

(* ===================================================================== *)
(** * Fenced upstream text *)
(* ===================================================================== *)

Section Fences.
Context {H : Host}.
Hypothesis grammar : JSON_text_grammar H.
Import Route.

Lemma replaceOpeningFence_other c s :
  c <> BACKTICK -> replaceOpeningFence (c :: s) = c :: s.
Proof.
  intros Hc. unfold replaceOpeningFence, openingFence.
  destruct s as [|t2 [|t3 [|j [|s' [|o [|n rest]]]]]]; try reflexivity.
  apply N.eqb_neq in Hc. rewrite Hc. reflexivity.
Qed.

Lemma replaceClosingFence_other s last :
  hd_error (rev s) = Some last -> last <> BACKTICK -> replaceClosingFence s = s.
Proof.
  intros Hl Hc. unfold replaceClosingFence.
  destruct (rev s) as [|t3 [|t2 [|t1 front]]]; try reflexivity.
  cbn in Hl. injection Hl as ->.
  apply N.eqb_neq in Hc. rewrite Hc, andb_false_r. reflexivity.
Qed.

Lemma replaceClosingFence_fence s : replaceClosingFence (s ++ FENCE) = s.
Proof.
  unfold replaceClosingFence, FENCE. rewrite rev_app_distr. cbn.
  apply rev_involutive.
Qed.

Lemma replaceOpeningFence_tag tag rest :
  isJsonTag tag = true ->
  replaceOpeningFence (FENCE ++ tag ++ rest) = trimStart rest.
Proof.
  unfold isJsonTag. destruct tag as [|j [|s [|o [|n [|x tag]]]]]; try discriminate.
  intros Htag. unfold replaceOpeningFence, openingFence, FENCE. cbn [app].
  rewrite !N.eqb_refl. cbn [andb]. rewrite Htag. reflexivity.
Qed.

(** The cleaned form of a JSON text is its value, without the white space
    around it. *)
Lemma cleaned_plain payload v :
  JSON_parse payload = Returns v -> JSON_parse (cleaned payload) = Returns v.
Proof.
  intros Hv.
  destruct (grammar _ _ Hv)
    as (a & core & b & first & last & -> & Ha & Hb & Hf & Hfs & Hl & Hle & Hany).
  unfold cleaned.
  rewrite (trim_sandwich a core b first last);
    auto using forallb_JSON_ws, isValueStart_not_ws, isValueEnd_not_ws.
  destruct core as [|c core']; [discriminate|]. cbn in Hf. injection Hf as ->.
  rewrite replaceOpeningFence_other by (apply isValueStart_not_backtick, Hfs).
  rewrite (replaceClosingFence_other _ last Hl) by (apply isValueEnd_not_backtick, Hle).
  specialize (Hany [] [] eq_refl eq_refl). rewrite app_nil_r in Hany. exact Hany.
Qed.

(** The cleaned form of a fenced JSON text is its value followed by the
    white space that stood before the closing fence. *)
Lemma cleaned_fenced tag w1 payload w2 v :
  JSON_parse payload = Returns v ->
  isJsonTag tag = true ->
  forallb isWhiteSpace w1 = true ->
  forallb isJSONWhiteSpace w2 = true ->
  JSON_parse (cleaned (fenced tag w1 payload w2)) = Returns v.
Proof.
  intros Hv Htag Hw1 Hw2.
  destruct (grammar _ _ Hv)
    as (a & core & b & first & last & -> & Ha & Hb & Hf & Hfs & Hl & Hle & Hany).
  unfold cleaned.
  assert (Htrim : trim (fenced tag w1 (a ++ core ++ b) w2)
                  = fenced tag w1 (a ++ core ++ b) w2).
  { rewrite <- (app_nil_r (fenced _ _ _ _)) at 1.
    apply (trim_sandwich [] _ [] BACKTICK BACKTICK); try reflexivity.
    unfold fenced, FENCE. rewrite !app_assoc, rev_app_distr. reflexivity. }
  rewrite Htrim. unfold fenced.
  rewrite replaceOpeningFence_tag by exact Htag.
  rewrite trimStart_ws_app by exact Hw1.
  rewrite <- app_assoc, trimStart_ws_app by (apply forallb_JSON_ws, Ha).
  destruct core as [|c core']; [discriminate|]. cbn in Hf. injection Hf as ->.
  cbn [app]. rewrite trimStart_fixed by (apply isValueStart_not_ws, Hfs).
  rewrite !app_assoc, app_comm_cons, replaceClosingFence_fence, <- !app_assoc.
  apply (Hany [] (b ++ w2)); [reflexivity|].
  rewrite forallb_app, Hb, Hw2. reflexivity.
Qed.

(** Two replies whose cleaned texts parse to the same value get the same
    run of the handler. *)
Lemma POST_same_value env request text1 text2 v :
  JSON_parse (cleaned text1) = Returns v ->
  JSON_parse (cleaned text2) = Returns v ->
  POST env (replies text1) request = POST env (replies text2) request.
Proof.
  intros H1 H2.
  destruct (apiKeySet env) eqn:Hk.
  2:{ rewrite !POST_missing_key by exact Hk. reflexivity. }
  destruct (JSON_parse (bodyText request)) as [b|e] eqn:Hb.
  2:{ rewrite !(POST_invalid_body env _ request e Hk Hb). reflexivity. }
  destruct (acceptedPrompt (Get (orEmptyObject b) (js "prompt"))) as [p|] eqn:Hp.
  2:{ rewrite !(POST_prompt_rejected env _ request b Hk Hb Hp). reflexivity. }
  rewrite (POST_success env (replies text1) request b p text1 v Hk Hb Hp eq_refl H1).
  rewrite (POST_success env (replies text2) request b p text2 v Hk Hb Hp eq_refl H2).
  reflexivity.
Qed.

(** A fence without the tag stays in the cleaned text, which then starts
    with a backtick and is no JSON text. *)
Lemma untagged_fence_not_parsed w1 payload w2 v :
  JSON_parse payload = Returns v ->
  forallb isWhiteSpace w1 = true ->
  exists e, JSON_parse (cleaned (fenced [] w1 payload w2)) = Throws e.
Proof.
  intros Hv Hw1.
  destruct (grammar _ _ Hv)
    as (a & core & b & first & last & -> & Ha & _ & Hf & Hfs & _).
  destruct core as [|c core']; [discriminate|]. cbn in Hf. injection Hf as ->.
  assert (Hclean : cleaned (fenced [] w1 (a ++ (first :: core') ++ b) w2)
                   = FENCE ++ w1 ++ (a ++ (first :: core') ++ b) ++ w2).
  { unfold cleaned.
    assert (Htrim : trim (fenced [] w1 (a ++ (first :: core') ++ b) w2)
                    = fenced [] w1 (a ++ (first :: core') ++ b) w2).
    { rewrite <- (app_nil_r (fenced _ _ _ _)) at 1.
      apply (trim_sandwich [] _ [] BACKTICK BACKTICK); try reflexivity.
      unfold fenced, FENCE. rewrite !app_assoc, rev_app_distr. reflexivity. }
    rewrite Htrim. unfold fenced. rewrite app_nil_l.
    assert (Hopen : replaceOpeningFence
                      (FENCE ++ w1 ++ (a ++ (first :: core') ++ b) ++ w2 ++ FENCE)
                    = FENCE ++ w1 ++ (a ++ (first :: core') ++ b) ++ w2 ++ FENCE).
    { assert (Hj : forall x rest, (isWhiteSpace x = true \/ isValueStart x = true) ->
                     replaceOpeningFence (FENCE ++ x :: rest) = FENCE ++ x :: rest).
      { intros x rest Hx. unfold replaceOpeningFence, openingFence, FENCE. cbn [app].
        destruct rest as [|s' [|o [|n rest']]]; try reflexivity.
        assert (Ex : ((x =? 106) || (x =? 74))%N = false).
        { apply not_true_is_false. intro Ex. destruct Hx as [Hx|Hx]; charclass. }
        rewrite Ex, !andb_false_r. reflexivity. }
      destruct w1 as [|x w1'].
      - destruct a as [|x a'].
        + apply Hj. right. exact Hfs.
        + apply Hj. left. cbn in Ha. apply andb_true_iff in Ha.
          apply isJSONWhiteSpace_isWhiteSpace, Ha.
      - apply Hj. left. cbn in Hw1. apply andb_true_iff in Hw1. apply Hw1. }
    rewrite Hopen, !app_assoc, replaceClosingFence_fence. reflexivity. }
  rewrite Hclean.
  destruct (JSON_parse (FENCE ++ w1 ++ (a ++ (first :: core') ++ b) ++ w2))
    as [v'|e] eqn:Hparse; [|exists e; reflexivity].
  exfalso.
  destruct (grammar _ _ Hparse)
    as (a2 & core2 & b2 & first2 & last2 & Hs & Ha2 & _ & Hf2 & Hfs2 & _).
  destruct a2 as [|x a2'].
  - destruct core2 as [|y core2']; [discriminate|]. cbn in Hf2. injection Hf2 as ->.
    injection Hs as Hy _. subst first2. discriminate Hfs2.
  - injection Hs as Hx _. subst x. discriminate Ha2.
Qed.

(** So, on an otherwise valid request, a payload in an untagged fence is
    answered 502 where the payload alone is answered 200. *)
Lemma untagged_fence_answered_502 env request b p w1 payload w2 v :
  apiKeySet env = true ->
  JSON_parse (bodyText request) = Returns b ->
  acceptedPrompt (Get (orEmptyObject b) (js "prompt")) = Some p ->
  JSON_parse payload = Returns v ->
  forallb isWhiteSpace w1 = true ->
  responseStatus (POST env (replies (fenced [] w1 payload w2)) request) = Some 502%N /\
  responseStatus (POST env (replies payload) request) = Some 200%N.
Proof.
  intros Hk Hb Hp Hv Hw1. split.
  - destruct (untagged_fence_not_parsed w1 payload w2 v Hv Hw1) as (e & He).
    rewrite (POST_invalid_upstream env _ request b p _ e Hk Hb Hp eq_refl He).
    reflexivity.
  - rewrite (POST_success env _ request b p payload v Hk Hb Hp eq_refl
               (cleaned_plain payload v Hv)).
    reflexivity.
Qed.


End Fences.

(* ===================================================================== *)
(** * The cleaning against the words of the specification *)
(* ===================================================================== *)

Section StrippedText.
Context {H : Host}.
Import Route.

Lemma trim_blank s : forallb isWhiteSpace s = true -> trim s = [].
Proof.
  intros Hs. unfold trim, trimEnd, trimStart.
  rewrite <- (app_nil_r s), dropWhile_app by exact Hs. reflexivity.
Qed.

Lemma trimmedOf_trim text t : trimmedOf text t -> trim text = t.
Proof.
  intros (a & b & -> & Ha & Hb & Hfirst & Hlast).
  destruct t as [|c r].
  - cbn [app]. apply trim_blank. rewrite forallb_app, Ha, Hb. reflexivity.
  - destruct (rev (c :: r)) as [|l front] eqn:E.
    + apply (f_equal (@List.length N)) in E. rewrite length_rev in E. discriminate E.
    + apply (trim_sandwich a (c :: r) b c l); try assumption.
      * reflexivity.
      * apply (Hfirst c r). reflexivity.
      * rewrite E. reflexivity.
      * apply (Hlast l front). reflexivity.
Qed.

Lemma openingFence_some t rest :
  openingFence t = Some rest ->
  exists tag rest0,
    isJsonTag tag = true /\ t = FENCE ++ tag ++ rest0 /\ rest = trimStart rest0.
Proof.
  unfold openingFence.
  destruct t as [|t1 [|t2 [|t3 [|j [|s [|o [|n rest0]]]]]]]; try discriminate.
  destruct (_ && _) eqn:E; [|discriminate]. intros Eq. injection Eq as <-.
  rewrite !andb_true_iff in E. destruct E as ((((((E1 & E2) & E3) & Ej) & Es) & Eo) & En).
  apply N.eqb_eq in E1, E2, E3. subst t1 t2 t3.
  exists [j; s; o; n], rest0. split; [|split; reflexivity].
  unfold isJsonTag. rewrite Ej, Es, Eo, En. reflexivity.
Qed.

Lemma openingFence_tag tag rest :
  isJsonTag tag = true -> openingFence (FENCE ++ tag ++ rest) = Some (trimStart rest).
Proof.
  unfold isJsonTag. destruct tag as [|j [|s [|o [|n [|x tag]]]]]; try discriminate.
  intros Htag. unfold openingFence, FENCE. cbn [app].
  rewrite !N.eqb_refl. cbn [andb]. rewrite Htag. reflexivity.
Qed.

Lemma withoutOpeningFence_replace t u :
  withoutOpeningFence t u -> replaceOpeningFence t = u.
Proof.
  intros [(tag & w & Htag & Hw & -> & Hu) | (Hno & ->)].
  - unfold replaceOpeningFence. rewrite (openingFence_tag tag (w ++ u) Htag).
    rewrite trimStart_ws_app by exact Hw.
    destruct u as [|c r]; [reflexivity|].
    apply trimStart_fixed. apply (Hu c r). reflexivity.
  - unfold replaceOpeningFence. destruct (openingFence t) as [rest|] eqn:E; [|reflexivity].
    exfalso. apply Hno.
    destruct (openingFence_some t rest E) as (tag & rest0 & Htag & -> & _).
    exists tag, rest0. split; [exact Htag | reflexivity].
Qed.

Lemma withoutClosingFence_replace u s :
  withoutClosingFence u s -> replaceClosingFence u = s.
Proof.
  intros [-> | (Hno & ->)]; [apply replaceClosingFence_fence|].
  unfold replaceClosingFence.
  destruct (rev u) as [|t3 [|t2 [|t1 front]]] eqn:E; try reflexivity.
  destruct (_ && _) eqn:B; [|reflexivity].
  exfalso. rewrite !andb_true_iff in B. destruct B as ((B1 & B2) & B3).
  apply N.eqb_eq in B1, B2, B3. subst t1 t2 t3.
  apply (Hno (rev front)).
  rewrite <- (rev_involutive u), E. cbn. rewrite <- !app_assoc. reflexivity.
Qed.

(** What the handler computes is the stripped text of the specification. *)
Lemma strippedText_cleaned text s : strippedText text s -> cleaned text = s.
Proof.
  intros (t & u & Ht & Hu & Hs). unfold cleaned.
  rewrite (trimmedOf_trim text t Ht), (withoutOpeningFence_replace t u Hu).
  apply withoutClosingFence_replace, Hs.
Qed.

Lemma trimmedOf_exists text : trimmedOf text (trim text).
Proof.
  destruct (strip_split isWhiteSpace text) as (a & b & E & Ha & Hb).
  exists a, b. split; [exact E|]. split; [exact Ha|]. split; [exact Hb|]. split.
  - intros c r. apply (strip_head isWhiteSpace text).
  - intros c r. apply (strip_last isWhiteSpace text).
Qed.

Lemma withoutOpeningFence_exists t : withoutOpeningFence t (replaceOpeningFence t).
Proof.
  unfold replaceOpeningFence. destruct (openingFence t) as [rest|] eqn:E.
  - left. destruct (openingFence_some t rest E) as (tag & rest0 & Htag & -> & ->).
    destruct (dropWhile_split isWhiteSpace rest0) as (w & Hrest & Hw).
    exists tag, w. split; [exact Htag|]. split; [exact Hw|]. split.
    + unfold trimStart. rewrite <- Hrest. reflexivity.
    + intros c r. apply (dropWhile_head isWhiteSpace).
  - right. split; [|reflexivity]. intros (tag & rest & Htag & ->).
    rewrite (openingFence_tag tag rest Htag) in E. discriminate E.
Qed.

Lemma withoutClosingFence_exists u : withoutClosingFence u (replaceClosingFence u).
Proof.
  unfold replaceClosingFence.
  destruct (rev u) as [|t3 [|t2 [|t1 front]]] eqn:E;
    try (right; split; [|reflexivity]; intros f ->;
         unfold FENCE in E; rewrite rev_app_distr in E; discriminate E).
  destruct (_ && _) eqn:B.
  - left. rewrite !andb_true_iff in B. destruct B as ((B1 & B2) & B3).
    apply N.eqb_eq in B1, B2, B3. subst t1 t2 t3.
    rewrite <- (rev_involutive u) at 1. rewrite E. cbn. rewrite <- !app_assoc. reflexivity.
  - right. split; [|reflexivity]. intros f ->.
    unfold FENCE in E. rewrite rev_app_distr in E. cbn in E.
    injection E as <- <- <- _. rewrite !N.eqb_refl in B. discriminate B.
Qed.

(** Every reply has a stripped text. *)
Lemma strippedText_exists text : strippedText text (cleaned text).
Proof.
  exists (trim text), (replaceOpeningFence (trim text)).
  split; [apply trimmedOf_exists|].
  split; [apply withoutOpeningFence_exists | apply withoutClosingFence_exists].
Qed.

(** C4. Every upstream reply has a text left after trimming and
    fence-stripping: the reply without the white space at its two ends,
    then without the opening fence marker tagged json and the white space
    after it, then without the fence marker at its end. When that text
    does not parse as JSON, the handler logs it and answers 502 with the
    message that names the invalid upstream reply and with that very text
    under [raw]. *)
Theorem invalid_upstream_reported env gemini request b p text :
  apiKeySet env = true ->
  JSON_parse (bodyText request) = Returns b ->
  Get b (js "prompt") = Some (JString p) ->
  trim p <> [] ->
  gemini modelName (userText p) = Returns text ->
  (exists stripped, strippedText text stripped) /\
  forall stripped e,
    strippedText text stripped ->
    JSON_parse stripped = Throws e ->
    POST env gemini request
    = ([RequestJson; GenerateContent modelName (userText p);
        ConsoleError [LogText (js "[Prompt Analyzer] Failed to parse JSON from Gemini:");
                      LogText stripped]],
       Returns {| body := JSON_stringify
                            (JObject [(js "error", JString invalidUpstreamMessage);
                                      (js "raw", JString stripped)]);
                  status := 502;
                  headers := jsonHeaders |}).
Proof.
  intros Hk Hb Hget Hp Hg. split; [exists (cleaned text); apply strippedText_exists|].
  intros stripped e Hs He.
  pose proof (strippedText_cleaned text stripped Hs) as Hc. subst stripped.
  apply (POST_invalid_upstream env gemini request b p text e); try assumption.
  rewrite (Get_some_object _ _ _ Hget), Hget.
  apply acceptedPrompt_inv. split; [reflexivity | exact Hp].
Qed.

End StrippedText.

(* ===================================================================== *)
(** * The reference host obeys the JSON text grammar *)
(* ===================================================================== *)

Section ReferenceParser.
Import RefHost.

Lemma consumed_prepend cls w s r : consumed cls s r -> consumed cls (w ++ s) r.
Proof.
  intros (p & c & -> & Hc). exists (w ++ p), c. rewrite app_assoc. split; [reflexivity | exact Hc].
Qed.

Lemma consumed_trans cls s r1 r2 :
  consumed cls s r1 -> consumed cls r1 r2 -> consumed cls s r2.
Proof.
  intros (p & c & -> & _) H2. apply consumed_prepend.
  apply (consumed_prepend cls [c]), H2.
Qed.

Lemma consumed_weaken (cls cls' : N -> bool) s r :
  (forall c, cls c = true -> cls' c = true) -> consumed cls s r -> consumed cls' s r.
Proof. intros Hsub (p & c & Hs & Hc). exists p, c. auto. Qed.

Lemma consumed_one cls c r : cls c = true -> consumed cls (c :: r) r.
Proof. intros Hc. exists [], c. split; [reflexivity | exact Hc]. Qed.

Lemma skip_prefix s : exists w, s = w ++ skip s.
Proof. destruct (dropWhile_split isJSONWhiteSpace s) as (w & Hs & _). exists w. exact Hs. Qed.

Lemma consumed_after_skip cls s r : consumed cls (skip s) r -> consumed cls s r.
Proof.
  intros Hc. destruct (skip_prefix s) as (w & Hs). rewrite Hs. apply consumed_prepend, Hc.
Qed.

Lemma isDigit_isValueEnd c : isDigit c = true -> isValueEnd c = true.
Proof. unfold isDigit, isValueEnd. intros ->. apply orb_true_r. Qed.

Lemma digits_consumed s d r :
  digits s = (d, r) -> d <> [] -> consumed isDigit s r.
Proof.
  revert d r. induction s as [|c s IH]; intros d r; cbn.
  - intros E. injection E as <- _. contradiction.
  - destruct (isDigit c) eqn:Hc.
    + destruct (digits s) as [d' r'] eqn:Ed. intros E _. injection E as <- <-.
      destruct d' as [|c' d''].
      * assert (Hs : s = r').
        { clear IH. destruct s as [|x s]; cbn in Ed; [injection Ed as <-; reflexivity|].
          destruct (isDigit x); [destruct (digits s); discriminate|].
          injection Ed as <-. reflexivity. }
        rewrite Hs. apply consumed_one, Hc.
      * apply (consumed_prepend isDigit [c]). apply (IH (c' :: d'') r' eq_refl). discriminate.
    + intros E. injection E as <- _. contradiction.
Qed.

Lemma number_head c r x rest :
  number (c :: r) = Some (x, rest) -> c = 45%N \/ isDigit c = true.
Proof.
  unfold number. destruct (c =? 45)%N eqn:E45.
  - intros _. left. apply N.eqb_eq, E45.
  - destruct (c =? 48)%N eqn:E48.
    + intros _. right. apply N.eqb_eq in E48. subst c. reflexivity.
    + destruct (isDigit c) eqn:Hd; [intros _; right; reflexivity | discriminate].
Qed.

Lemma consumed_optionally s r1 r2 :
  consumed isDigit s r1 -> optionally r1 r2 -> consumed isDigit s r2.
Proof. intros H1 [-> | H2]; [exact H1 | apply (consumed_trans _ _ _ _ H1 H2)]. Qed.

Lemma number_consumed s x r : number s = Some (x, r) -> consumed isDigit s r.
Proof.
  unfold number.
  set (sign := match s with
               | [] => (false, s)
               | c :: r0 => if (c =? 45)%N then (true, r0) else (false, s)
               end).
  assert (Hsign : exists w, s = w ++ snd sign).
  { subst sign. destruct s as [|c r0]; [exists []; reflexivity|].
    destruct (c =? 45)%N; [exists [c] | exists []]; reflexivity. }
  destruct sign as [negative s1]. destruct Hsign as (w & ->). cbn [snd].
  set (intPart := match s1 with
                  | [] => None
                  | c :: r0 =>
                      if (c =? 48)%N then Some ([c], r0)
                      else if isDigit c then Some (digits s1) else None
                  end).
  assert (Hint : forall int s2, intPart = Some (int, s2) -> consumed isDigit s1 s2).
  { subst intPart. intros int s2. destruct s1 as [|c r0]; [discriminate|].
    destruct (c =? 48)%N eqn:E48.
    - intros E. injection E as _ <-. apply consumed_one.
      apply N.eqb_eq in E48. subst c. reflexivity.
    - destruct (isDigit c) eqn:Hd; [|discriminate].
      intros E. assert (Ed : digits (c :: r0) = (int, s2)) by congruence.
      apply (digits_consumed _ _ _ Ed).
      cbn in Ed. rewrite Hd in Ed. destruct (digits r0). injection Ed as <- _. discriminate. }
  destruct intPart as [[int s2]|]; [|discriminate].
  specialize (Hint int s2 eq_refl).
  set (fracPart := match s2 with
                   | [] => Some ([], s2)
                   | c :: r0 =>
                       if (c =? 46)%N
                       then match digits r0 with
                            | ([], _) => None
                            | (f, r') => Some (f, r')
                            end
                       else Some ([], s2)
                   end).
  assert (Hfrac : forall frac s3, fracPart = Some (frac, s3) -> optionally s2 s3).
  { subst fracPart. intros frac s3. destruct s2 as [|c r0].
    - intros E. injection E as _ <-. left. reflexivity.
    - destruct (c =? 46)%N.
      + destruct (digits r0) as [[|d ds] r'] eqn:Ed; [discriminate|].
        intros E. injection E as _ <-. right.
        apply (consumed_prepend isDigit [c]), (digits_consumed _ _ _ Ed). discriminate.
      + intros E. injection E as _ <-. left. reflexivity. }
  destruct fracPart as [[frac s3]|]; [|discriminate].
  specialize (Hfrac frac s3 eq_refl).
  set (expPart := match s3 with
                  | [] => Some (0%Z, s3)
                  | c :: r0 => _
                  end).
  assert (Hexp : forall e s4, expPart = Some (e, s4) -> optionally s3 s4).
  { subst expPart. intros e s4. destruct s3 as [|c r0].
    - intros E. injection E as _ <-. left. reflexivity.
    - destruct ((c =? 101) || (c =? 69))%N.
      + set (sgn := match r0 with
                    | [] => (false, r0)
                    | c' :: r' => _
                    end).
        assert (Hsgn : exists w', r0 = w' ++ snd sgn).
        { subst sgn. destruct r0 as [|c' r']; [exists []; reflexivity|].
          destruct (c' =? 45)%N; [exists [c']; reflexivity|].
          destruct (c' =? 43)%N; [exists [c'] | exists []]; reflexivity. }
        destruct sgn as [negExp r1]. destruct Hsgn as (w' & ->). cbn [snd].
        destruct (digits r1) as [[|d ds] r2] eqn:Ed; [discriminate|].
        intros E. injection E as _ <-. right.
        apply (consumed_prepend isDigit [c]), consumed_prepend.
        apply (digits_consumed _ _ _ Ed). discriminate.
      + intros E. injection E as _ <-. left. reflexivity. }
  destruct expPart as [[e s4]|]; [|discriminate].
  specialize (Hexp e s4 eq_refl).
  intros E. injection E as _ <-.
  apply consumed_prepend.
  apply (consumed_optionally _ s3); [|exact Hexp].
  apply (consumed_optionally _ s2); [exact Hint | exact Hfrac].
Qed.

Lemma consTo_inv c x str r :
  consTo c x = Some (str, r) -> exists str', x = Some (str', r).
Proof.
  destruct x as [[str' r']|]; cbn; [|discriminate].
  intros E. injection E as _ <-. exists str'. reflexivity.
Qed.

Lemma stringBody_consumed_upto n :
  forall s, (List.length s <= n)%nat ->
  forall str r, stringBody s = Some (str, r) -> consumed (N.eqb 34) s r.
Proof.
  induction n as [|n IH]; intros s Hn str r; destruct s as [|c s']; cbn in Hn;
    try discriminate; try lia.
  cbn [stringBody].
  destruct (c =? 34)%N eqn:Eq.
  { intros E. injection E as _ <-. apply consumed_one.
    rewrite N.eqb_sym. exact Eq. }
  destruct (c =? 92)%N.
  { destruct s' as [|e r']; [discriminate|]. cbn in Hn.
    destruct (e =? 117)%N.
    - destruct r' as [|h1 [|h2 [|h3 [|h4 r'']]]]; try discriminate. cbn in Hn.
      destruct (hex4 h1 h2 h3 h4); [|discriminate].
      intros E. apply consTo_inv in E. destruct E as (str' & E).
      apply (consumed_prepend _ [c; e; h1; h2; h3; h4]).
      apply (IH r'' ltac:(lia) _ _ E).
    - destruct (simpleEscape e); [|discriminate].
      intros E. apply consTo_inv in E. destruct E as (str' & E).
      apply (consumed_prepend _ [c; e]).
      apply (IH r' ltac:(lia) _ _ E). }
  destruct (c <? 32)%N; [discriminate|].
  intros E. apply consTo_inv in E. destruct E as (str' & E).
  apply (consumed_prepend _ [c]).
  apply (IH s' ltac:(lia) _ _ E).
Qed.

Lemma stringBody_consumed s str r :
  stringBody s = Some (str, r) -> consumed (N.eqb 34) s r.
Proof. apply (stringBody_consumed_upto (List.length s)). lia. Qed.

Lemma quote_isValueEnd c : (34 =? c)%N = true -> isValueEnd c = true.
Proof. intros E. apply N.eqb_eq in E. subst c. reflexivity. Qed.

Lemma stripPrefix_spec p : forall s r, stripPrefix p s = Some r -> s = p ++ r.
Proof.
  induction p as [|a p IH]; intros s r; cbn.
  - intros E. injection E as ->. reflexivity.
  - destruct s as [|b s]; [discriminate|].
    destruct (a =? b)%N eqn:E; [|discriminate].
    apply N.eqb_eq in E. subst b. intros Hr. rewrite (IH _ _ Hr). reflexivity.
Qed.

(** A literal is consumed up to its last letter. *)
Lemma literal_consumed p last s r :
  stripPrefix (p ++ [last]) s = Some r -> isValueEnd last = true ->
  consumed isValueEnd s r.
Proof.
  intros E Hl. apply stripPrefix_spec in E. subst s.
  exists p, last. rewrite <- app_assoc. split; [reflexivity | exact Hl].
Qed.

Lemma value_head n c r v rest :
  value n (c :: r) = Some (v, rest) -> isValueStart c = true.
Proof.
  destruct n as [|n]; [discriminate|]. cbn [value].
  destruct (c =? 123)%N eqn:E1; [apply N.eqb_eq in E1; subst c; reflexivity|].
  destruct (c =? 91)%N eqn:E2; [apply N.eqb_eq in E2; subst c; reflexivity|].
  destruct (c =? 34)%N eqn:E3; [apply N.eqb_eq in E3; subst c; reflexivity|].
  destruct (c =? 116)%N eqn:E4; [apply N.eqb_eq in E4; subst c; reflexivity|].
  destruct (c =? 102)%N eqn:E5; [apply N.eqb_eq in E5; subst c; reflexivity|].
  destruct (c =? 110)%N eqn:E6; [apply N.eqb_eq in E6; subst c; reflexivity|].
  destruct (number (c :: r)) as [[x r']|] eqn:En; [|discriminate].
  intros _. destruct (number_head _ _ _ _ En) as [-> | Hd]; [reflexivity|].
  unfold isValueStart. unfold isDigit in Hd. rewrite Hd. apply orb_true_r.
Qed.

(** Whatever the parser accepts ends in a character that can end a
    value: the three mutually recursive functions together. *)
Lemma value_consumed n :
  (forall s v r, value n s = Some (v, r) -> consumed isValueEnd s r) /\
  (forall s acc v r, elements n s acc = Some (v, r) -> consumed isValueEnd s r) /\
  (forall s acc v r, members n s acc = Some (v, r) -> consumed isValueEnd s r).
Proof.
  induction n as [|n (IHv & IHe & IHm)]; [repeat split; discriminate|].
  split; [|split].
  - intros s v r. cbn [value]. destruct s as [|c s']; [discriminate|].
    destruct (c =? 123)%N.
    { destruct (skip s') as [|c' r'] eqn:Es; [discriminate|].
      destruct (c' =? 125)%N eqn:E.
      - intros Hr. injection Hr as _ <-. apply (consumed_prepend _ [c]).
        apply consumed_after_skip. rewrite Es. apply consumed_one.
        apply N.eqb_eq in E. subst c'. reflexivity.
      - intros Hr. apply (consumed_prepend _ [c]). apply consumed_after_skip.
        rewrite Es. apply (IHm _ _ _ _ Hr). }
    destruct (c =? 91)%N.
    { destruct (skip s') as [|c' r'] eqn:Es; [discriminate|].
      destruct (c' =? 93)%N eqn:E.
      - intros Hr. injection Hr as _ <-. apply (consumed_prepend _ [c]).
        apply consumed_after_skip. rewrite Es. apply consumed_one.
        apply N.eqb_eq in E. subst c'. reflexivity.
      - intros Hr. apply (consumed_prepend _ [c]). apply consumed_after_skip.
        rewrite Es. apply (IHe _ _ _ _ Hr). }
    destruct (c =? 34)%N.
    { destruct (stringBody s') as [[str r']|] eqn:Es; [|discriminate].
      intros Hr. injection Hr as _ <-. apply (consumed_prepend _ [c]).
      apply (consumed_weaken _ _ _ _ quote_isValueEnd), (stringBody_consumed _ _ _ Es). }
    destruct (c =? 116)%N.
    { destruct (stripPrefix (js "true") (c :: s')) as [r'|] eqn:Es; [|discriminate].
      intros Hr. injection Hr as _ <-.
      apply (literal_consumed (js "tru") 101 _ _ Es). reflexivity. }
    destruct (c =? 102)%N.
    { destruct (stripPrefix (js "false") (c :: s')) as [r'|] eqn:Es; [|discriminate].
      intros Hr. injection Hr as _ <-.
      apply (literal_consumed (js "fals") 101 _ _ Es). reflexivity. }
    destruct (c =? 110)%N.
    { destruct (stripPrefix (js "null") (c :: s')) as [r'|] eqn:Es; [|discriminate].
      intros Hr. injection Hr as _ <-.
      apply (literal_consumed (js "nul") 108 _ _ Es). reflexivity. }
    destruct (number (c :: s')) as [[x r']|] eqn:En; [|discriminate].
    intros Hr. injection Hr as _ <-.
    apply (consumed_weaken _ _ _ _ isDigit_isValueEnd), (number_consumed _ _ _ En).
  - intros s acc v r. cbn [elements].
    destruct (value n s) as [[v1 r1]|] eqn:Ev; [|discriminate].
    destruct (skip r1) as [|c r'] eqn:Es; [discriminate|].
    assert (Hpre : forall t, consumed isValueEnd (c :: r') t -> consumed isValueEnd s t).
    { intros t Ht. destruct (IHv _ _ _ Ev) as (p & e & -> & _).
      apply consumed_prepend, (consumed_prepend _ [e]), consumed_after_skip.
      rewrite Es. exact Ht. }
    destruct (c =? 44)%N.
    { intros Hr. apply Hpre, (consumed_prepend _ [c]), consumed_after_skip.
      apply (IHe _ _ _ _ Hr). }
    destruct (c =? 93)%N eqn:E; [|discriminate].
    intros Hr. injection Hr as _ <-. apply Hpre, consumed_one.
    apply N.eqb_eq in E. subst c. reflexivity.
  - intros s acc v r. cbn [members].
    destruct s as [|q s']; [discriminate|].
    destruct (q =? 34)%N; [|discriminate].
    destruct (stringBody s') as [[k r1]|] eqn:Ek; [|discriminate].
    destruct (skip r1) as [|colon r2] eqn:Es1; [discriminate|].
    destruct (colon =? 58)%N; [|discriminate].
    destruct (value n (skip r2)) as [[v1 r3]|] eqn:Ev; [|discriminate].
    destruct (skip r3) as [|c r4] eqn:Es3; [discriminate|].
    assert (Hpre : forall t, consumed isValueEnd (c :: r4) t ->
                             consumed isValueEnd (q :: s') t).
    { intros t Ht. apply (consumed_prepend _ [q]).
      destruct (stringBody_consumed _ _ _ Ek) as (p & e & -> & _).
      apply consumed_prepend, (consumed_prepend _ [e]), consumed_after_skip.
      rewrite Es1. apply (consumed_prepend _ [colon]), consumed_after_skip.
      destruct (IHv _ _ _ Ev) as (p' & e' & -> & _).
      apply consumed_prepend, (consumed_prepend _ [e']), consumed_after_skip.
      rewrite Es3. exact Ht. }
    destruct (c =? 44)%N.
    { intros Hr. apply Hpre, (consumed_prepend _ [c]), consumed_after_skip.
      apply (IHm _ _ _ _ Hr). }
    destruct (c =? 125)%N eqn:E; [|discriminate].
    intros Hr. injection Hr as _ <-. apply Hpre, consumed_one.
    apply N.eqb_eq in E. subst c. reflexivity.
Qed.

(** The reference parser obeys the top level of the JSON grammar. *)
Lemma RefHost_grammar : JSON_text_grammar RefHost.host.
Proof.
  intros s v. cbn [JSON_parse RefHost.host]. unfold parse.
  set (core := trimJSON s).
  destruct (value (2 * List.length core + 2) core) as [[v' [|x rest]]|] eqn:Ev;
    try discriminate.
  intros E. injection E as ->.
  destruct (strip_split isJSONWhiteSpace s) as (a & b & Hs & Ha & Hb).
  assert (Hcore : trimJSON s = core) by reflexivity.
  change (strip isJSONWhiteSpace s) with (trimJSON s) in Hs. rewrite Hcore in Hs.
  clearbody core.
  destruct core as [|first core'].
  { discriminate. }
  destruct (proj1 (value_consumed _) _ _ _ Ev) as (p & last & Hp & Hlast).
  exists a, (first :: core'), b, first, last.
  assert (Hrev : hd_error (rev (first :: core')) = Some last).
  { rewrite Hp, rev_app_distr. reflexivity. }
  split; [exact Hs|]. split; [exact Ha|]. split; [exact Hb|].
  split; [reflexivity|]. split; [exact (value_head _ _ _ _ _ Ev)|].
  split; [exact Hrev|]. split; [exact Hlast|].
  intros a' b' Ha' Hb'.
  assert (Htrim : trimJSON (a' ++ (first :: core') ++ b') = first :: core').
  { apply (strip_sandwich isJSONWhiteSpace a' _ b' first last);
      try assumption; try reflexivity.
    - apply (strip_head isJSONWhiteSpace s first core'). exact Hcore.
    - destruct (rev (first :: core')) as [|l r] eqn:Er; [discriminate|].
      injection Hrev as ->.
      apply (strip_last isJSONWhiteSpace s last r).
      change (strip isJSONWhiteSpace s) with (trimJSON s). rewrite Hcore. exact Er. }
  rewrite Htrim, Ev. reflexivity.
Qed.

End ReferenceParser.

(* ===================================================================== *)
(** * The page, path by path *)
(* ===================================================================== *)

Section PagePaths.
Context {H : Host}.
Import Page.

Lemma nonblank_guard p :
  trim p <> [] -> negb (ToBoolean (JString (trim p))) = false.
Proof. intros Hp. cbn. destruct (trim p); [contradiction | reflexivity]. Qed.

Lemma handleAnalyze_blank st network :
  trim (prompt st) = [] ->
  handleAnalyze st network = ([SetError (Some writeFirstMessage)], Returns tt).
Proof. intros Hp. unfold handleAnalyze. rewrite Hp. reflexivity. Qed.

Lemma handleAnalyze_fetch_throws st network e :
  trim (prompt st) <> [] ->
  answer network (prompt st) = Throws e ->
  handleAnalyze st network
  = ([SetIsAnalyzing true; SetError None; analyzeRequest (prompt st);
      SetError (Some (caughtMessage e)); SetIsAnalyzing false], Returns tt).
Proof.
  intros Hp Ho. unfold handleAnalyze. rewrite (nonblank_guard _ Hp).
  unfold fetch. unfold answer in Ho. cbn. rewrite Ho. cbn.
  destruct e; reflexivity.
Qed.

Lemma handleAnalyze_json_throws st network resp e :
  trim (prompt st) <> [] ->
  answer network (prompt st) = Returns resp ->
  json resp = Throws e ->
  handleAnalyze st network
  = ([SetIsAnalyzing true; SetError None; analyzeRequest (prompt st);
      SetError (Some (caughtMessage e)); SetIsAnalyzing false], Returns tt).
Proof.
  intros Hp Ho Hj. unfold handleAnalyze. rewrite (nonblank_guard _ Hp).
  unfold fetch. unfold answer in Ho. cbn. rewrite Ho. cbn. rewrite Hj. cbn.
  destruct e; reflexivity.
Qed.

Lemma handleAnalyze_not_ok st network resp data :
  trim (prompt st) <> [] ->
  answer network (prompt st) = Returns resp ->
  json resp = Returns data ->
  ok resp = false ->
  handleAnalyze st network
  = ([SetIsAnalyzing true; SetError None; analyzeRequest (prompt st);
      SetError (Some (caughtMessage
                        (new_Error (nullishOr (optionalGet data (js "error"))
                                              (JString analyzeFallback)))));
      SetIsAnalyzing false], Returns tt).
Proof.
  intros Hp Ho Hj Hok. unfold handleAnalyze. rewrite (nonblank_guard _ Hp).
  unfold fetch. unfold answer in Ho. cbn. rewrite Ho. cbn. rewrite Hj, Hok. reflexivity.
Qed.

Lemma handleAnalyze_ok st network resp data :
  trim (prompt st) <> [] ->
  answer network (prompt st) = Returns resp ->
  json resp = Returns data ->
  ok resp = true ->
  handleAnalyze st network
  = ([SetIsAnalyzing true; SetError None; analyzeRequest (prompt st);
      SetAnalysis data; SetCopied false; SetIsAnalyzing false], Returns tt).
Proof.
  intros Hp Ho Hj Hok. unfold handleAnalyze. rewrite (nonblank_guard _ Hp).
  unfold fetch. unfold answer in Ho. cbn. rewrite Ho. cbn. rewrite Hj, Hok. reflexivity.
Qed.

End PagePaths.

(* ===================================================================== *)
(** * Properties of the page *)
(* ===================================================================== *)

Section PageProperties.
Context {H : Host}.
Import Page.

(** C5. A [prompt] that is empty or holds only white space is refused on
    both sides. The endpoint, with its credential configured, answers 400
    with the message that names the field, having called nothing but
    [request.json()]. The page's Analyze action sets its own validation
    message and performs no other action: no request is sent. *)
Theorem blank_prompt_refused p :
  trim p = [] ->
  (forall env gemini request b,
     Route.apiKeySet env = true ->
     JSON_parse (Route.bodyText request) = Returns b ->
     Get b (js "prompt") = Some (JString p) ->
     Route.POST env gemini request
     = ([Route.RequestJson],
        Returns {| Route.body :=
                     JSON_stringify (JObject [(js "error", JString promptRequiredMessage)]);
                   Route.status := 400;
                   Route.headers := Route.jsonHeaders |}))
  /\
  (forall st network,
     prompt st = p ->
     handleAnalyze st network = ([SetError (Some writeFirstMessage)], Returns tt) /\
     existsb isFetch (events (handleAnalyze st network)) = false /\
     error (after st (handleAnalyze st network)) = Some writeFirstMessage).
Proof.
  intros Hp. split.
  - intros env gemini request b Hk Hb Hget.
    apply (POST_prompt_rejected env gemini request b Hk Hb).
    rewrite (Get_some_object _ _ _ Hget), Hget, acceptedPrompt_string, Hp. reflexivity.
  - intros st network <-.
    rewrite (handleAnalyze_blank st network Hp). repeat split.
Qed.

(** C7. "Use improved prompt": when the stored analysis has an
    [improvedPrompt] that is a string [X] with more than white space in it,
    the action sets the prompt text to exactly [X]; when [improvedPrompt]
    is the empty string, holds only white space, or is absent, and when
    there is no analysis, the action does nothing and the prompt text
    stays as it was. *)
Theorem use_improved_prompt st :
  (forall X,
     Get (analysis st) (js "improvedPrompt") = Some (JString X) ->
     trim X <> [] ->
     handleUseImproved st = ([SetPrompt X], Returns tt) /\
     prompt (after st (handleUseImproved st)) = X)
  /\
  (forall X,
     Get (analysis st) (js "improvedPrompt") = Some (JString X) ->
     trim X = [] ->
     handleUseImproved st = ([], Returns tt) /\
     prompt (after st (handleUseImproved st)) = prompt st)
  /\
  (Get (analysis st) (js "improvedPrompt") = None ->
     handleUseImproved st = ([], Returns tt) /\
     prompt (after st (handleUseImproved st)) = prompt st)
  /\
  (analysis st = JNull ->
     handleUseImproved st = ([], Returns tt) /\
     prompt (after st (handleUseImproved st)) = prompt st).
Proof.
  assert (truthy : forall v, Get (analysis st) (js "improvedPrompt") = Some v ->
                             ToBoolean (analysis st) = true).
  { intros v. destruct (analysis st); try discriminate. reflexivity. }
  repeat apply conj.
  - intros X Hget HX.
    assert (E : handleUseImproved st = ([SetPrompt X], Returns tt)).
    { unfold handleUseImproved. rewrite (truthy _ Hget), Hget. cbn.
      destruct X as [|c X]; [contradiction HX; reflexivity|].
      destruct (trim (c :: X)); [contradiction | reflexivity]. }
    rewrite E. split; reflexivity.
  - intros X Hget HX.
    assert (E : handleUseImproved st = ([], Returns tt)).
    { unfold handleUseImproved. rewrite (truthy _ Hget), Hget. cbn.
      rewrite HX. cbn. rewrite andb_false_r. reflexivity. }
    rewrite E. split; reflexivity.
  - intros Hget.
    assert (E : handleUseImproved st = ([], Returns tt)).
    { unfold handleUseImproved. rewrite Hget. destruct (negb _); reflexivity. }
    rewrite E. split; reflexivity.
  - intros Hnull.
    assert (E : handleUseImproved st = ([], Returns tt)).
    { unfold handleUseImproved. rewrite Hnull. reflexivity. }
    rewrite E. split; reflexivity.
Qed.

Lemma new_Error_message data :
  caughtMessage (new_Error (nullishOr (optionalGet data (js "error"))
                                      (JString analyzeFallback)))
  = match serverError (Returns {| ok := false; json := Returns data |}) with
    | Some m => m
    | None => analyzeFallback
    end.
Proof.
  unfold serverError.
  destruct (optionalGet data (js "error")) as [[| | | | |]|]; reflexivity.
Qed.

(** C8, as amended. After a failed attempt (the request threw, the body
    of the response could not be decoded, or the response was not ok) the
    Analyze action has set no analysis, so the stored one is unchanged, has
    cleared the busy flag, and shows: the message of the thrown error when
    something was thrown (the page's "unknown error" text when the thrown
    value is no [Error]); otherwise the server's [error] message when the
    body carries one, and the page's generic text when it does not. *)
Theorem failed_attempt_keeps_analysis st network :
  trim (prompt st) <> [] ->
  attemptData (answer network (prompt st)) = None ->
  outcome (handleAnalyze st network) = Returns tt /\
  existsb isSetAnalysis (events (handleAnalyze st network)) = false /\
  analysis (after st (handleAnalyze st network)) = analysis st /\
  isAnalyzing (after st (handleAnalyze st network)) = false /\
  error (after st (handleAnalyze st network))
  = Some (shownOnFailure (answer network (prompt st))).
Proof.
  intros Hp Hfail.
  destruct (answer network (prompt st)) as [resp|e] eqn:Ho.
  - destruct resp as [isOk body]. destruct body as [data|e] eqn:Hj.
    + destruct isOk; [discriminate|].
      rewrite (handleAnalyze_not_ok st network _ data Hp Ho eq_refl eq_refl).
      unfold after, shownOnFailure. cbn [events fst fold_left applyEvent json].
      rewrite new_Error_message. repeat split.
    + rewrite (handleAnalyze_json_throws st network _ e Hp Ho eq_refl).
      repeat split.
  - rewrite (handleAnalyze_fetch_throws st network e Hp Ho). repeat split.
Qed.

(** C9. Before any analysis ([analysis] is [null]) the page shows the
    placeholders: an overall score of 0, and one row for each of the five
    criteria, in the order context, goal, format, constraints, examples,
    each with score 0 and level [missing]. *)
Theorem placeholders_before_first_analysis st :
  analysis st = JNull ->
  overallScore st = JNumber 0 /\
  exists rows,
    renderCriteria st = ([], Returns rows) /\
    map key rows = map (fun i => Some (JString i)) criterionIds /\
    Forall (fun row => rowScore row = Some (JNumber 0) /\
                       rowLevel row = Some (JString (js "missing"))) rows.
Proof.
  intros Hnull. unfold overallScore, renderCriteria, criteriaScores. rewrite Hnull.
  split; [reflexivity|].
  eexists. split; [reflexivity|]. split; [reflexivity|].
  repeat constructor.
Qed.

End PageProperties.

(* ===================================================================== *)
(** * The programs run on the reference host *)
(* ===================================================================== *)

(** Every statement of this section runs the endpoint and the page with
    [RefHost.host] as the engine. *)
Section OnReferenceHost.
#[local] Existing Instance RefHost.host.
Import Route Page.

Ltac evaluate :=
  solve [ vm_compute; reflexivity
        | vm_compute; discriminate
        | vm_compute; intuition discriminate ].

Lemma missing_credential_witness :
  apiKeySet Sample.noKey = false /\
  events (POST Sample.noKey (replies Sample.replyText) Sample.malformed) = [] /\
  outcome (POST Sample.noKey (replies Sample.replyText) Sample.malformed)
  = Returns {| body := JSON_stringify (JObject [(js "error", JString missingKeyMessage)]);
               status := 500;
               headers := jsonHeaders |}.
Proof.
  split; [reflexivity|].
  apply (missing_credential_short_circuits Sample.noKey). reflexivity.
Defined.

Lemma pass_through_witness :
  JSON_parse (cleaned (fenced (js "json") [LF] Sample.replyText [LF]))
  = Returns Sample.replyValue /\
  POST Sample.env (replies (fenced (js "json") [LF] Sample.replyText [LF])) Sample.request
  = ([RequestJson; GenerateContent modelName (userText (js "Write something."))],
     Returns {| body := JSON_stringify Sample.replyValue;
                status := 200;
                headers := jsonHeaders |}).
Proof.
  split; [evaluate|].
  apply (upstream_value_passed_through Sample.env _ Sample.request
           Sample.requestValue (js "Write something.")
           (fenced (js "json") [LF] Sample.replyText [LF]) Sample.replyValue);
    evaluate.
Defined.

(** A reply in a json fence, with white space around it, whose payload
    is a sentence: what is left is the sentence and the line feed before
    the closing fence. *)
Lemma invalid_upstream_witness :
  strippedText ([32%N] ++ fenced (js "json") [LF] Sample.notJSON [LF] ++ [LF])
               (Sample.notJSON ++ [LF]) /\
  POST Sample.env
       (replies ([32%N] ++ fenced (js "json") [LF] Sample.notJSON [LF] ++ [LF]))
       Sample.request
  = ([RequestJson; GenerateContent modelName (userText (js "Write something."));
      ConsoleError [LogText (js "[Prompt Analyzer] Failed to parse JSON from Gemini:");
                    LogText (Sample.notJSON ++ [LF])]],
     Returns {| body := JSON_stringify
                          (JObject [(js "error", JString invalidUpstreamMessage);
                                    (js "raw", JString (Sample.notJSON ++ [LF]))]);
                status := 502;
                headers := jsonHeaders |}).
Proof.
  assert (Hs : strippedText ([32%N] ++ fenced (js "json") [LF] Sample.notJSON [LF] ++ [LF])
                            (Sample.notJSON ++ [LF])).
  { exists (fenced (js "json") [LF] Sample.notJSON [LF]), (Sample.notJSON ++ [LF] ++ FENCE).
    split; [|split].
    - exists [32%N], [LF]. split; [reflexivity|]. split; [reflexivity|].
      split; [reflexivity|].
      split; intros c r E; vm_compute in E; injection E as Ec _; subst c; reflexivity.
    - left. exists (js "json"), [LF]. split; [reflexivity|]. split; [reflexivity|].
      split; [reflexivity|].
      intros c r E. vm_compute in E. injection E as Ec _. subst c. reflexivity.
    - left. vm_compute. reflexivity. }
  split; [exact Hs|].
  apply (proj2 (invalid_upstream_reported Sample.env
                  (replies ([32%N] ++ fenced (js "json") [LF] Sample.notJSON [LF] ++ [LF]))
                  Sample.request Sample.requestValue (js "Write something.")
                  ([32%N] ++ fenced (js "json") [LF] Sample.notJSON [LF] ++ [LF])
                  ltac:(evaluate) ltac:(evaluate) ltac:(evaluate) ltac:(evaluate)
                  ltac:(evaluate))
           (Sample.notJSON ++ [LF])
           (ErrorObj (js "SyntaxError: the text is not valid JSON")) Hs).
  evaluate.
Defined.

Lemma body_without_prompt_witness :
  JSON_parse (bodyText Sample.arrayRequest) = Returns (JArray [JNumber 1; JNumber 2]) /\
  POST Sample.env (replies Sample.replyText) Sample.arrayRequest
  = ([RequestJson],
     Returns {| body := JSON_stringify (JObject [(js "error", JString promptRequiredMessage)]);
                status := 400;
                headers := jsonHeaders |}).
Proof.
  split; [evaluate|].
  apply (body_without_prompt_rejected Sample.env (replies Sample.replyText)
           Sample.arrayRequest (JArray [JNumber 1; JNumber 2])); evaluate.
Defined.



(** Each of the five error responses is produced by some request. *)
Lemma every_error_kind_occurs :
  responseStatus (POST Sample.noKey (replies Sample.replyText) Sample.request)
  = Some (errorStatus MissingCredential) /\
  responseStatus (POST Sample.env (replies Sample.replyText) Sample.malformed)
  = Some (errorStatus InvalidBody) /\
  responseStatus (POST Sample.env (replies Sample.replyText) Sample.arrayRequest)
  = Some (errorStatus InvalidPrompt) /\
  responseStatus (POST Sample.env (replies Sample.notJSON) Sample.request)
  = Some (errorStatus (InvalidUpstream Sample.notJSON)) /\
  responseStatus (POST Sample.env (fails NonError) Sample.request)
  = Some (errorStatus UpstreamFailure).
Proof. repeat split; evaluate. Qed.

Lemma blank_prompt_witness :
  trim Sample.blankPrompt = [] /\
  POST Sample.env (replies Sample.replyText) Sample.blankRequest
  = ([RequestJson],
     Returns {| body := JSON_stringify (JObject [(js "error", JString promptRequiredMessage)]);
                status := 400;
                headers := jsonHeaders |}) /\
  handleAnalyze Scenario.blank Scenario.offline
  = ([SetError (Some writeFirstMessage)], Returns tt).
Proof.
  split; [reflexivity|].
  destruct (blank_prompt_refused Sample.blankPrompt eq_refl) as [server client].
  split.
  - apply (server Sample.env (replies Sample.replyText) Sample.blankRequest
             (JObject [(js "prompt", JString Sample.blankPrompt)])); evaluate.
  - apply (client Scenario.blank Scenario.offline eq_refl).
Defined.

Lemma use_improved_witness :
  handleUseImproved Scenario.analyzed
  = ([SetPrompt (js "You are a writer. Goal: one paragraph.")], Returns tt) /\
  handleUseImproved Scenario.blankImproved = ([], Returns tt) /\
  handleUseImproved Page.initialState = ([], Returns tt).
Proof.
  split; [|split].
  - apply (use_improved_prompt Scenario.analyzed); evaluate.
  - apply (proj1 (proj2 (use_improved_prompt Scenario.blankImproved)) [32; 32]%N); evaluate.
  - apply (proj2 (proj2 (proj2 (use_improved_prompt Page.initialState)))). reflexivity.
Defined.

Lemma failed_attempt_witness :
  attemptData (answer Scenario.rejecting (prompt Scenario.analyzed)) = None /\
  analysis (after Scenario.analyzed (handleAnalyze Scenario.analyzed Scenario.rejecting))
  = analysis Scenario.analyzed /\
  isAnalyzing (after Scenario.analyzed (handleAnalyze Scenario.analyzed Scenario.rejecting))
  = false /\
  error (after Scenario.analyzed (handleAnalyze Scenario.analyzed Scenario.rejecting))
  = Some promptRequiredMessage.
Proof.
  split; [reflexivity|].
  destruct (failed_attempt_keeps_analysis Scenario.analyzed Scenario.rejecting)
    as (_ & _ & kept & idle & shown); [evaluate | reflexivity |].
  split; [exact kept|]. split; [exact idle|]. rewrite shown. reflexivity.
Defined.

(** C8, as stated, fails when the request itself throws: with no
    connection there is no server message, and the page shows the message
    of the thrown error, which is neither of its two generic texts. *)
Lemma thrown_error_counterexample :
  attemptData (answer Scenario.offline (prompt Scenario.analyzed)) = None /\
  error (after Scenario.analyzed (handleAnalyze Scenario.analyzed Scenario.offline))
  = Some (js "Failed to fetch") /\
  ~ showsServerErrorOrFallback
      (answer Scenario.offline (prompt Scenario.analyzed))
      (error (after Scenario.analyzed (handleAnalyze Scenario.analyzed Scenario.offline))).
Proof.
  split; [reflexivity|]. split; [evaluate|].
  unfold showsServerErrorOrFallback. vm_compute. intros [E|E]; discriminate.
Qed.

Lemma placeholders_witness :
  analysis Page.initialState = JNull /\
  overallScore Page.initialState = JNumber 0 /\
  exists rows,
    renderCriteria Page.initialState = ([], Returns rows) /\
    map key rows = map (fun i => Some (JString i)) criterionIds /\
    Forall (fun row => rowScore row = Some (JNumber 0) /\
                       rowLevel row = Some (JString (js "missing"))) rows.
Proof.
  split; [reflexivity|].
  apply (placeholders_before_first_analysis Page.initialState). reflexivity.
Defined.

End OnReferenceHost.

(* ===================================================================== *)
(** * More on the endpoint: the guard, the model call, the log *)
(* ===================================================================== *)

Section EndpointDiscipline.
Context {H : Host}.
Import Route.

Lemma Get_orEmptyObject b k : Get (orEmptyObject b) k = Get b k.
Proof.
  unfold orEmptyObject. destruct (ToBoolean b) eqn:E; [reflexivity|].
  destruct b; try reflexivity. discriminate E.
Qed.

(** X1. With the credential configured and a body that parses, the
    handler answers 400 exactly when the body's [prompt] is not a string
    with more than white space in it: an absent prompt, [null], a number, a
    boolean, an array, an object and a blank string are all refused, and
    nothing else is. *)
Theorem prompt_refused_iff_not_nonblank_string env gemini request b :
  apiKeySet env = true ->
  JSON_parse (bodyText request) = Returns b ->
  (responseStatus (POST env gemini request) = Some 400%N
   <-> ~ exists p, Get b (js "prompt") = Some (JString p) /\ trim p <> []).
Proof.
  intros Hk Hb.
  destruct (acceptedPrompt (Get (orEmptyObject b) (js "prompt"))) as [p|] eqn:Hp.
  - assert (Hin := proj1 (acceptedPrompt_inv _ _) Hp).
    rewrite Get_orEmptyObject in Hin.
    split; [|intros Hno; contradiction Hno; exists p; exact Hin].
    intros Hs. exfalso. revert Hs.
    destruct (gemini modelName (userText p)) as [text|e] eqn:Hg.
    + destruct (JSON_parse (cleaned text)) as [v|e] eqn:Hv.
      * rewrite (POST_success env gemini request b p text v Hk Hb Hp Hg Hv). discriminate.
      * rewrite (POST_invalid_upstream env gemini request b p text e Hk Hb Hp Hg Hv).
        discriminate.
    + rewrite (POST_upstream_failure env gemini request b p e Hk Hb Hp Hg). discriminate.
  - rewrite (POST_prompt_rejected env gemini request b Hk Hb Hp).
    split; [|reflexivity].
    intros _ (p & Hget & Hnb).
    assert (Hacc : acceptedPrompt (Get (orEmptyObject b) (js "prompt")) = Some p).
    { apply acceptedPrompt_inv. rewrite Get_orEmptyObject. split; assumption. }
    rewrite Hacc in Hp. discriminate.
Qed.

(** X2. The model is called at most once for a request, and only for an
    accepted one. With no credential, and with a 400 answer, there is no
    call. In every other run the credential is set, the body parsed, its
    [prompt] is a string with more than white space in it, the answer is
    not 400, and there is exactly one call, to gemini-1.5-pro, whose text
    is the system instruction, a blank line, USER_PROMPT: and then the
    [prompt] as it came, white space included. *)
Theorem model_called_once_with_verbatim_prompt env gemini request :
  ((apiKeySet env = false \/ responseStatus (POST env gemini request) = Some 400%N) ->
   modelCalls (events (POST env gemini request)) = []) /\
  (((apiKeySet env = false \/ responseStatus (POST env gemini request) = Some 400%N) /\
    modelCalls (events (POST env gemini request)) = [])
   \/
   (exists b p,
      apiKeySet env = true /\
      JSON_parse (bodyText request) = Returns b /\
      Get b (js "prompt") = Some (JString p) /\
      trim p <> [] /\
      responseStatus (POST env gemini request) <> Some 400%N /\
      modelCalls (events (POST env gemini request))
      = [(js "gemini-1.5-pro",
          systemInstruction ++ [LF; LF] ++ js "USER_PROMPT:" ++ [LF] ++ p)])).
Proof.
  assert (Hcases :
    ((apiKeySet env = false \/ responseStatus (POST env gemini request) = Some 400%N) /\
     modelCalls (events (POST env gemini request)) = [])
    \/
    (exists b p,
       apiKeySet env = true /\
       JSON_parse (bodyText request) = Returns b /\
       Get b (js "prompt") = Some (JString p) /\
       trim p <> [] /\
       responseStatus (POST env gemini request) <> Some 400%N /\
       modelCalls (events (POST env gemini request))
       = [(js "gemini-1.5-pro",
           systemInstruction ++ [LF; LF] ++ js "USER_PROMPT:" ++ [LF] ++ p)])).
  { destruct (apiKeySet env) eqn:Hk.
    2:{ left. rewrite (POST_missing_key env gemini request Hk).
        split; [left; reflexivity | reflexivity]. }
    destruct (JSON_parse (bodyText request)) as [b|e] eqn:Hb.
    2:{ left. rewrite (POST_invalid_body env gemini request e Hk Hb).
        split; [right; reflexivity | reflexivity]. }
    destruct (acceptedPrompt (Get (orEmptyObject b) (js "prompt"))) as [p|] eqn:Hp.
    2:{ left. rewrite (POST_prompt_rejected env gemini request b Hk Hb Hp).
        split; [right; reflexivity | reflexivity]. }
    right. exists b, p.
    assert (Hin := proj1 (acceptedPrompt_inv _ _) Hp). rewrite Get_orEmptyObject in Hin.
    split; [reflexivity|]. split; [reflexivity|].
    split; [apply Hin|]. split; [apply Hin|].
    destruct (gemini modelName (userText p)) as [text|e] eqn:Hg.
    - destruct (JSON_parse (cleaned text)) as [v|e] eqn:Hv.
      + rewrite (POST_success env gemini request b p text v Hk Hb Hp Hg Hv).
        split; [discriminate | reflexivity].
      + rewrite (POST_invalid_upstream env gemini request b p text e Hk Hb Hp Hg Hv).
        split; [discriminate | reflexivity].
    - rewrite (POST_upstream_failure env gemini request b p e Hk Hb Hp Hg).
      split; [discriminate | reflexivity]. }
  split; [|exact Hcases].
  intros Hwhy.
  destruct Hcases as [(_ & Hnone) | (b & p & Hk & _ & _ & _ & Hs & _)]; [exact Hnone|].
  exfalso. destruct Hwhy as [Hno | H400]; [rewrite Hk in Hno; discriminate Hno|].
  contradiction.
Qed.

(** X3. The handler writes to the error log only after a call of the
    model that went wrong, and then one line. With no credential, with a
    400 answer and with a 200 answer the log is untouched. In every other
    run the credential is set, the body's [prompt] was accepted, the model
    was called once with it, and either the reply was no JSON once
    cleaned (the answer is 502 and the line holds the cleaned text) or
    the call threw (the answer is 500 and the line holds what was
    thrown). *)
Theorem errors_logged_only_for_upstream_failures env gemini request :
  ((apiKeySet env = false \/
    responseStatus (POST env gemini request) = Some 400%N \/
    responseStatus (POST env gemini request) = Some 200%N) ->
   errorLogs (events (POST env gemini request)) = []) /\
  (((apiKeySet env = false \/
     responseStatus (POST env gemini request) = Some 400%N \/
     responseStatus (POST env gemini request) = Some 200%N) /\
    errorLogs (events (POST env gemini request)) = [])
   \/
   (exists b p text e,
      apiKeySet env = true /\
      JSON_parse (bodyText request) = Returns b /\
      Get b (js "prompt") = Some (JString p) /\
      trim p <> [] /\
      modelCalls (events (POST env gemini request)) = [(modelName, userText p)] /\
      gemini modelName (userText p) = Returns text /\
      JSON_parse (cleaned text) = Throws e /\
      responseStatus (POST env gemini request) = Some 502%N /\
      errorLogs (events (POST env gemini request))
      = [[LogText (js "[Prompt Analyzer] Failed to parse JSON from Gemini:");
          LogText (cleaned text)]])
   \/
   (exists b p e,
      apiKeySet env = true /\
      JSON_parse (bodyText request) = Returns b /\
      Get b (js "prompt") = Some (JString p) /\
      trim p <> [] /\
      modelCalls (events (POST env gemini request)) = [(modelName, userText p)] /\
      gemini modelName (userText p) = Throws e /\
      responseStatus (POST env gemini request) = Some 500%N /\
      errorLogs (events (POST env gemini request))
      = [[LogText (js "[Prompt Analyzer] Gemini API error:"); LogThrown e]])).
Proof.
  assert (Hcases :
    ((apiKeySet env = false \/
      responseStatus (POST env gemini request) = Some 400%N \/
      responseStatus (POST env gemini request) = Some 200%N) /\
     errorLogs (events (POST env gemini request)) = [])
    \/
    (exists b p text e,
       apiKeySet env = true /\
       JSON_parse (bodyText request) = Returns b /\
       Get b (js "prompt") = Some (JString p) /\
       trim p <> [] /\
       modelCalls (events (POST env gemini request)) = [(modelName, userText p)] /\
       gemini modelName (userText p) = Returns text /\
       JSON_parse (cleaned text) = Throws e /\
       responseStatus (POST env gemini request) = Some 502%N /\
       errorLogs (events (POST env gemini request))
       = [[LogText (js "[Prompt Analyzer] Failed to parse JSON from Gemini:");
           LogText (cleaned text)]])
    \/
    (exists b p e,
       apiKeySet env = true /\
       JSON_parse (bodyText request) = Returns b /\
       Get b (js "prompt") = Some (JString p) /\
       trim p <> [] /\
       modelCalls (events (POST env gemini request)) = [(modelName, userText p)] /\
       gemini modelName (userText p) = Throws e /\
       responseStatus (POST env gemini request) = Some 500%N /\
       errorLogs (events (POST env gemini request))
       = [[LogText (js "[Prompt Analyzer] Gemini API error:"); LogThrown e]])).
  { destruct (apiKeySet env) eqn:Hk.
    2:{ left. rewrite (POST_missing_key env gemini request Hk).
        split; [left; reflexivity | reflexivity]. }
    destruct (JSON_parse (bodyText request)) as [b|e] eqn:Hb.
    2:{ left. rewrite (POST_invalid_body env gemini request e Hk Hb).
        split; [right; left; reflexivity | reflexivity]. }
    destruct (acceptedPrompt (Get (orEmptyObject b) (js "prompt"))) as [p|] eqn:Hp.
    2:{ left. rewrite (POST_prompt_rejected env gemini request b Hk Hb Hp).
        split; [right; left; reflexivity | reflexivity]. }
    assert (Hin := proj1 (acceptedPrompt_inv _ _) Hp). rewrite Get_orEmptyObject in Hin.
    destruct (gemini modelName (userText p)) as [text|e] eqn:Hg.
    - destruct (JSON_parse (cleaned text)) as [v|e] eqn:Hv.
      + left. rewrite (POST_success env gemini request b p text v Hk Hb Hp Hg Hv).
        split; [right; right; reflexivity | reflexivity].
      + right. left. exists b, p, text, e.
        rewrite (POST_invalid_upstream env gemini request b p text e Hk Hb Hp Hg Hv).
        split; [reflexivity|]. split; [reflexivity|].
        split; [apply Hin|]. split; [apply Hin|].
        split; [reflexivity|]. split; [exact Hg|]. split; [exact Hv|].
        split; reflexivity.
    - right. right. exists b, p, e.
      rewrite (POST_upstream_failure env gemini request b p e Hk Hb Hp Hg).
      split; [reflexivity|]. split; [reflexivity|].
      split; [apply Hin|]. split; [apply Hin|].
      split; [reflexivity|]. split; [exact Hg|].
      split; reflexivity. }
  split; [|exact Hcases].
  intros Hwhy.
  destruct Hcases as [(_ & Hnone) | [(b & p & text & e & Hk & _ & _ & _ & _ & _ & _ & Hs & _)
                                    | (b & p & e & Hk & _ & _ & _ & _ & _ & Hs & _)]];
    [exact Hnone | |];
    exfalso; rewrite Hs in Hwhy;
    (destruct Hwhy as [Hno | [H400 | H200]];
      [rewrite Hk in Hno; discriminate Hno | discriminate H400 | discriminate H200]).
Qed.

(** With the credential configured the handler starts by reading the body. *)
Lemma POST_configured_reads_body env gemini request :
  apiKeySet env = true ->
  exists t r, POST env gemini request = (RequestJson :: t, r).
Proof.
  intros Hk.
  destruct (JSON_parse (bodyText request)) as [b|e] eqn:Hb.
  2:{ rewrite (POST_invalid_body env gemini request e Hk Hb). eexists _, _. reflexivity. }
  destruct (acceptedPrompt (Get (orEmptyObject b) (js "prompt"))) as [p|] eqn:Hp.
  2:{ rewrite (POST_prompt_rejected env gemini request b Hk Hb Hp).
      eexists _, _. reflexivity. }
  destruct (gemini modelName (userText p)) as [text|e] eqn:Hg.
  - destruct (JSON_parse (cleaned text)) as [v|e] eqn:Hv.
    + rewrite (POST_success env gemini request b p text v Hk Hb Hp Hg Hv).
      eexists _, _. reflexivity.
    + rewrite (POST_invalid_upstream env gemini request b p text e Hk Hb Hp Hg Hv).
      eexists _, _. reflexivity.
  - rewrite (POST_upstream_failure env gemini request b p e Hk Hb Hp Hg).
    eexists _, _. reflexivity.
Qed.

(** X4. Loading the module never throws. It writes its warning exactly
    when the key is missing, which is exactly when the handler will answer
    every request with the 500 configuration error without doing anything
    else. *)
Theorem load_warns_iff_every_request_refused env :
  outcome (RouteLoad.load env) = Returns (genAI env) /\
  (events (RouteLoad.load env) = [RouteLoad.ConsoleWarn RouteLoad.missingKeyWarning]
   <-> forall gemini request,
         POST env gemini request
         = ([], Returns (jsonResponse (errorObject missingKeyMessage) 500))) /\
  (events (RouteLoad.load env) = [] <-> apiKeySet env = true).
Proof.
  unfold RouteLoad.load. destruct (apiKeySet env) eqn:Hk; cbn.
  - split; [reflexivity|]. split; [|split; reflexivity].
    split; [discriminate|].
    intros Hall. specialize (Hall (replies []) {| bodyText := [] |}).
    destruct (POST_configured_reads_body env (replies []) {| bodyText := [] |} Hk)
      as (t & r & Hrun).
    rewrite Hrun in Hall. discriminate.
  - split; [reflexivity|]. split; [|split; discriminate].
    split; [|reflexivity].
    intros _ gemini request. apply POST_missing_key, Hk.
Qed.

End EndpointDiscipline.

(* ===================================================================== *)
(** * More on the cleaning of the upstream text *)
(* ===================================================================== *)

Section Cleaning.
Import Route.

Lemma dropWhile_all (f : N -> bool) w : forallb f w = true -> dropWhile f w = [].
Proof.
  intros Hw. rewrite <- (app_nil_r w). rewrite dropWhile_app by exact Hw. reflexivity.
Qed.

Lemma dropWhile_app_r (f : N -> bool) s w :
  forallb f w = true ->
  dropWhile f (rev (dropWhile f (s ++ w))) = dropWhile f (rev (dropWhile f s)).
Proof.
  intros Hw. induction s as [|c s IH]; cbn.
  - rewrite (dropWhile_all f w Hw). reflexivity.
  - destruct (f c); [exact IH|].
    change (c :: s ++ w) with ((c :: s) ++ w).
    rewrite rev_app_distr, dropWhile_app by (rewrite forallb_rev; exact Hw).
    reflexivity.
Qed.

(** White space added around a text does not change what [trim] keeps. *)
Lemma trim_outer w0 s w3 :
  forallb isWhiteSpace w0 = true ->
  forallb isWhiteSpace w3 = true ->
  trim (w0 ++ s ++ w3) = trim s.
Proof.
  intros H0 H3. unfold trim, trimEnd, trimStart.
  rewrite dropWhile_app by exact H0.
  rewrite dropWhile_app_r by exact H3. reflexivity.
Qed.

Lemma cleaned_outer w0 s w3 :
  forallb isWhiteSpace w0 = true ->
  forallb isWhiteSpace w3 = true ->
  cleaned (w0 ++ s ++ w3) = cleaned s.
Proof. intros H0 H3. unfold cleaned. rewrite trim_outer by assumption. reflexivity. Qed.

Lemma replaceOpeningFence_suffix s : exists a, s = a ++ replaceOpeningFence s.
Proof.
  unfold replaceOpeningFence, openingFence.
  destruct s as [|t1 [|t2 [|t3 [|j [|s' [|o [|n rest]]]]]]]; try (exists []; reflexivity).
  destruct (_ && _); [|exists []; reflexivity].
  destruct (dropWhile_split isWhiteSpace rest) as (w & Hrest & _).
  exists ([t1; t2; t3; j; s'; o; n] ++ w). rewrite <- app_assoc. cbn [app].
  do 7 f_equal. exact Hrest.
Qed.

Lemma replaceClosingFence_prefix s : exists b, s = replaceClosingFence s ++ b.
Proof.
  unfold replaceClosingFence.
  destruct (rev s) as [|t3 [|t2 [|t1 front]]] eqn:E;
    try (exists []; rewrite app_nil_r; reflexivity).
  destruct (_ && _); [|exists []; rewrite app_nil_r; reflexivity].
  exists [t1; t2; t3]. rewrite <- (rev_involutive s), E. cbn.
  rewrite <- !app_assoc. reflexivity.
Qed.

Lemma replaceOpeningFence_head s :
  (forall c r, s = c :: r -> isWhiteSpace c = false) ->
  forall c r, replaceOpeningFence s = c :: r -> isWhiteSpace c = false.
Proof.
  intros Hs c r. unfold replaceOpeningFence.
  destruct (openingFence s) as [rest|] eqn:E; [|apply Hs].
  unfold openingFence in E.
  destruct s as [|t1 [|t2 [|t3 [|j [|s' [|o [|n rest']]]]]]]; try discriminate.
  destruct (_ && _); [|discriminate]. injection E as <-.
  apply (dropWhile_head isWhiteSpace).
Qed.

(** X5. The cleaned text is a contiguous part of the reply: cleaning only
    removes characters from the two ends, never from inside, and it never
    leaves white space at the front. So the [raw] field of a 502 and the
    logged text are always a piece of what the model wrote. *)
Theorem cleaned_is_part_of_reply text :
  (exists a b, text = a ++ cleaned text ++ b) /\
  (forall c r, cleaned text = c :: r -> isWhiteSpace c = false).
Proof.
  split.
  - destruct (strip_split isWhiteSpace text) as (a & b & Ht & _).
    change (strip isWhiteSpace text) with (trim text) in Ht.
    destruct (replaceOpeningFence_suffix (trim text)) as (a' & Ha').
    destruct (replaceClosingFence_prefix (replaceOpeningFence (trim text))) as (b' & Hb').
    exists (a ++ a'), (b' ++ b). unfold cleaned.
    rewrite Ht at 1. rewrite Ha' at 1. rewrite Hb' at 1.
    rewrite <- !app_assoc. reflexivity.
  - intros c r Hc. unfold cleaned in Hc.
    destruct (replaceClosingFence_prefix (replaceOpeningFence (trim text))) as (b' & Hb').
    rewrite Hc in Hb'. cbn in Hb'.
    apply (replaceOpeningFence_head (trim text)) with (r := r ++ b'); [|exact Hb'].
    intros c0 r0 E. apply (strip_head isWhiteSpace text c0 r0). exact E.
Qed.

Lemma not_In_hd (s : jsstring) c r : ~ In BACKTICK s -> s = c :: r -> c <> BACKTICK.
Proof. intros Hno -> E. apply Hno. left. exact E. Qed.

(** X6. A reply that holds no backtick is only trimmed: the two fence
    patterns leave it alone. *)
Theorem reply_without_backtick_only_trimmed text :
  ~ In BACKTICK text -> cleaned text = trim text.
Proof.
  intros Hno.
  destruct (strip_split isWhiteSpace text) as (a & b & Ht & _).
  change (strip isWhiteSpace text) with (trim text) in Ht.
  assert (Hno' : ~ In BACKTICK (trim text)).
  { intros Hin. apply Hno. rewrite Ht. apply in_or_app. right.
    apply in_or_app. left. exact Hin. }
  unfold cleaned.
  destruct (trim text) as [|c s] eqn:E; [reflexivity|].
  rewrite replaceOpeningFence_other by (apply (not_In_hd (c :: s) c s Hno' eq_refl)).
  destruct (rev (c :: s)) as [|last front] eqn:Er.
  { apply (f_equal (@List.length N)) in Er. rewrite length_rev in Er. discriminate. }
  apply (replaceClosingFence_other (c :: s) last); [rewrite Er; reflexivity|].
  intros ->. apply Hno'. apply in_rev. rewrite Er. left. reflexivity.
Qed.

End Cleaning.

Section HalfFences.
Context {H : Host}.
Hypothesis grammar : JSON_text_grammar H.
Import Route.

Lemma cleaned_opening_only tag w1 payload v :
  JSON_parse payload = Returns v ->
  isJsonTag tag = true ->
  forallb isWhiteSpace w1 = true ->
  JSON_parse (cleaned (FENCE ++ tag ++ w1 ++ payload)) = Returns v.
Proof.
  intros Hv Htag Hw1.
  destruct (grammar _ _ Hv)
    as (a & core & b & first & last & -> & Ha & Hb & Hf & Hfs & Hl & Hle & Hany).
  unfold cleaned.
  assert (Htrim : trim (FENCE ++ tag ++ w1 ++ a ++ core ++ b)
                  = FENCE ++ tag ++ w1 ++ a ++ core).
  { replace (FENCE ++ tag ++ w1 ++ a ++ core ++ b)
      with ([] ++ (FENCE ++ tag ++ w1 ++ a ++ core) ++ b)
      by (cbn [app]; rewrite <- !app_assoc; reflexivity).
    apply (trim_sandwich [] _ b BACKTICK last); try reflexivity.
    - apply forallb_JSON_ws, Hb.
    - rewrite !app_assoc, rev_app_distr.
      destruct (rev core) as [|l r]; [discriminate|]. cbn in Hl. injection Hl as ->.
      reflexivity.
    - apply isValueEnd_not_ws, Hle. }
  rewrite Htrim, replaceOpeningFence_tag by exact Htag.
  rewrite trimStart_ws_app by exact Hw1.
  rewrite trimStart_ws_app by (apply forallb_JSON_ws, Ha).
  destruct core as [|c core']; [discriminate|]. cbn in Hf. injection Hf as ->.
  rewrite trimStart_fixed by (apply isValueStart_not_ws, Hfs).
  rewrite (replaceClosingFence_other _ last Hl) by (apply isValueEnd_not_backtick, Hle).
  specialize (Hany [] [] eq_refl eq_refl). rewrite app_nil_r in Hany. exact Hany.
Qed.

Lemma cleaned_closing_only payload w2 v :
  JSON_parse payload = Returns v ->
  forallb isJSONWhiteSpace w2 = true ->
  JSON_parse (cleaned (payload ++ w2 ++ FENCE)) = Returns v.
Proof.
  intros Hv Hw2.
  destruct (grammar _ _ Hv)
    as (a & core & b & first & last & -> & Ha & Hb & Hf & Hfs & Hl & Hle & Hany).
  unfold cleaned.
  assert (Htrim : trim ((a ++ core ++ b) ++ w2 ++ FENCE) = core ++ b ++ w2 ++ FENCE).
  { replace ((a ++ core ++ b) ++ w2 ++ FENCE)
      with (a ++ (core ++ b ++ w2 ++ FENCE) ++ [])
      by (rewrite app_nil_r, <- !app_assoc; reflexivity).
    apply (trim_sandwich a _ [] first BACKTICK); try reflexivity.
    - apply forallb_JSON_ws, Ha.
    - destruct core; [discriminate|]. exact Hf.
    - apply isValueStart_not_ws, Hfs.
    - unfold FENCE. rewrite !app_assoc, rev_app_distr. reflexivity. }
  rewrite Htrim.
  destruct core as [|c core']; [discriminate|]. cbn in Hf. injection Hf as ->.
  cbn [app]. rewrite replaceOpeningFence_other by (apply isValueStart_not_backtick, Hfs).
  rewrite !app_assoc, app_comm_cons, replaceClosingFence_fence, <- !app_assoc.
  apply (Hany [] (b ++ w2)); [reflexivity|].
  rewrite forallb_app, Hb, Hw2. reflexivity.
Qed.

(** X7. The two fence patterns work apart from each other, and after the
    trim: for a JSON payload, a reply with or without the json-tagged
    opening fence, with or without the closing fence, and with any white
    space around all of it, gets the same run of the handler as the payload
    alone. *)
Theorem wrapped_reply_same_response env request w0 opening payload closing w3 v :
  JSON_parse payload = Returns v ->
  forallb isWhiteSpace w0 = true ->
  forallb isWhiteSpace w3 = true ->
  openingOk opening = true ->
  closingOk closing = true ->
  POST env (replies (wrapped w0 opening payload closing w3)) request
  = POST env (replies payload) request.
Proof.
  intros Hv H0 H3 Hopen Hclose.
  apply (POST_same_value env request _ _ v); [|apply (cleaned_plain grammar), Hv].
  unfold wrapped.
  destruct opening as [[tag w1]|], closing as [w2|]; cbn in Hopen, Hclose;
    try (apply andb_true_iff in Hopen; destruct Hopen as [Htag Hw1]).
  - replace (w0 ++ (FENCE ++ tag ++ w1) ++ payload ++ (w2 ++ FENCE) ++ w3)
      with (w0 ++ fenced tag w1 payload w2 ++ w3)
      by (unfold fenced; rewrite <- !app_assoc; reflexivity).
    rewrite cleaned_outer by assumption.
    apply (cleaned_fenced grammar); assumption.
  - replace (w0 ++ (FENCE ++ tag ++ w1) ++ payload ++ [] ++ w3)
      with (w0 ++ (FENCE ++ tag ++ w1 ++ payload) ++ w3)
      by (rewrite <- !app_assoc; reflexivity).
    rewrite cleaned_outer by assumption.
    apply cleaned_opening_only; assumption.
  - replace (w0 ++ [] ++ payload ++ (w2 ++ FENCE) ++ w3)
      with (w0 ++ (payload ++ w2 ++ FENCE) ++ w3)
      by (rewrite <- !app_assoc; reflexivity).
    rewrite cleaned_outer by assumption.
    apply cleaned_closing_only; assumption.
  - cbn [app]. rewrite cleaned_outer by assumption.
    apply (cleaned_plain grammar), Hv.
Qed.

End HalfFences.

(* ===================================================================== *)
(** * More on the page: the Analyze action *)
(* ===================================================================== *)

Section AnalyzeAction.
Context {H : Host}.
Import Page View.

(** X8. After a successful attempt (the response is ok and its body is
    JSON) the stored analysis is the body, whatever it is, the copied flag
    and the error are cleared, the page is no longer busy, and the prompt
    text is as it was. *)
Theorem successful_attempt_stores_body st network resp data :
  trim (prompt st) <> [] ->
  answer network (prompt st) = Returns resp ->
  ok resp = true ->
  json resp = Returns data ->
  after st (handleAnalyze st network)
  = {| prompt := prompt st; analysis := data; isAnalyzing := false;
       error := None; copied := false |}.
Proof.
  intros Hp Ho Hok Hj.
  rewrite (handleAnalyze_ok st network resp data Hp Ho Hj Hok). reflexivity.
Qed.

(** The actions of an attempt, whatever the network does. *)
Lemma handleAnalyze_shape st network :
  trim (prompt st) <> [] ->
  outcome (handleAnalyze st network) = Returns tt /\
  exists mid,
    events (handleAnalyze st network)
    = [SetIsAnalyzing true; SetError None; analyzeRequest (prompt st)]
        ++ mid ++ [SetIsAnalyzing false] /\
    (mid = [SetAnalysis match attemptData (answer network (prompt st)) with
                        | Some data => data
                        | None => JNull
                        end; SetCopied false]
     \/ exists message, mid = [SetError (Some message)]).
Proof.
  intros Hp.
  destruct (answer network (prompt st)) as [resp|e] eqn:Ho.
  - destruct resp as [isOk body]. destruct body as [data|e].
    + destruct isOk.
      * rewrite (handleAnalyze_ok st network _ data Hp Ho eq_refl eq_refl).
        split; [reflexivity|]. exists [SetAnalysis data; SetCopied false].
        split; [reflexivity|]. left. reflexivity.
      * rewrite (handleAnalyze_not_ok st network _ data Hp Ho eq_refl eq_refl).
        split; [reflexivity|]. eexists [SetError _].
        split; [reflexivity|]. right. eexists. reflexivity.
    + rewrite (handleAnalyze_json_throws st network _ e Hp Ho eq_refl).
      split; [reflexivity|]. eexists [SetError _].
      split; [reflexivity|]. right. eexists. reflexivity.
  - rewrite (handleAnalyze_fetch_throws st network e Hp Ho).
    split; [reflexivity|]. eexists [SetError _].
    split; [reflexivity|]. right. eexists. reflexivity.
Qed.

Lemma handleAnalyze_requests st network :
  trim (prompt st) <> [] ->
  requestsSent (events (handleAnalyze st network)) = [analyzeRequest (prompt st)].
Proof.
  intros Hp. destruct (handleAnalyze_shape st network Hp) as (_ & mid & -> & Hmid).
  destruct Hmid as [-> | (message & ->)]; reflexivity.
Qed.

(** X9. An attempt never throws and never touches the prompt text. It
    sends exactly one request, and sends it busy: at the moment of the
    request the busy flag is set, so the Analyze button is disabled while
    the request is in flight; the last action clears the flag again. *)
Theorem attempt_sends_one_request_while_busy st network :
  trim (prompt st) <> [] ->
  outcome (handleAnalyze st network) = Returns tt /\
  requestsSent (events (handleAnalyze st network)) = [analyzeRequest (prompt st)] /\
  (forall pre post,
     events (handleAnalyze st network) = pre ++ analyzeRequest (prompt st) :: post ->
     isAnalyzing (fold_left applyEvent pre st) = true /\
     analyzeDisabled (fold_left applyEvent pre st) = true) /\
  prompt (after st (handleAnalyze st network)) = prompt st /\
  isAnalyzing (after st (handleAnalyze st network)) = false.
Proof.
  intros Hp. destruct (handleAnalyze_shape st network Hp) as (Hout & mid & Hev & Hmid).
  split; [exact Hout|].
  unfold after. rewrite Hev.
  assert (Hsplit : forall pre post,
             [SetIsAnalyzing true; SetError None; analyzeRequest (prompt st)]
               ++ mid ++ [SetIsAnalyzing false]
             = pre ++ analyzeRequest (prompt st) :: post ->
             pre = [SetIsAnalyzing true; SetError None]).
  { intros pre post E.
    destruct pre as [|e1 [|e2 [|e3 pre']]]; cbn in E.
    - unfold analyzeRequest in E. discriminate E.
    - unfold analyzeRequest in E. discriminate E.
    - injection E as <- <- _. reflexivity.
    - exfalso. injection E as _ _ _ E.
      assert (Hin : In (analyzeRequest (prompt st)) (mid ++ [SetIsAnalyzing false]))
        by (rewrite E; apply in_or_app; right; left; reflexivity).
      apply in_app_or in Hin.
      destruct Hmid as [-> | (message & ->)]; cbn in Hin;
        unfold analyzeRequest in Hin; intuition discriminate. }
  split; [|split; [|split]].
  - rewrite <- Hev. apply handleAnalyze_requests, Hp.
  - intros pre post E. rewrite (Hsplit pre post E). split; reflexivity.
  - destruct Hmid as [-> | (message & ->)]; reflexivity.
  - destruct Hmid as [-> | (message & ->)]; reflexivity.
Qed.

(** X10. The Analyze button is enabled exactly when the page is not busy
    and the handler would send a request: the handler's own validation
    message can only come from a click the button does not allow. *)
Theorem analyze_enabled_iff_click_sends st :
  analyzeDisabled st = false
  <-> isAnalyzing st = false /\
      forall network,
        requestsSent (events (handleAnalyze st network)) = [analyzeRequest (prompt st)].
Proof.
  unfold analyzeDisabled. split.
  - intros Hd. apply orb_false_iff in Hd. destruct Hd as [Hbusy Hblank].
    split; [exact Hbusy|]. intros network.
    assert (Hp : trim (prompt st) <> []).
    { intros E. rewrite E in Hblank. discriminate Hblank. }
    apply (handleAnalyze_requests st network Hp).
  - intros [Hbusy Hsend]. rewrite Hbusy. cbn [orb].
    destruct (trim (prompt st)) as [|c r] eqn:E; [|reflexivity].
    specialize (Hsend (fun _ _ => Throws NonError)).
    rewrite (handleAnalyze_blank st _ E) in Hsend. discriminate Hsend.
Qed.

End AnalyzeAction.

(* ===================================================================== *)
(** * The page and the endpoint together *)
(* ===================================================================== *)

Section PageToEndpoint.
Context {H : Host}.
Import Page.

(** X11. What the page sends, the endpoint accepts. If the engine reads
    back the object the page serialises, then the request of an attempt
    goes to /api/analyze as a POST, and its body, handed to the configured
    endpoint, is never answered 400: the model is called once, with the
    prompt text of the page, character for character. *)
Theorem page_request_reaches_model st network env gemini :
  trim (prompt st) <> [] ->
  Route.apiKeySet env = true ->
  JSON_parse (JSON_stringify (JObject [(js "prompt", JString (prompt st))]))
  = Returns (JObject [(js "prompt", JString (prompt st))]) ->
  forall url method headers body,
    In (Fetch url method headers body) (events (handleAnalyze st network)) ->
    url = js "/api/analyze" /\
    method = js "POST" /\
    responseStatus (Route.POST env gemini {| Route.bodyText := body |}) <> Some 400%N /\
    modelCalls (events (Route.POST env gemini {| Route.bodyText := body |}))
    = [(Route.modelName, Route.userText (prompt st))].
Proof.
  intros Hp Hk Hround url method headers body Hin.
  assert (Hreq : In (Fetch url method headers body) [analyzeRequest (prompt st)]).
  { rewrite <- (handleAnalyze_requests st network Hp).
    apply filter_In. split; [exact Hin | reflexivity]. }
  destruct Hreq as [Hreq|[]]. unfold analyzeRequest in Hreq.
  injection Hreq as <- <- _ <-.
  split; [reflexivity|]. split; [reflexivity|].
  set (request := {| Route.bodyText :=
                       JSON_stringify (JObject [(js "prompt", JString (prompt st))]) |}).
  assert (Hb : JSON_parse (Route.bodyText request)
               = Returns (JObject [(js "prompt", JString (prompt st))])) by exact Hround.
  assert (Hacc : Route.acceptedPrompt
                   (Get (Route.orEmptyObject (JObject [(js "prompt", JString (prompt st))]))
                        (js "prompt")) = Some (prompt st)).
  { apply acceptedPrompt_inv. split; [reflexivity | exact Hp]. }
  destruct (gemini Route.modelName (Route.userText (prompt st))) as [text|e] eqn:Hg.
  - destruct (JSON_parse (Route.cleaned text)) as [v|e] eqn:Hv.
    + rewrite (POST_success env gemini request _ _ text v Hk Hb Hacc Hg Hv).
      split; [discriminate | reflexivity].
    + rewrite (POST_invalid_upstream env gemini request _ _ text e Hk Hb Hacc Hg Hv).
      split; [discriminate | reflexivity].
  - rewrite (POST_upstream_failure env gemini request _ _ e Hk Hb Hacc Hg).
    split; [discriminate | reflexivity].
Qed.

End PageToEndpoint.

(* ===================================================================== *)
(** * More on the page: the improved prompt *)
(* ===================================================================== *)

Section ImprovedPrompt.
Context {H : Host}.
Import Page View.

(** The three ways "Use improved prompt" can go. *)
Lemma handleUseImproved_cases st :
  (exists X, Get (analysis st) (js "improvedPrompt") = Some (JString X) /\
             trim X <> [] /\
             handleUseImproved st = ([SetPrompt X], Returns tt))
  \/
  (handleUseImproved st = ([], Returns tt) /\
   (ToBoolean (analysis st) = false \/
    Get (analysis st) (js "improvedPrompt") = None \/
    exists v, Get (analysis st) (js "improvedPrompt") = Some v /\
              (ToBoolean v = false \/ exists X, v = JString X /\ trim X = [])))
  \/
  (handleUseImproved st = ([], Throws TypeError) /\
   ToBoolean (analysis st) = true /\
   exists v, Get (analysis st) (js "improvedPrompt") = Some v /\
             ToBoolean v = true /\ forall X, v <> JString X).
Proof.
  unfold handleUseImproved.
  destruct (ToBoolean (analysis st)) eqn:Ha; [|right; left; split; [reflexivity | left; reflexivity]].
  cbn [negb].
  destruct (Get (analysis st) (js "improvedPrompt")) as [v|] eqn:Hg;
    [|right; left; split; [reflexivity | right; left; reflexivity]].
  destruct v as [|flag|x|X|items|props].
  - right; left. split; [reflexivity|]. right; right. exists JNull. split; [reflexivity|].
    left. reflexivity.
  - destruct flag.
    + right; right. split; [reflexivity|]. split; [reflexivity|].
      exists (JBool true). repeat split. discriminate.
    + right; left. split; [reflexivity|]. right; right. exists (JBool false).
      split; [reflexivity | left; reflexivity].
  - destruct (ToBoolean (JNumber x)) eqn:Hx.
    + right; right. split; [reflexivity|]. split; [reflexivity|].
      exists (JNumber x). repeat split; [exact Hx | discriminate].
    + right; left. split; [reflexivity|]. right; right. exists (JNumber x).
      split; [reflexivity | left; exact Hx].
  - destruct (trim X) as [|c r] eqn:Ht.
    + right; left. split.
      * cbn. rewrite andb_false_r. reflexivity.
      * right; right. exists (JString X). split; [reflexivity|]. right. exists X.
        split; [reflexivity | exact Ht].
    + left. exists X. split; [reflexivity|]. split; [rewrite Ht; discriminate|].
      destruct X as [|c0 X0]; [discriminate Ht|]. reflexivity.
  - right; right. split; [reflexivity|]. split; [reflexivity|].
    exists (JArray items). repeat split. discriminate.
  - right; right. split; [reflexivity|]. split; [reflexivity|].
    exists (JObject props). repeat split. discriminate.
Qed.

(** X12. "Use improved prompt" performs at most one action: either it
    does nothing, or its whole run is one call of [setPrompt] with the
    stored [improvedPrompt], a string with more than white space in it;
    the analysis, the error and the two flags stay as they were. It throws exactly when the analysis is truthy
    and its [improvedPrompt] is a truthy value that is no string (a number
    other than 0, [true], an array, an object), although the button is
    enabled then. *)
Theorem use_improved_touches_only_prompt st :
  (events (handleUseImproved st) = [] \/
   exists X, handleUseImproved st = ([SetPrompt X], Returns tt) /\
             Get (analysis st) (js "improvedPrompt") = Some (JString X) /\
             trim X <> []) /\
  analysis (after st (handleUseImproved st)) = analysis st /\
  error (after st (handleUseImproved st)) = error st /\
  isAnalyzing (after st (handleUseImproved st)) = isAnalyzing st /\
  copied (after st (handleUseImproved st)) = copied st /\
  (outcome (handleUseImproved st) = Throws TypeError
   <-> useImprovedDisabled st = false /\
       exists v, Get (analysis st) (js "improvedPrompt") = Some v /\
                 ToBoolean v = true /\ forall X, v <> JString X).
Proof.
  destruct (handleUseImproved_cases st)
    as [(X & Hg & Ht & ->) | [(-> & Hwhy) | (-> & Ha & v & Hg & Hv & Hns)]].
  - split; [right; exists X; split; [reflexivity|]; split; assumption|].
    split; [reflexivity|]. split; [reflexivity|]. split; [reflexivity|].
    split; [reflexivity|]. split.
    + discriminate.
    + intros (_ & v & Hg' & _ & Hns). rewrite Hg in Hg'. injection Hg' as <-.
      contradiction (Hns X). reflexivity.
  - split; [left; reflexivity|].
    split; [reflexivity|]. split; [reflexivity|]. split; [reflexivity|].
    split; [reflexivity|]. split.
    + discriminate.
    + intros (Hen & v & Hg & Hv & Hns). exfalso.
      unfold useImprovedDisabled in Hen. apply negb_false_iff in Hen.
      destruct Hwhy as [Hf | [Hnone | (v' & Hg' & Hwhy)]].
      * rewrite Hen in Hf. discriminate.
      * rewrite Hnone in Hg. discriminate.
      * rewrite Hg in Hg'. injection Hg' as <-.
        destruct Hwhy as [Hf | (X & -> & _)]; [rewrite Hv in Hf; discriminate|].
        contradiction (Hns X). reflexivity.
  - split; [left; reflexivity|].
    split; [reflexivity|]. split; [reflexivity|]. split; [reflexivity|].
    split; [reflexivity|]. split; [|reflexivity].
    intros _. split; [unfold useImprovedDisabled; rewrite Ha; reflexivity|].
    exists v. repeat split; assumption.
Qed.

(** X13. Once "Use improved prompt" has set the prompt, doing it again
    changes nothing, and the next Analyze click is not refused by the
    page's validation: it sends the improved prompt. *)
Theorem use_improved_then_analyze st network X :
  Get (analysis st) (js "improvedPrompt") = Some (JString X) ->
  trim X <> [] ->
  after (after st (handleUseImproved st)) (handleUseImproved (after st (handleUseImproved st)))
  = after st (handleUseImproved st) /\
  requestsSent (events (handleAnalyze (after st (handleUseImproved st)) network))
  = [analyzeRequest X] /\
  (isAnalyzing st = false -> analyzeDisabled (after st (handleUseImproved st)) = false).
Proof.
  intros Hg Ht.
  destruct (handleUseImproved_cases st)
    as [(X' & Hg' & _ & E) | [(E & Hwhy) | (E & _ & v & Hg' & _ & Hns)]].
  - rewrite Hg in Hg'. injection Hg' as <-. rewrite E.
    set (st' := after st ([SetPrompt X], Returns tt)).
    assert (Hst' : st' = {| prompt := X; analysis := analysis st;
                            isAnalyzing := isAnalyzing st; error := error st;
                            copied := copied st |}) by reflexivity.
    assert (Hp' : trim (prompt st') <> []) by (rewrite Hst'; exact Ht).
    split; [|split].
    + destruct (handleUseImproved_cases st')
        as [(X' & Hg' & _ & E') | [(E' & _) | (E' & _ & v & Hg' & _ & Hns)]].
      * rewrite Hst' in Hg'. cbn in Hg'. rewrite Hg in Hg'. injection Hg' as <-.
        rewrite E', Hst'. reflexivity.
      * rewrite E'. reflexivity.
      * rewrite E'. reflexivity.
    + rewrite (handleAnalyze_requests st' network Hp'). rewrite Hst'. reflexivity.
    + intros Hbusy. unfold analyzeDisabled. rewrite Hst'. cbn [isAnalyzing prompt].
      rewrite Hbusy. cbn. destruct (trim X); [contradiction | reflexivity].
  - exfalso. destruct Hwhy as [Hf | [Hnone | (v & Hg' & Hwhy)]].
    + destruct (analysis st); try discriminate Hg. discriminate Hf.
    + rewrite Hg in Hnone. discriminate.
    + rewrite Hg in Hg'. injection Hg' as <-.
      destruct Hwhy as [Hf | (X' & E' & Hb)].
      * cbn in Hf. destruct X; [contradiction Ht; reflexivity | discriminate].
      * injection E' as <-. contradiction.
  - exfalso. rewrite Hg in Hg'. injection Hg' as <-. contradiction (Hns X). reflexivity.
Qed.

End ImprovedPrompt.

(* ===================================================================== *)
(** * More on the page: copying the improved prompt *)
(* ===================================================================== *)

Section CopyImproved.
Context {H : Host}.
Import Page View.

(** The three values of the test shared by the handler, the button and
    the panel. *)
Lemma copyUnavailable_cases {E} st :
  (exists X, Get (analysis st) (js "improvedPrompt") = Some (JString X) /\
             trim X <> [] /\
             copyUnavailable (E := E) st = ([], Returns false))
  \/
  (copyUnavailable (E := E) st = ([], Returns true) /\
   (ToBoolean (analysis st) = false \/
    Get (analysis st) (js "improvedPrompt") = None \/
    Get (analysis st) (js "improvedPrompt") = Some JNull \/
    exists X, Get (analysis st) (js "improvedPrompt") = Some (JString X) /\ trim X = []))
  \/
  (copyUnavailable (E := E) st = ([], Throws TypeError) /\
   ToBoolean (analysis st) = true /\
   exists v, Get (analysis st) (js "improvedPrompt") = Some v /\
             v <> JNull /\ forall X, v <> JString X).
Proof.
  unfold copyUnavailable.
  destruct (ToBoolean (analysis st)) eqn:Ha;
    [|right; left; split; [reflexivity | left; reflexivity]].
  cbn [negb].
  destruct (Get (analysis st) (js "improvedPrompt")) as [v|] eqn:Hg;
    [|right; left; split; [reflexivity | right; left; reflexivity]].
  destruct v as [|flag|x|X|items|props];
    try (right; right; split; [reflexivity|]; split; [reflexivity|];
         eexists; split; [reflexivity|]; split; discriminate).
  - right; left. split; [reflexivity|]. right; right; left. reflexivity.
  - destruct (trim X) as [|c r] eqn:Ht.
    + right; left. split; [reflexivity|].
      right; right; right. exists X. split; [reflexivity | exact Ht].
    + left. exists X. split; [reflexivity|]. split; [rewrite Ht; discriminate|].
      reflexivity.
Qed.

Lemma copyUnavailable_false {E} st X :
  Get (analysis st) (js "improvedPrompt") = Some (JString X) ->
  trim X <> [] ->
  copyUnavailable (E := E) st = ([], Returns false).
Proof.
  intros Hg Ht.
  destruct (copyUnavailable_cases (E := E) st)
    as [(X' & _ & _ & Eq) | [(_ & Hwhy) | (_ & _ & v & Hg' & _ & Hns)]]; [exact Eq| |].
  - exfalso. destruct Hwhy as [Hf | [Hn | [Hn | (X' & Hg' & Hb)]]].
    + destruct (analysis st); try discriminate Hg. discriminate Hf.
    + rewrite Hg in Hn. discriminate.
    + rewrite Hg in Hn. discriminate.
    + rewrite Hg in Hg'. injection Hg' as <-. contradiction.
  - exfalso. rewrite Hg in Hg'. injection Hg' as <-. contradiction (Hns X). reflexivity.
Qed.

Lemma handleCopyImproved_paths st clipboard X :
  Get (analysis st) (js "improvedPrompt") = Some (JString X) ->
  trim X <> nil ->
  (clipboard (Some (JString X)) = Returns tt ->
     handleCopyImproved st clipboard
     = ([WriteText (Some (JString X)); Call (SetCopied true);
         SetTimeout (setCopied false) 1500], Returns tt)) /\
  (forall e, clipboard (Some (JString X)) = Throws e ->
     handleCopyImproved st clipboard
     = ([WriteText (Some (JString X)); Call (SetCopied false)], Returns tt)).
Proof.
  intros Hg Ht. split; [intros Hc | intros e Hc];
    unfold handleCopyImproved; rewrite (copyUnavailable_false st X Hg Ht);
    cbn; rewrite Hg; unfold writeText; rewrite Hc; reflexivity.
Qed.

(** X14. With an improved prompt [X] to copy, the copy handler writes [X]
    itself (not its trimmed form) to the clipboard. When the write
    succeeds it sets the copied flag and arms a timer of 1500 ms whose
    callback clears the flag again; when the write throws it clears the
    flag and returns normally. *)
Theorem copy_writes_the_improved_prompt st clipboard X :
  Get (analysis st) (js "improvedPrompt") = Some (JString X) ->
  trim X <> nil ->
  (clipboard (Some (JString X)) = Returns tt ->
     handleCopyImproved st clipboard
     = ([WriteText (Some (JString X)); Call (SetCopied true);
         SetTimeout (setCopied false) 1500], Returns tt) /\
     copied (afterActions st (events (handleCopyImproved st clipboard))) = true /\
     copied (after (afterActions st (events (handleCopyImproved st clipboard)))
                   (setCopied false)) = false)
  /\
  (forall e, clipboard (Some (JString X)) = Throws e ->
     handleCopyImproved st clipboard
     = ([WriteText (Some (JString X)); Call (SetCopied false)], Returns tt) /\
     copied (afterActions st (events (handleCopyImproved st clipboard))) = false).
Proof.
  intros Hg Ht. destruct (handleCopyImproved_paths st clipboard X Hg Ht) as [Hok Hfail].
  split.
  - intros Hc. rewrite (Hok Hc). repeat split.
  - intros e Hc. rewrite (Hfail e Hc). repeat split.
Qed.

(** The runs of the copy handler. *)
Lemma handleCopyImproved_cases st clipboard :
  (exists X tail,
     Get (analysis st) (js "improvedPrompt") = Some (JString X) /\ trim X <> [] /\
     handleCopyImproved st clipboard = (WriteText (Some (JString X)) :: tail, Returns tt) /\
     (tail = [Call (SetCopied true); SetTimeout (setCopied false) 1500] \/
      tail = [Call (SetCopied false)]))
  \/ handleCopyImproved st clipboard = ([], Returns tt)
  \/ handleCopyImproved st clipboard = ([], Throws TypeError).
Proof.
  destruct (copyUnavailable_cases (E := Action) st)
    as [(X & Hg & Ht & E) | [(E & _) | (E & _)]].
  - left. exists X.
    destruct (clipboard (Some (JString X))) as [[]|e] eqn:Hc.
    + eexists. split; [exact Hg|]. split; [exact Ht|].
      rewrite (proj1 (handleCopyImproved_paths st clipboard X Hg Ht) Hc).
      split; [reflexivity | left; reflexivity].
    + eexists. split; [exact Hg|]. split; [exact Ht|].
      rewrite (proj2 (handleCopyImproved_paths st clipboard X Hg Ht) e Hc).
      split; [reflexivity | right; reflexivity].
  - right; left. unfold handleCopyImproved. rewrite E. reflexivity.
  - right; right. unfold handleCopyImproved. rewrite E. reflexivity.
Qed.

(** X15. Whatever the state and the clipboard do, the copy handler changes
    no state but the copied flag; a write to the clipboard is its first
    action, happens once and carries the stored improved prompt; and a
    failure of the clipboard never escapes: the handler returns, or throws
    the TypeError of its own test before doing anything. *)
Theorem copy_changes_only_the_flag st clipboard :
  prompt (afterActions st (events (handleCopyImproved st clipboard))) = prompt st /\
  analysis (afterActions st (events (handleCopyImproved st clipboard))) = analysis st /\
  isAnalyzing (afterActions st (events (handleCopyImproved st clipboard))) = isAnalyzing st /\
  error (afterActions st (events (handleCopyImproved st clipboard))) = error st /\
  (forall pre data post,
     events (handleCopyImproved st clipboard) = pre ++ WriteText data :: post ->
     pre = [] /\
     data = Get (analysis st) (js "improvedPrompt") /\
     forall other, ~ In (WriteText other) post) /\
  (outcome (handleCopyImproved st clipboard) = Returns tt \/
   handleCopyImproved st clipboard = ([], Throws TypeError)).
Proof.
  destruct (handleCopyImproved_cases st clipboard)
    as [(X & tail & Hg & Ht & E & Htail) | [E | E]]; rewrite E; cbn [events outcome fst snd].
  - assert (Hframe : forall P : State -> Prop,
              (forall b, P (applyEvent st (SetCopied b))) ->
              P (afterActions st (WriteText (Some (JString X)) :: tail))).
    { intros P HP. destruct Htail as [-> | ->]; cbn; apply HP. }
    split; [apply Hframe; reflexivity|].
    split; [apply Hframe; reflexivity|].
    split; [apply Hframe; reflexivity|].
    split; [apply Hframe; reflexivity|].
    split; [|left; reflexivity].
    intros pre data post Hsplit.
    destruct pre as [|first pre].
    + cbn in Hsplit. injection Hsplit as <- <-.
      split; [reflexivity|]. split; [symmetry; exact Hg|].
      intros other Hin. destruct Htail as [-> | ->]; cbn in Hin;
        repeat (destruct Hin as [Hin | Hin]; [discriminate Hin|]); exact Hin.
    + exfalso. cbn in Hsplit. injection Hsplit as _ Hrest.
      assert (Hin : In (WriteText data) tail)
        by (rewrite Hrest; apply in_or_app; right; left; reflexivity).
      destruct Htail as [-> | ->]; cbn in Hin;
        repeat (destruct Hin as [Hin | Hin]; [discriminate Hin|]); exact Hin.
  - repeat (split; [reflexivity|]).
    split; [|left; reflexivity].
    intros pre data post Hsplit. destruct pre; discriminate Hsplit.
  - repeat (split; [reflexivity|]).
    split; [|right; reflexivity].
    intros pre data post Hsplit. destruct pre; discriminate Hsplit.
Qed.

(** When the panel shows a text. *)
Lemma renderPanel_improved st X :
  renderPanel st = ([], Returns (Improved (Some (JString X))))
  <-> Get (analysis st) (js "improvedPrompt") = Some (JString X) /\ trim X <> [].
Proof.
  unfold renderPanel.
  destruct (copyUnavailable_cases (E := Event) st)
    as [(X' & Hg & Ht & E) | [(E & _) | (E & _)]]; rewrite E; cbn.
  - rewrite Hg. split.
    + intros Eq. injection Eq as <-. split; [reflexivity | exact Ht].
    + intros [Eq _]. injection Eq as <-. reflexivity.
  - split; [discriminate|].
    intros [Hg Ht]. rewrite (copyUnavailable_false st X Hg Ht) in E. discriminate E.
  - split; [discriminate|].
    intros [Hg Ht]. rewrite (copyUnavailable_false st X Hg Ht) in E. discriminate E.
Qed.

(** When the panel asks for an analysis. *)
Lemma renderPanel_asks st :
  renderPanel st = ([], Returns RunAnalysisFirst)
  -> copyUnavailable (E := Action) st = ([], Returns true) /\
     (ToBoolean (analysis st) = false \/
      Get (analysis st) (js "improvedPrompt") = None \/
      Get (analysis st) (js "improvedPrompt") = Some JNull \/
      exists X, Get (analysis st) (js "improvedPrompt") = Some (JString X) /\ trim X = []).
Proof.
  unfold renderPanel. intros Hp.
  destruct (copyUnavailable_cases (E := Event) st)
    as [(X' & Hg & Ht & E) | [(E & Hwhy) | (E & _)]]; rewrite E in Hp; cbn in Hp;
    try discriminate Hp.
  split; [|exact Hwhy].
  destruct (copyUnavailable_cases (E := Action) st)
    as [(X' & Hg & Ht & E') | [(E' & _) | (E' & _ & v & Hg & Hnn & Hns)]]; [| exact E' |].
  - exfalso. rewrite (copyUnavailable_false st X' Hg Ht) in E. discriminate E.
  - exfalso. destruct Hwhy as [Hf | [Hn | [Hn | (X & Hx & _)]]].
    + destruct (analysis st); try discriminate Hg. discriminate Hf.
    + rewrite Hg in Hn. discriminate Hn.
    + rewrite Hg in Hn. injection Hn as ->. contradiction.
    + rewrite Hg in Hx. injection Hx as ->. contradiction (Hns X). reflexivity.
Qed.

(** X16. The panel, the Use-improved handler and the copy handler agree on
    the improved prompt: the panel shows a text [X] exactly when a click on
    Use improved prompt sets the prompt to [X], and exactly when a click on
    Copy prompt writes [X] to the clipboard; and while the panel asks for an
    analysis first, both clicks do nothing. *)
Theorem panel_use_and_copy_agree st X :
  (renderPanel st = ([], Returns (Improved (Some (JString X))))
   <-> handleUseImproved st = ([SetPrompt X], Returns tt)) /\
  (renderPanel st = ([], Returns (Improved (Some (JString X))))
   <-> forall clipboard,
         In (WriteText (Some (JString X))) (events (handleCopyImproved st clipboard))) /\
  (renderPanel st = ([], Returns RunAnalysisFirst) ->
   handleUseImproved st = ([], Returns tt) /\
   forall clipboard, handleCopyImproved st clipboard = ([], Returns tt)).
Proof.
  split; [|split].
  - rewrite renderPanel_improved. split.
    + intros [Hg Ht].
      destruct (handleUseImproved_cases st)
        as [(X' & Hg' & _ & E) | [(_ & Hwhy) | (_ & _ & v & Hg' & _ & Hns)]].
      * rewrite Hg in Hg'. injection Hg' as <-. exact E.
      * exfalso. destruct Hwhy as [Hf | [Hn | (v & Hg' & [Hf | (X' & -> & Hb)])]].
        -- destruct (analysis st); try discriminate Hg. discriminate Hf.
        -- rewrite Hg in Hn. discriminate Hn.
        -- rewrite Hg in Hg'. injection Hg' as <-. cbn in Hf.
           apply trim_nonempty in Ht. destruct X; [contradiction | discriminate Hf].
        -- rewrite Hg in Hg'. injection Hg' as <-. contradiction.
      * exfalso. rewrite Hg in Hg'. injection Hg' as <-. contradiction (Hns X). reflexivity.
    + intros E.
      destruct (handleUseImproved_cases st)
        as [(X' & Hg' & Ht' & E') | [(E' & _) | (E' & _)]]; rewrite E' in E;
        try discriminate E.
      injection E as <-. split; assumption.
  - rewrite renderPanel_improved. split.
    + intros [Hg Ht] clipboard.
      destruct (handleCopyImproved_cases st clipboard)
        as [(X' & tail & Hg' & _ & E & _) | [E | E]].
      * rewrite Hg in Hg'. injection Hg' as <-. rewrite E. left. reflexivity.
      * exfalso. unfold handleCopyImproved in E.
        rewrite (copyUnavailable_false st X Hg Ht) in E. cbn in E.
        unfold writeText in E. rewrite Hg in E.
        destruct (clipboard (Some (JString X))) as [[]|e]; discriminate E.
      * exfalso. unfold handleCopyImproved in E.
        rewrite (copyUnavailable_false st X Hg Ht) in E. cbn in E.
        unfold writeText in E. rewrite Hg in E.
        destruct (clipboard (Some (JString X))) as [[]|e]; discriminate E.
    + intros Hall. specialize (Hall (fun _ => Returns tt)).
      destruct (handleCopyImproved_cases st (fun _ => Returns tt))
        as [(X' & tail & Hg' & Ht' & E & Htail) | [E | E]]; rewrite E in Hall;
        cbn in Hall; try contradiction.
      destruct Hall as [Eq | Hin].
      * injection Eq as <-. split; assumption.
      * exfalso. destruct Htail as [-> | ->]; cbn in Hin;
          repeat (destruct Hin as [Hin | Hin]; [discriminate Hin|]); exact Hin.
  - intros Hp. apply renderPanel_asks in Hp. destruct Hp as [E Hwhy]. split.
    + destruct (handleUseImproved_cases st)
        as [(X' & Hg & Ht & _) | [(E' & _) | (_ & Ha & v & Hg & Hv & Hns)]]; [| exact E' |];
        exfalso; destruct Hwhy as [Hf | [Hn | [Hn | (Y & Hy & Hb)]]].
      * destruct (analysis st); try discriminate Hg. discriminate Hf.
      * rewrite Hg in Hn. discriminate Hn.
      * rewrite Hg in Hn. discriminate Hn.
      * rewrite Hg in Hy. injection Hy as <-. contradiction.
      * rewrite Ha in Hf. discriminate Hf.
      * rewrite Hg in Hn. discriminate Hn.
      * rewrite Hg in Hn. injection Hn as ->. discriminate Hv.
      * rewrite Hg in Hy. injection Hy as ->. contradiction (Hns Y). reflexivity.
    + intros clipboard. unfold handleCopyImproved. rewrite E. reflexivity.
Qed.

End CopyImproved.

(* ===================================================================== *)
(** * More on the page: what is shown after an attempt *)
(* ===================================================================== *)

Section WhatIsShown.
Context {H : Host}.
Import Page View.

(** The state a successful attempt leaves. *)
Lemma after_ok st network resp data :
  trim (prompt st) <> [] ->
  answer network (prompt st) = Returns resp ->
  ok resp = true ->
  json resp = Returns data ->
  after st (handleAnalyze st network)
  = {| prompt := prompt st; analysis := data; isAnalyzing := false;
       error := None; copied := false |}.
Proof.
  intros Hp Ha Hok Hj. unfold after.
  rewrite (handleAnalyze_ok st network resp data Hp Ha Hj Hok). reflexivity.
Qed.

(** A falsy value has no property the page reads. *)
Lemma falsy_optionalGet data k : ToBoolean data = false -> optionalGet data k = None.
Proof. destruct data; try discriminate; reflexivity. Qed.

(** X17. An answer that is ok but whose body is a falsy value (null, false,
    0, the empty string) is stored without any error, and the page then
    shows exactly what it showed before the first analysis: the waiting
    status, the default score and label, the five placeholder rows, the
    request to run an analysis in the panel and in the suggestions card,
    and a disabled Use-improved button. *)
Theorem falsy_answer_looks_like_no_analysis st network resp data :
  trim (prompt st) <> [] ->
  answer network (prompt st) = Returns resp ->
  ok resp = true ->
  json resp = Returns data ->
  ToBoolean data = false ->
  analysis (after st (handleAnalyze st network)) = data /\
  shownError (after st (handleAnalyze st network)) = None /\
  statusText (after st (handleAnalyze st network)) = statusText initialState /\
  overallScore (after st (handleAnalyze st network)) = overallScore initialState /\
  overallLabel (after st (handleAnalyze st network)) = overallLabel initialState /\
  criteriaScores (after st (handleAnalyze st network)) = criteriaScores initialState /\
  renderCriteria (after st (handleAnalyze st network)) = renderCriteria initialState /\
  renderPanel (after st (handleAnalyze st network)) = ([], Returns RunAnalysisFirst) /\
  renderSuggestions (after st (handleAnalyze st network)) = ([], Returns Invitation) /\
  useImprovedDisabled (after st (handleAnalyze st network)) = true.
Proof.
  intros Hp Ha Hok Hj Hf. rewrite (after_ok st network resp data Hp Ha Hok Hj).
  assert (Hc : criteriaScores {| prompt := prompt st; analysis := data; isAnalyzing := false;
                                 error := None; copied := false |}
               = criteriaScores initialState).
  { unfold criteriaScores. cbn [analysis]. rewrite (falsy_optionalGet data _ Hf). reflexivity. }
  split; [reflexivity|].
  split; [reflexivity|].
  split; [unfold statusText; cbn [analysis]; rewrite Hf; reflexivity|].
  split; [unfold overallScore; cbn [analysis]; rewrite (falsy_optionalGet data _ Hf);
          reflexivity|].
  split; [unfold overallLabel; cbn [analysis]; rewrite (falsy_optionalGet data _ Hf);
          reflexivity|].
  split; [exact Hc|].
  split; [unfold renderCriteria; rewrite Hc; reflexivity|].
  split; [unfold renderPanel, copyUnavailable; cbn [analysis]; rewrite Hf; reflexivity|].
  split; [unfold renderSuggestions; cbn [analysis]; rewrite Hf; reflexivity|].
  unfold useImprovedDisabled. cbn [analysis]. rewrite Hf. reflexivity.
Qed.

(** X18. The page stores the body of an ok answer unchecked: when that body
    is a truthy value without a [suggestions] property (the empty object,
    an array, a number, an object that carries only an error text), no
    error is recorded, the status reads as a finished run, and the
    suggestions card throws a TypeError when it is rendered. *)
Theorem unchecked_answer_breaks_suggestions st network resp data :
  trim (prompt st) <> [] ->
  answer network (prompt st) = Returns resp ->
  ok resp = true ->
  json resp = Returns data ->
  ToBoolean data = true ->
  Get data (js "suggestions") = None ->
  error (after st (handleAnalyze st network)) = None /\
  statusText (after st (handleAnalyze st network)) = js "Last run from Gemini" /\
  renderSuggestions (after st (handleAnalyze st network)) = ([], Throws TypeError).
Proof.
  intros Hp Ha Hok Hj Ht Hs. rewrite (after_ok st network resp data Hp Ha Hok Hj).
  split; [reflexivity|].
  split; [unfold statusText; cbn [analysis]; rewrite Ht; reflexivity|].
  unfold renderSuggestions. cbn [analysis]. rewrite Ht, Hs. reflexivity.
Qed.

(** One row, from an item that is not [null]. *)
Lemma renderCriterion_row c :
  c <> JNull ->
  exists row, renderCriterion c = ([], Returns row) /\
              key row = Get c (js "id") /\
              rowLabel row = Get c (js "label") /\
              rowFeedback row = Get c (js "feedback") /\
              rowScore row = Get c (js "score") /\
              rowLevel row = Get c (js "level").
Proof.
  intros Hc. destruct c; [contradiction | | | | |];
    (eexists; split; [reflexivity|]; repeat split).
Qed.

Lemma mapM_rows items :
  ~ In JNull items ->
  exists rows, mapM renderCriterion items = ([], Returns rows) /\
               map key rows = map (fun c => Get c (js "id")) items /\
               map rowLabel rows = map (fun c => Get c (js "label")) items /\
               map rowFeedback rows = map (fun c => Get c (js "feedback")) items /\
               map rowScore rows = map (fun c => Get c (js "score")) items /\
               map rowLevel rows = map (fun c => Get c (js "level")) items.
Proof.
  induction items as [|c rest IH]; intros Hn.
  - exists []. repeat split.
  - destruct (renderCriterion_row c) as (row & E & K1 & K2 & K3 & K4 & K5).
    { intros ->. apply Hn. left. reflexivity. }
    destruct IH as (rows & Er & R1 & R2 & R3 & R4 & R5).
    { intros Hin. apply Hn. right. exact Hin. }
    exists (row :: rows). cbn [mapM]. rewrite E, Er. cbn [bind ret app map].
    rewrite K1, K2, K3, K4, K5, R1, R2, R3, R4, R5. repeat split.
Qed.

Lemma mapM_null items :
  In JNull items -> mapM renderCriterion items = ([], Throws TypeError).
Proof.
  induction items as [|c rest IH]; intros Hin; [destruct Hin|].
  destruct c; try reflexivity;
    (destruct Hin as [Hc | Hin]; [discriminate Hc|]);
    cbn [mapM]; rewrite (IH Hin); reflexivity.
Qed.

(** X19. When the stored analysis has an array under [criteria], the
    overview has one row for each item of that array, in the array's
    order and however many there are, each with the item's own id, label,
    feedback, score and level (nothing is clamped or defaulted); and a
    [null] among the items makes the rendering throw a TypeError. *)
Theorem criteria_rows_follow_analysis st items :
  optionalGet (analysis st) (js "criteria") = Some (JArray items) ->
  (~ In JNull items ->
     exists rows,
       renderCriteria st = ([], Returns rows) /\
       List.length rows = List.length items /\
       map key rows = map (fun c => Get c (js "id")) items /\
       map rowLabel rows = map (fun c => Get c (js "label")) items /\
       map rowFeedback rows = map (fun c => Get c (js "feedback")) items /\
       map rowScore rows = map (fun c => Get c (js "score")) items /\
       map rowLevel rows = map (fun c => Get c (js "level")) items) /\
  (In JNull items -> renderCriteria st = ([], Throws TypeError)).
Proof.
  intros Hc. unfold renderCriteria, criteriaScores. rewrite Hc. cbn [nullishOr]. split.
  - intros Hn. destruct (mapM_rows items Hn) as (rows & E & R1 & R2 & R3 & R4 & R5).
    exists rows. split; [exact E|].
    split; [rewrite <- (length_map key rows), R1; apply length_map|].
    repeat split; assumption.
  - apply mapM_null.
Qed.

(** X20. The character counter never exceeds the length of the prompt, and
    it reads 0 exactly when a click on Analyze is refused with the request
    to write a prompt first. *)
Theorem counter_zero_iff_refused st :
  characterCount st <= List.length (prompt st) /\
  (characterCount st = 0
   <-> forall network,
         handleAnalyze st network = ([SetError (Some writeFirstMessage)], Returns tt)).
Proof.
  unfold characterCount. split.
  - destruct (strip_split isWhiteSpace (prompt st)) as (a & b & E & _).
    apply (f_equal (@List.length N)) in E. rewrite !length_app in E.
    change (strip isWhiteSpace (prompt st)) with (trim (prompt st)) in E. lia.
  - split.
    + intros Hz network. apply handleAnalyze_blank. apply length_zero_iff_nil. exact Hz.
    + intros Hall. apply length_zero_iff_nil.
      destruct (trim (prompt st)) as [|c r] eqn:Ht; [reflexivity|exfalso].
      specialize (Hall (fun _ _ => Throws NonError)).
      rewrite (handleAnalyze_fetch_throws st (fun _ _ => Throws NonError) NonError) in Hall;
        [discriminate Hall | rewrite Ht; discriminate | reflexivity].
Qed.

(** X21. When the endpoint refuses with an [error] that is a string, that
    string becomes the error of the page, and the error paragraph shows it
    unless it is empty: a refusal with an empty error text leaves no error
    paragraph at all, and the earlier analysis stays in place. *)
Theorem refusal_text_shown_unless_empty st network resp data s :
  trim (prompt st) <> [] ->
  answer network (prompt st) = Returns resp ->
  ok resp = false ->
  json resp = Returns data ->
  optionalGet data (js "error") = Some (JString s) ->
  error (after st (handleAnalyze st network)) = Some s /\
  shownError (after st (handleAnalyze st network)) = (if isEmpty s then None else Some s) /\
  analysis (after st (handleAnalyze st network)) = analysis st /\
  isAnalyzing (after st (handleAnalyze st network)) = false.
Proof.
  intros Hp Ha Hok Hj He. unfold after.
  rewrite (handleAnalyze_not_ok st network resp data Hp Ha Hj Hok), He.
  cbn. unfold shownError. cbn. destruct s; repeat split.
Qed.

(** X22. The bar of the score is never narrower than 10 percent and is not
    capped: for a score that is a number, its width is the score itself
    when the score exceeds 10, and 10 otherwise. *)
Theorem bar_width_at_least_ten x :
  PrimFloat.is_nan x = false ->
  (PrimFloat.ltb 10 x = true -> barWidth x = x) /\
  (PrimFloat.ltb 10 x = false -> barWidth x = 10%float) /\
  PrimFloat.leb 10 (barWidth x) = true.
Proof.
  intros Hn. unfold barWidth, Math_max. rewrite Hn.
  replace (PrimFloat.is_nan 10) with false by reflexivity.
  replace (PrimFloat.get_sign 10) with false by reflexivity.
  cbn [orb].
  destruct (PrimFloat.ltb 10 x) eqn:L.
  - split; [reflexivity|]. split; [discriminate|].
    rewrite FloatAxioms.leb_spec. rewrite FloatAxioms.ltb_spec in L.
    unfold SFleb. unfold SFltb in L.
    destruct (SFcompare (Prim2SF 10) (Prim2SF x)) as [[]|]; try discriminate L; reflexivity.
  - split; [discriminate|].
    destruct (PrimFloat.ltb x 10); (split; [reflexivity|]); reflexivity.
Qed.

(** X23. After an ok answer that has an array under [criteria] without a
    [null] item, an array under [suggestions] and a string under
    [improvedPrompt], the three computations of [Home] that can throw a
    TypeError of their own all return: the overview rows (one for each
    criterion), the suggestions card (the array as rows, or the remark
    that there are none when it is empty) and the panel (the improved
    prompt unless it is blank). The statement is about the code of [Home]
    only: the values are handed to React as they are, and what React does
    with a value it is handed is no part of it. *)
Theorem well_shaped_answer_evaluates st network resp data items suggestions X :
  trim (prompt st) <> [] ->
  answer network (prompt st) = Returns resp ->
  ok resp = true ->
  json resp = Returns data ->
  Get data (js "criteria") = Some (JArray items) ->
  ~ In JNull items ->
  Get data (js "suggestions") = Some (JArray suggestions) ->
  Get data (js "improvedPrompt") = Some (JString X) ->
  (exists rows, renderCriteria (after st (handleAnalyze st network)) = ([], Returns rows) /\
                List.length rows = List.length items) /\
  renderSuggestions (after st (handleAnalyze st network))
  = ([], Returns (match suggestions with [] => NoIssues | _ => Rows suggestions end)) /\
  renderPanel (after st (handleAnalyze st network))
  = ([], Returns (if isEmpty (trim X) then RunAnalysisFirst
                  else Improved (Some (JString X)))) /\
  statusText (after st (handleAnalyze st network)) = js "Last run from Gemini".
Proof.
  intros Hp Ha Hok Hj Hc Hn Hs Hi. rewrite (after_ok st network resp data Hp Ha Hok Hj).
  assert (Ht : ToBoolean data = true) by (destruct data; try discriminate Hc; reflexivity).
  assert (Ho : optionalGet data (js "criteria") = Some (JArray items))
    by (destruct data; try discriminate Hc; exact Hc).
  split; [|split; [|split]].
  - destruct (mapM_rows items Hn) as (rows & E & R1 & _).
    exists rows. unfold renderCriteria, criteriaScores. cbn [analysis].
    rewrite Ho. cbn [nullishOr]. split; [exact E|].
    rewrite <- (length_map key rows), R1. apply length_map.
  - unfold renderSuggestions. cbn [analysis]. rewrite Ht, Hs.
    destruct suggestions; reflexivity.
  - unfold renderPanel, copyUnavailable. cbn [analysis]. rewrite Ht, Hi. cbn [negb].
    unfold ToBoolean. destruct (trim X); reflexivity.
  - unfold statusText. cbn [analysis]. rewrite Ht. reflexivity.
Qed.

End WhatIsShown.

(* ===================================================================== *)
(** * More runs on the reference host *)
(* ===================================================================== *)

Section MoreOnReferenceHost.
#[local] Existing Instance RefHost.host.
Import Route Page View.

Ltac run :=
  solve [ vm_compute; reflexivity
        | vm_compute; discriminate
        | vm_compute; intuition discriminate ].

(** A body whose prompt is the number 5 is answered with 400. *)
Lemma numeric_prompt_witness :
  apiKeySet Sample.env = true /\
  JSON_parse (bodyText Cases.numericPrompt) = Returns (JObject [(js "prompt", JNumber 5)]) /\
  responseStatus (POST Sample.env (replies Sample.replyText) Cases.numericPrompt)
  = Some 400%N.
Proof.
  assert (Hb : JSON_parse (bodyText Cases.numericPrompt)
               = Returns (JObject [(js "prompt", JNumber 5)])) by run.
  split; [reflexivity|]. split; [exact Hb|].
  apply (proj2 (prompt_refused_iff_not_nonblank_string Sample.env
                  (replies Sample.replyText) Cases.numericPrompt
                  (JObject [(js "prompt", JNumber 5)]) eq_refl Hb)).
  intros (p & Hg & _). vm_compute in Hg. discriminate Hg.
Defined.

(** A prompt with white space around it holds no backtick. *)
Lemma no_backtick_witness :
  ~ In BACKTICK Cases.paddedPrompt /\
  cleaned Cases.paddedPrompt = js "Write something.".
Proof.
  assert (Hno : ~ In BACKTICK Cases.paddedPrompt) by run.
  split; [exact Hno|].
  rewrite (reply_without_backtick_only_trimmed Cases.paddedPrompt Hno). reflexivity.
Defined.

(** An opening fence alone, after a no-break space, and a closing fence
    alone. *)
Lemma half_fence_witness :
  JSON_parse Sample.replyText = Returns Sample.replyValue /\
  POST Sample.env (replies Cases.halfFenced) Sample.request
  = POST Sample.env (replies Sample.replyText) Sample.request /\
  POST Sample.env (replies Cases.closedOnly) Sample.request
  = POST Sample.env (replies Sample.replyText) Sample.request.
Proof.
  split; [run|]. split.
  - apply (wrapped_reply_same_response RefHost_grammar Sample.env Sample.request
             [160%N] (Some (js "Json", [LF])) Sample.replyText None [LF; 160%N]
             Sample.replyValue); run.
  - apply (wrapped_reply_same_response RefHost_grammar Sample.env Sample.request
             [] None Sample.replyText (Some [LF]) [] Sample.replyValue); run.
Defined.

(** A new analysis replaces the old one and the old error. *)
Lemma successful_attempt_witness :
  trim (prompt Moments.analyzed) <> [] /\
  after Moments.analyzed
        (handleAnalyze Moments.analyzed (Moments.answering (JObject [])))
  = {| prompt := js "Write something."; analysis := JObject []; isAnalyzing := false;
       error := None; copied := false |}.
Proof.
  split; [run|].
  apply (successful_attempt_stores_body Moments.analyzed (Moments.answering (JObject []))
           {| ok := true; json := Returns (JObject []) |} (JObject [])); run.
Defined.

(** One request, also when there is no connection. *)
Lemma one_request_witness :
  trim (prompt Moments.typing) <> [] /\
  requestsSent (events (handleAnalyze Moments.typing Scenario.offline))
  = [analyzeRequest (js "Write something.")] /\
  isAnalyzing (after Moments.typing (handleAnalyze Moments.typing Scenario.offline)) = false.
Proof.
  assert (Hp : trim (prompt Moments.typing) <> []) by run.
  split; [exact Hp|].
  destruct (attempt_sends_one_request_while_busy Moments.typing Scenario.offline Hp)
    as (_ & sent & _ & _ & idle).
  split; [exact sent | exact idle].
Defined.

(** The request of the page, handed to the endpoint. *)
Lemma page_request_witness :
  trim (prompt Moments.typing) <> [] /\
  JSON_parse (JSON_stringify (JObject [(js "prompt", JString (prompt Moments.typing))]))
  = Returns (JObject [(js "prompt", JString (prompt Moments.typing))]) /\
  forall url method headers body,
    In (Fetch url method headers body)
       (events (handleAnalyze Moments.typing Scenario.offline)) ->
    url = js "/api/analyze" /\
    method = js "POST" /\
    responseStatus (POST Sample.env (replies Sample.replyText) {| bodyText := body |})
    <> Some 400%N /\
    modelCalls (events (POST Sample.env (replies Sample.replyText) {| bodyText := body |}))
    = [(modelName, userText (prompt Moments.typing))].
Proof.
  assert (Hp : trim (prompt Moments.typing) <> []) by run.
  assert (Hr : JSON_parse (JSON_stringify
                             (JObject [(js "prompt", JString (prompt Moments.typing))]))
               = Returns (JObject [(js "prompt", JString (prompt Moments.typing))])) by run.
  split; [exact Hp|]. split; [exact Hr|].
  apply (page_request_reaches_model Moments.typing Scenario.offline Sample.env
           (replies Sample.replyText) Hp eq_refl Hr).
Defined.

(** The improved prompt, used and then analyzed. *)
Lemma use_then_analyze_witness :
  Get (analysis Moments.analyzed) (js "improvedPrompt")
  = Some (JString (js " You are a writer. ")) /\
  trim (js " You are a writer. ") <> [] /\
  requestsSent
    (events (handleAnalyze (after Moments.analyzed (handleUseImproved Moments.analyzed))
                           Scenario.offline))
  = [analyzeRequest (js " You are a writer. ")].
Proof.
  assert (Ht : trim (js " You are a writer. ") <> []) by run.
  split; [reflexivity|]. split; [exact Ht|].
  apply (use_improved_then_analyze Moments.analyzed Scenario.offline
           (js " You are a writer. ") eq_refl Ht).
Defined.

(** The copy handler with a clipboard that works and with one that
    refuses. *)
Lemma copy_witness :
  Get (analysis Moments.analyzed) (js "improvedPrompt")
  = Some (JString (js " You are a writer. ")) /\
  trim (js " You are a writer. ") <> [] /\
  handleCopyImproved Moments.analyzed Moments.clipboardWorks
  = ([WriteText (Some (JString (js " You are a writer. "))); Call (SetCopied true);
      SetTimeout (setCopied false) 1500], Returns tt) /\
  handleCopyImproved Moments.analyzed Moments.clipboardDenied
  = ([WriteText (Some (JString (js " You are a writer. "))); Call (SetCopied false)],
     Returns tt).
Proof.
  assert (Ht : trim (js " You are a writer. ") <> []) by run.
  split; [reflexivity|]. split; [exact Ht|]. split.
  - apply (proj1 (copy_writes_the_improved_prompt Moments.analyzed Moments.clipboardWorks
                    (js " You are a writer. ") eq_refl Ht)). reflexivity.
  - apply (proj2 (copy_writes_the_improved_prompt Moments.analyzed Moments.clipboardDenied
                    (js " You are a writer. ") eq_refl Ht)
             (ErrorObj (js "Write permission denied."))). reflexivity.
Defined.

(** The endpoint passes on a reply that is the text null. *)
Lemma falsy_answer_witness :
  trim (prompt Moments.analyzed) <> [] /\
  ToBoolean JNull = false /\
  analysis (after Moments.analyzed
                  (handleAnalyze Moments.analyzed (Moments.answering JNull))) = JNull /\
  shownError (after Moments.analyzed
                    (handleAnalyze Moments.analyzed (Moments.answering JNull))) = None /\
  renderPanel (after Moments.analyzed
                     (handleAnalyze Moments.analyzed (Moments.answering JNull)))
  = ([], Returns RunAnalysisFirst).
Proof.
  assert (Hp : trim (prompt Moments.analyzed) <> []) by run.
  split; [exact Hp|]. split; [reflexivity|].
  destruct (falsy_answer_looks_like_no_analysis Moments.analyzed (Moments.answering JNull)
              {| ok := true; json := Returns JNull |} JNull Hp eq_refl eq_refl eq_refl eq_refl)
    as (stored & quiet & _ & _ & _ & _ & _ & panel & _).
  split; [exact stored|]. split; [exact quiet | exact panel].
Defined.

(** The empty object, answered with 200. *)
Lemma empty_object_witness :
  trim (prompt Moments.typing) <> [] /\
  Get (JObject []) (js "suggestions") = None /\
  renderSuggestions (after Moments.typing
                           (handleAnalyze Moments.typing (Moments.answering (JObject []))))
  = ([], Throws TypeError).
Proof.
  assert (Hp : trim (prompt Moments.typing) <> []) by run.
  split; [exact Hp|]. split; [reflexivity|].
  apply (unchecked_answer_breaks_suggestions Moments.typing (Moments.answering (JObject []))
           {| ok := true; json := Returns (JObject []) |} (JObject [])
           Hp eq_refl eq_refl eq_refl eq_refl eq_refl).
Defined.

(** Two criteria, one with a score of 250. *)
Lemma criteria_rows_witness :
  exists items rows,
    optionalGet (analysis Moments.analyzed) (js "criteria") = Some (JArray items) /\
    ~ In JNull items /\
    renderCriteria Moments.analyzed = ([], Returns rows) /\
    List.length rows = 2 /\
    map rowScore rows = [Some (JNumber 250); Some (JNumber 7)] /\
    map rowLabel rows = [Some (JString (js "Goal")); None].
Proof.
  eexists.
  assert (Hn : ~ In JNull
                 [JObject [(js "id", JString (js "goal"));
                           (js "label", JString (js "Goal"));
                           (js "score", JNumber 250);
                           (js "level", JString (js "strong"));
                           (js "feedback", JString (js "Clear."))];
                  JObject [(js "id", JString (js "tone"));
                           (js "score", JNumber 7);
                           (js "level", JString (js "weak"))]])
    by (cbn; intuition discriminate).
  destruct (proj1 (criteria_rows_follow_analysis Moments.analyzed _ eq_refl) Hn)
    as (rows & E & L & _ & labels & _ & scores & _).
  exists rows. split; [reflexivity|]. split; [exact Hn|]. split; [exact E|].
  split; [exact L|]. split; [rewrite scores; reflexivity | rewrite labels; reflexivity].
Defined.

(** A refusal whose error text is empty. *)
Lemma empty_refusal_witness :
  trim (prompt Moments.analyzed) <> [] /\
  shownError
    (after Moments.analyzed
       (handleAnalyze Moments.analyzed
          (fun _ _ => Returns {| ok := false;
                                 json := Returns (JObject [(js "error", JString [])]) |})))
  = None /\
  shownError (after Moments.analyzed (handleAnalyze Moments.analyzed Scenario.rejecting))
  = Some promptRequiredMessage.
Proof.
  assert (Hp : trim (prompt Moments.analyzed) <> []) by run.
  split; [exact Hp|]. split.
  - apply (proj1 (proj2 (refusal_text_shown_unless_empty Moments.analyzed
             (fun _ _ => Returns {| ok := false;
                                    json := Returns (JObject [(js "error", JString [])]) |})
             {| ok := false; json := Returns (JObject [(js "error", JString [])]) |}
             (JObject [(js "error", JString [])]) [] Hp eq_refl eq_refl eq_refl eq_refl))).
  - apply (proj1 (proj2 (refusal_text_shown_unless_empty Moments.analyzed Scenario.rejecting
             {| ok := false;
                json := Returns (JObject [(js "error", JString promptRequiredMessage)]) |}
             (JObject [(js "error", JString promptRequiredMessage)]) promptRequiredMessage
             Hp eq_refl eq_refl eq_refl eq_refl))).
Defined.

(** A score of 250 gives a bar of 250 percent, a score of 3 one of 10. *)
Lemma bar_width_witness :
  PrimFloat.is_nan 250 = false /\
  barWidth 250 = 250%float /\
  barWidth 3 = 10%float /\
  PrimFloat.leb 10 (barWidth 250) = true.
Proof.
  split; [reflexivity|].
  destruct (bar_width_at_least_ten 250 eq_refl) as (wide & _ & least).
  destruct (bar_width_at_least_ten 3 eq_refl) as (_ & narrow & _).
  split; [exact (wide eq_refl)|]. split; [exact (narrow eq_refl) | exact least].
Defined.

(** The analysis of the sample, rendered. *)
Lemma well_shaped_witness :
  trim (prompt Moments.typing) <> [] /\
  renderSuggestions
    (after Moments.typing
       (handleAnalyze Moments.typing (Moments.answering Moments.analysisValue)))
  = ([], Returns (Rows [JString (js "Add context")])) /\
  renderPanel
    (after Moments.typing
       (handleAnalyze Moments.typing (Moments.answering Moments.analysisValue)))
  = ([], Returns (Improved (Some (JString (js " You are a writer. "))))).
Proof.
  assert (Hp : trim (prompt Moments.typing) <> []) by run.
  split; [exact Hp|].
  destruct (well_shaped_answer_evaluates Moments.typing
              (Moments.answering Moments.analysisValue)
              {| ok := true; json := Returns Moments.analysisValue |}
              Moments.analysisValue _ _ _ Hp eq_refl eq_refl eq_refl eq_refl
              ltac:(cbn; intuition discriminate) eq_refl eq_refl)
    as (_ & cards & panel & _).
  split; [exact cards | exact panel].
Defined.

End MoreOnReferenceHost.
